(** * IPO Monitor: a shallow embedding of [ipo_monitor.py] and its specification

    The script fetches the IPO calendar of the day, keeps the offerings whose
    offer amount exceeds 200 million dollars, renders a report and mails it.
    The embedding follows the script function by function:

    - Python floats are binary64 values, modelled by [spec_float] with the
      IEEE operations of the Standard Library's [SpecFloat];
    - Python ints are [Z];
    - [str] is [string] (the UTF-8 bytes of the text);
    - [os.environ] is a finite map from names to values;
    - logging, the HTTP call and the SMTP session are effects on an explicit
      state (the log and the trace of network operations), and the answers of
      the outside world are inputs of the run;
    - exceptions and [sys.exit] are outcomes of a computation. *)

From Stdlib Require Import ZArith String Ascii List Bool Lia.
From Stdlib Require Import DecimalString.
From Stdlib Require Import Floats.SpecFloat.
From stdpp Require Import gmap strings.

Import ListNotations.
Open Scope string_scope.
Open Scope Z_scope.

(** ** Text *)

Module PyStr.

(** The double quote and the line feed. *)
Definition dq : string := String (ascii_of_nat 34) EmptyString.
Definition nl : string := String (ascii_of_nat 10) EmptyString.

(** [s * n] for a string [s] and a count [n]. *)
Fixpoint repeat (s : string) (n : nat) : string :=
  match n with
  | O => EmptyString
  | S k => s ++ repeat s k
  end.

(** [sep.join(parts)]. *)
Fixpoint join (sep : string) (parts : list string) : string :=
  match parts with
  | [] => EmptyString
  | [p] => p
  | p :: rest => p ++ sep ++ join sep rest
  end.

(** [bool(s)]: a string is true when it is not empty. *)
Definition truthy (s : string) : bool :=
  match s with
  | EmptyString => false
  | String _ _ => true
  end.

(** [needle in hay]. *)
Fixpoint contains (needle hay : string) : bool :=
  String.prefix needle hay ||
  match hay with
  | EmptyString => false
  | String _ rest => contains needle rest
  end.

(** [s.split(chr(10))]: the lines of a text. *)
Fixpoint lines_from (cur : string) (s : string) : list string :=
  match s with
  | EmptyString => [cur]
  | String c rest =>
      if Ascii.eqb c (ascii_of_nat 10)
      then cur :: lines_from EmptyString rest
      else lines_from (cur ++ String c EmptyString) rest
  end.

Definition lines (s : string) : list string := lines_from EmptyString s.

(** [str(n)] for a natural number. *)
Definition of_N (n : N) : string := NilZero.string_of_uint (N.to_uint n).

(** [str(z)] for an int. *)
Definition of_Z (z : Z) : string := NilZero.string_of_int (Z.to_int z).

(** The thousands separators of the [,] format option: a comma before every
    group of three digits, counted from the right. [left] is the number of
    digits still to come, the current one included. *)
Fixpoint group_from (digits : string) (left : nat) : string :=
  match digits with
  | EmptyString => EmptyString
  | String c rest =>
      let sep :=
        match left with
        | S (S _ as k) => if Nat.eqb (Nat.modulo k 3) 0 then "," else EmptyString
        | _ => EmptyString
        end in
      String c (sep ++ group_from rest (Nat.pred left))
  end.

Definition group3 (digits : string) : string :=
  group_from digits (String.length digits).

(** The sign of a formatted number: only negatives carry one. *)
Definition sign (negative : bool) : string :=
  if negative then "-" else EmptyString.

(** [f"{z:,}"] for an int. *)
Definition format_int_comma (z : Z) : string :=
  sign (z <? 0) ++ group3 (of_N (Z.abs_N z)).

(** [str(v)] for an optional string: [None] prints as its name. *)
Definition of_optional (v : option string) : string :=
  match v with
  | Some s => s
  | None => "None"
  end.

End PyStr.

(** ** Floats *)

Module PyFloat.

(** binary64: 53 bits of precision, exponents below 1024. *)
Definition prec : Z := 53.
Definition emax : Z := 1024.

Definition float : Set := spec_float.

Definition mul : float -> float -> float := SFmul prec emax.
Definition div : float -> float -> float := SFdiv prec emax.

(** The float nearest to an integer (ties to even); an infinity when the
    integer is beyond the range of binary64. *)
Definition nearest (z : Z) : float := binary_normalize prec emax z 0 false.

(** The float nearest to the decimal literal [n / 10^k], as [float(text)] and
    the JSON decoder read it. *)
Definition of_decimal (n : Z) (k : nat) : float :=
  match n with
  | Z0 => S754_zero false
  | _ =>
      let '(q, e, l) := SFdiv_core_binary prec emax (Z.abs n) 0 (10 ^ Z.of_nat k) 0 in
      binary_round_aux prec emax (n <? 0) q e l
  end.

(** [bool(x)]: every float but the two zeros is true (a NaN too). *)
Definition truthy (x : float) : bool :=
  match x with
  | S754_zero _ => false
  | _ => true
  end.

(** Comparison of a float with an int. Python compares the two exactly, as
    numbers; a NaN compares with nothing. *)
Definition compare_int (x : float) (z : Z) : option comparison :=
  match x with
  | S754_nan => None
  | S754_infinity s => Some (if s then Lt else Gt)
  | S754_zero _ => Some (0 ?= z)
  | S754_finite s m e =>
      let v := cond_Zopp s (Zpos m) in
      match e with
      | Zneg p => Some (v ?= z * 2 ^ Zpos p)
      | _ => Some (v * 2 ^ e ?= z)
      end
  end.

(** [x > z] and [x >= z]. *)
Definition gt_int (x : float) (z : Z) : bool :=
  match compare_int x z with
  | Some Gt => true
  | _ => false
  end.

Definition ge_int (x : float) (z : Z) : bool :=
  match compare_int x z with
  | Some (Gt | Eq) => true
  | _ => false
  end.

(** The integer nearest to [m * 2^e * 100], ties to even: the hundredths that
    the format [.2f] prints for the magnitude [m * 2^e]. *)
Definition hundredths (m : positive) (e : Z) : Z :=
  match e with
  | Zneg p =>
      let num := Zpos m * 100 in
      let den := 2 ^ Zpos p in
      let q := num / den in
      match 2 * (num mod den) ?= den with
      | Lt => q
      | Gt => q + 1
      | Eq => if Z.even q then q else q + 1
      end
  | _ => Zpos m * 2 ^ e * 100
  end.

Definition two_digits (n : Z) : string :=
  if n <? 10 then "0" ++ PyStr.of_Z n else PyStr.of_Z n.

(** [f"{x:.2f}"], and [f"{x:,.2f}"] when [grouping] is set. *)
Definition format_2f (grouping : bool) (x : float) : string :=
  match x with
  | S754_nan => "nan"
  | S754_infinity s => PyStr.sign s ++ "inf"
  | S754_zero s => PyStr.sign s ++ "0.00"
  | S754_finite s m e =>
      let h := hundredths m e in
      let whole := PyStr.of_Z (h / 100) in
      PyStr.sign s
        ++ (if grouping then PyStr.group3 whole else whole)
        ++ "." ++ two_digits (h mod 100)
  end.

End PyFloat.

(** ** Exceptions, outcomes and effects *)

(** The classes of the exceptions that the script can meet. [RequestException]
    stands for [requests.RequestException] and its subclasses ([Timeout],
    [ConnectionError], [HTTPError], [JSONDecodeError]); [LibraryError] for any
    other exception raised from inside [smtplib], [ssl] or [socket]. *)
Inductive exn_class : Set :=
| RequestException
| AttributeError
| TypeError
| ValueError
| OverflowError
| LibraryError.

(** An exception: its class and [str(e)]. *)
Record exn : Set := Exn { exn_class_of : exn_class; exn_text : string }.

(** A computation without effects that may raise. *)
Inductive result (A : Type) : Type :=
| Ok (a : A)
| Error (e : exn).

Arguments Ok {A} a.
Arguments Error {A} e.

Definition result_bind {A B : Type} (r : result A) (k : A -> result B) : result B :=
  match r with
  | Ok a => k a
  | Error e => Error e
  end.

(** A list comprehension [[f(x) for x in xs]]: the first exception ends it. *)
Fixpoint result_map {A B : Type} (f : A -> result B) (xs : list A) : result (list B) :=
  match xs with
  | [] => Ok []
  | x :: rest =>
      result_bind (f x) (fun y =>
      result_bind (result_map f rest) (fun ys => Ok (y :: ys)))
  end.

(** The levels of the two logging calls in use. *)
Inductive level : Set := INFO | ERROR.

(** The parts of a [MIMEMultipart('alternative')] message, in the order they
    are attached: each is a subtype and a body. *)
Record Message : Set := {
  msg_subject : string;
  msg_from : string;
  msg_to : string;
  msg_parts : list (string * string)
}.

(** The operations on the network, as the script issues them. *)
Inductive net_event : Set :=
| HttpGet (url : string) (headers params : list (string * string)) (timeout : Z)
| SmtpConnect (host : string) (port : Z)
| SmtpStartTls
| SmtpLogin (user password : string)
| SmtpSendmail (from_addr to_addr : string) (msg : Message)
| SmtpQuit.

(** What a run has done so far: the records logged and the network
    operations issued, oldest first. *)
Record state : Set := {
  log : list (level * string);
  net : list net_event
}.

Definition initial : state := {| log := []; net := [] |}.

(** How a computation ends: with a value, with an exception, or with
    [sys.exit(code)]. *)
Inductive outcome (A : Type) : Type :=
| Ret (a : A)
| Raise (e : exn)
| Exit (code : Z).

Arguments Ret {A} a.
Arguments Raise {A} e.
Arguments Exit {A} code.

Definition M (A : Type) : Type := state -> outcome A * state.

Definition ret {A : Type} (a : A) : M A := fun st => (Ret a, st).

Definition bind {A B : Type} (c : M A) (k : A -> M B) : M B :=
  fun st =>
    match c st with
    | (Ret a, st') => k a st'
    | (Raise e, st') => (Raise e, st')
    | (Exit code, st') => (Exit code, st')
    end.

Declare Scope m_scope.
Delimit Scope m_scope with M.
Bind Scope m_scope with M.

Notation "x <- c ;; k" := (bind c (fun x => k))
  (at level 100, c at next level, k at level 200, right associativity) : m_scope.
Notation "c ;; k" := (bind c (fun _ => k))
  (at level 100, k at level 200, right associativity) : m_scope.

Open Scope m_scope.

Definition raise {A : Type} (e : exn) : M A := fun st => (Raise e, st).

(** [sys.exit(code)]. *)
Definition sys_exit {A : Type} (code : Z) : M A := fun st => (Exit code, st).

Definition lift {A : Type} (r : result A) : M A :=
  match r with
  | Ok a => ret a
  | Error e => raise e
  end.

(** [logger.info(text)] and [logger.error(text)]. *)
Definition logger_info (text : string) : M unit :=
  fun st => (Ret tt, {| log := log st ++ [(INFO, text)]; net := net st |}).

Definition logger_error (text : string) : M unit :=
  fun st => (Ret tt, {| log := log st ++ [(ERROR, text)]; net := net st |}).

(** Issuing a network operation records it. *)
Definition issue (ev : net_event) : M unit :=
  fun st => (Ret tt, {| log := log st; net := net st ++ [ev] |}).

(** [try: body / except <classes> as e: handler(e)]. An exit is no
    exception of these classes ([SystemExit] derives from [BaseException]). *)
Definition try_except {A : Type} (body : M A) (catches : exn -> bool)
    (handler : exn -> M A) : M A :=
  fun st =>
    match body st with
    | (Raise e, st') => if catches e then handler e st' else (Raise e, st')
    | other => other
    end.

(** [try: body / finally: cleanup], with a cleanup that may itself raise. *)
Definition try_finally {A : Type} (body : M A) (cleanup : M unit) : M A :=
  fun st =>
    match body st with
    | (Ret a, st') => (cleanup ;; ret a) st'
    | (Raise e, st') =>
        match cleanup st' with
        | (Ret _, st'') => (Raise e, st'')
        | (Raise e', st'') => (Raise e', st'')
        | (Exit code, st'') => (Exit code, st'')
        end
    | (Exit code, st') =>
        match cleanup st' with
        | (Ret _, st'') => (Exit code, st'')
        | (Raise e', st'') => (Raise e', st'')
        | (Exit code', st'') => (Exit code', st'')
        end
    end.

(** The status the process ends with: 0 when [main] returns, the code of
    [sys.exit], and 1 when an exception reaches the top. *)
Definition exit_status {A : Type} (o : outcome A) : Z :=
  match o with
  | Ret _ => 0
  | Raise _ => 1
  | Exit code => code
  end.

(** ** The data model *)

Import PyStr.

(** [OFFER_AMOUNT_THRESHOLD]: 200 million dollars. *)
Definition OFFER_AMOUNT_THRESHOLD : Z := 200000000.

(** One entry of the provider's calendar, as decoded from JSON. A field is
    [None] when [data.get] finds nothing for its key. The values carry the
    types that the data class below declares for them: strings for the
    symbol, the name and the date, a float for the price, an int for the
    number of shares, a string or [null] for the exchange. *)
Record RawIPO : Set := {
  raw_symbol : option string;
  raw_name : option string;
  raw_date : option string;
  raw_price : option PyFloat.float;
  raw_numberOfShares : option Z;
  raw_exchange : option (option string)
}.

(** The data class [IPOData]. *)
Record IPOData : Set := {
  symbol : string;
  name : string;
  ipo_date : string;
  price : option PyFloat.float;
  shares : option Z;
  offer_amount : option PyFloat.float;
  exchange : option string
}.

(** [bool(v)] for an optional float and an optional int: [None] and zero are
    false. *)
Definition float_truthy (v : option PyFloat.float) : bool :=
  match v with
  | Some x => PyFloat.truthy x
  | None => false
  end.

Definition int_truthy (v : option Z) : bool :=
  match v with
  | Some z => negb (z =? 0)
  | None => false
  end.

(** [float(z)] as the product of a float and an int performs it: an int
    beyond the range of binary64 raises [OverflowError]. *)
Definition float_of_int (z : Z) : result PyFloat.float :=
  match PyFloat.nearest z with
  | S754_infinity _ => Error (Exn OverflowError "int too large to convert to float")
  | x => Ok x
  end.

(** [price * shares] for a float and an int. *)
Definition float_times_int (x : PyFloat.float) (z : Z) : result PyFloat.float :=
  result_bind (float_of_int z) (fun y => Ok (PyFloat.mul x y)).

(** [IPOData.from_finnhub]. *)
Definition from_finnhub (data : RawIPO) : result IPOData :=
  let price := raw_price data in
  let shares := raw_numberOfShares data in
  result_bind
    (match price, shares with
     | Some p, Some s =>
         if float_truthy price && int_truthy shares
         then result_bind (float_times_int p s) (fun v => Ok (Some v))
         else Ok None
     | _, _ => Ok None
     end)
    (fun offer_amount =>
       Ok {| symbol := default "N/A" (raw_symbol data);
             name := default "Unknown" (raw_name data);
             ipo_date := default EmptyString (raw_date data);
             price := price;
             shares := shares;
             offer_amount := offer_amount;
             exchange := default (Some "N/A") (raw_exchange data) |}).

(** [IPOData.format_offer_amount]. The two divisors are ints that binary64
    holds exactly. *)
Definition format_offer_amount (self : IPOData) : string :=
  match offer_amount self with
  | None => "N/A"
  | Some v =>
      if PyFloat.ge_int v 1000000000
      then "$" ++ PyFloat.format_2f false (PyFloat.div v (PyFloat.nearest 1000000000)) ++ "B"
      else if PyFloat.ge_int v 1000000
      then "$" ++ PyFloat.format_2f false (PyFloat.div v (PyFloat.nearest 1000000)) ++ "M"
      else "$" ++ PyFloat.format_2f true v
  end.

(** ** The calendar fetcher *)

(** The body of a response, as [response.json()] and the lookup of the
    calendar see it: text that is no JSON, a JSON object (with the list under
    the key [ipoCalendar], when it has that key), or a JSON value of another
    Python type (a list, a string, a number, [None]), named by [pytype]. *)
Inductive response_body : Set :=
| NotJson (text : string)
| JsonObject (ipoCalendar : option (list RawIPO))
| JsonOther (pytype : string).

Record Response : Set := {
  status_code : Z;
  reason : string;
  url : string;
  body : response_body
}.

(** How [session.get] can fail. *)
Inductive request_failure : Set := Timeout | ConnectionError.

(** What the HTTP call brings back: an exception of [requests] with its text,
    or a response. *)
Inductive http_result : Set :=
| HttpFailure (kind : request_failure) (text : string)
| HttpResponse (response : Response).

(** The outside world of one run: the environment variables, the day that
    [get_today_date] reads off the clock (UTC plus four hours, as
    [YYYY-MM-DD]), the answer to each HTTP request, and for each SMTP operation
    whether it fails ([Some text], the text of the exception) or not. *)
Record World : Type := {
  environ : gmap string string;
  today_date : string;
  http_reply : net_event -> http_result;
  smtp_reply : net_event -> option string
}.

Record FinnhubClient : Set := {
  api_key : string
}.

Definition BASE_URL : string := "https://finnhub.io/api/v1".

(** [self.session.get(endpoint, params=params, timeout=30)]; the session
    carries the token header. *)
Definition session_get (w : World) (self : FinnhubClient) (endpoint : string)
    (params : list (string * string)) (timeout : Z) : M Response :=
  let request := HttpGet endpoint [("X-Finnhub-Token", api_key self)] params timeout in
  issue request ;;
  match http_reply w request with
  | HttpFailure _ text => raise (Exn RequestException text)
  | HttpResponse response => ret response
  end.

(** [response.raise_for_status()]: an [HTTPError] for the statuses 400 to
    599, nothing for the others. *)
Definition raise_for_status (response : Response) : M unit :=
  let code := status_code response in
  if (400 <=? code) && (code <? 500)
  then raise (Exn RequestException
                (of_Z code ++ " Client Error: " ++ reason response
                   ++ " for url: " ++ url response))
  else if (500 <=? code) && (code <? 600)
  then raise (Exn RequestException
                (of_Z code ++ " Server Error: " ++ reason response
                   ++ " for url: " ++ url response))
  else ret tt.

(** [response.json()]: for a body that is no JSON, the [JSONDecodeError] of
    [requests] (version 2.27 and later), which is a [RequestException]. *)
Definition response_json (response : Response) : M response_body :=
  match body response with
  | NotJson text => raise (Exn RequestException text)
  | decoded => ret decoded
  end.

(** [data.get('ipoCalendar', [])]: only a dict has [get]. *)
Definition get_ipoCalendar (data : response_body) : M (list RawIPO) :=
  match data with
  | JsonObject (Some calendar) => ret calendar
  | JsonObject None => ret []
  | JsonOther pytype =>
      raise (Exn AttributeError ("'" ++ pytype ++ "' object has no attribute 'get'"))
  | NotJson text => raise (Exn RequestException text)
  end.

Definition is_request_exception (e : exn) : bool :=
  match exn_class_of e with
  | RequestException => true
  | _ => false
  end.

(** [FinnhubClient.get_ipo_calendar]. *)
Definition get_ipo_calendar (w : World) (self : FinnhubClient)
    (from_date to_date : string) : M (list RawIPO) :=
  let endpoint := BASE_URL ++ "/calendar/ipo" in
  let params := [("from", from_date); ("to", to_date)] in
  try_except
    (response <- session_get w self endpoint params 30 ;;
     raise_for_status response ;;
     data <- response_json response ;;
     get_ipoCalendar data)
    is_request_exception
    (fun e =>
       logger_error ("Failed to fetch IPO calendar: " ++ exn_text e) ;;
       ret []).

(** ** The notification dispatcher *)

Record EmailNotifier : Set := {
  sender : string;
  password : string;
  smtp_server : string;
  smtp_port : Z
}.

(** One operation of the SMTP session: recorded, then failing or not as the
    world has it. *)
Definition smtp (w : World) (ev : net_event) : M unit :=
  issue ev ;;
  match smtp_reply w ev with
  | Some text => raise (Exn LibraryError text)
  | None => ret tt
  end.

(** [EmailNotifier.send_email]. Leaving the [with] block, also by an
    exception, sends [QUIT]. *)
Definition send_email (w : World) (self : EmailNotifier)
    (recipient subject body_html body_text : string) : M bool :=
  try_except
    (let msg := {| msg_subject := subject;
                   msg_from := sender self;
                   msg_to := recipient;
                   msg_parts := [("plain", body_text); ("html", body_html)] |} in
     smtp w (SmtpConnect (smtp_server self) (smtp_port self)) ;;
     try_finally
       (smtp w SmtpStartTls ;;
        smtp w (SmtpLogin (sender self) (password self)) ;;
        smtp w (SmtpSendmail (sender self) recipient msg))
       (smtp w SmtpQuit) ;;
     logger_info ("Email sent successfully to " ++ recipient) ;;
     ret true)
    (fun _ => true)
    (fun e =>
       logger_error ("Failed to send email: " ++ exn_text e) ;;
       ret false).

(** ** The filter *)

(** [v and v > z] as a condition, for an optional float [v]: the comparison is
    only reached for a value that is true. *)
Definition exceeds (v : option PyFloat.float) (z : Z) : bool :=
  match v with
  | Some x => PyFloat.truthy x && PyFloat.gt_int x z
  | None => false
  end.

(** The loop of [filter_todays_large_ipos], with the list it appends to. *)
Fixpoint filter_loop (ipos : list IPOData) (target_date : string)
    (qualifying_ipos : list IPOData) : M (list IPOData) :=
  match ipos with
  | [] => ret qualifying_ipos
  | ipo :: rest =>
      if negb (String.eqb (ipo_date ipo) target_date)
      then filter_loop rest target_date qualifying_ipos
      else if exceeds (offer_amount ipo) OFFER_AMOUNT_THRESHOLD
      then
        let qualifying_ipos := (qualifying_ipos ++ [ipo])%list in
        logger_info ("Found qualifying IPO: " ++ symbol ipo ++ " - " ++ name ipo ++ " "
                       ++ "(Offer: " ++ format_offer_amount ipo ++ ")") ;;
        filter_loop rest target_date qualifying_ipos
      else filter_loop rest target_date qualifying_ipos
  end.

(** [filter_todays_large_ipos]. *)
Definition filter_todays_large_ipos (ipos : list IPOData) (target_date : string)
    : M (list IPOData) :=
  filter_loop ipos target_date [].

(** ** The report renderer *)

(** The block of one offering in the plain body. *)
Definition text_block (ipo : IPOData) : string :=
  ("Ticker: " ++ symbol ipo ++ nl)
  ++ ("Company: " ++ name ipo ++ nl)
  ++ ("IPO Date: " ++ ipo_date ipo ++ nl)
  ++ (match price ipo with
      | Some p =>
          if PyFloat.truthy p
          then "Price: $" ++ PyFloat.format_2f false p ++ nl
          else "Price: TBD" ++ nl
      | None => "Price: TBD" ++ nl
      end)
  ++ (match shares ipo with
      | Some s =>
          if negb (s =? 0)
          then "Shares: " ++ format_int_comma s ++ nl
          else "Shares: TBD" ++ nl
      | None => "Shares: TBD" ++ nl
      end)
  ++ ("Offer Amount: " ++ format_offer_amount ipo ++ nl)
  ++ ("Exchange: " ++ of_optional (exchange ipo) ++ nl)
  ++ (repeat "-" 30 ++ nl ++ nl).

(** The first loop of [create_email_content]: [text += ...] per offering. *)
Fixpoint text_loop (ipos : list IPOData) (text : string) : string :=
  match ipos with
  | [] => text
  | ipo :: rest => text_loop rest (text ++ text_block ipo)
  end.

(** [f"{ipo.price:.2f}"] with no test before it: [None] has no such format. *)
Definition price_2f (v : option PyFloat.float) : result string :=
  match v with
  | Some p => Ok (PyFloat.format_2f false p)
  | None => Error (Exn TypeError "unsupported format string passed to NoneType.__format__")
  end.

(** The table row of one offering in the rich body. In the source the price
    cell is the text [${ipo.price:.2f} if ipo.price else 'TBD'] inside the
    f-string: only the part in braces is evaluated, the rest is literal. *)
Definition html_row (ipo : IPOData) : result string :=
  result_bind (price_2f (price ipo)) (fun price_2f =>
  Ok (nl ++
  "        <tr>" ++ nl ++
  "            <td style=" ++ dq ++ "padding: 12px; border-bottom: 1px solid #ecf0f1;" ++ dq ++ ">" ++ nl ++
  "                <strong style=" ++ dq ++ "color: #2980b9; font-size: 16px;" ++ dq ++ ">" ++ symbol ipo ++ "</strong>" ++ nl ++
  "            </td>" ++ nl ++
  "            <td style=" ++ dq ++ "padding: 12px; border-bottom: 1px solid #ecf0f1;" ++ dq ++ ">" ++ name ipo ++ "</td>" ++ nl ++
  "            <td style=" ++ dq ++ "padding: 12px; border-bottom: 1px solid #ecf0f1;" ++ dq ++ ">" ++ nl ++
  "                $" ++ price_2f ++ " if ipo.price else 'TBD'" ++ nl ++
  "            </td>" ++ nl ++
  "            <td style=" ++ dq ++ "padding: 12px; border-bottom: 1px solid #ecf0f1;" ++ dq ++ ">" ++ nl ++
  "                <strong style=" ++ dq ++ "color: #27ae60;" ++ dq ++ ">" ++ format_offer_amount ipo ++ "</strong>" ++ nl ++
  "            </td>" ++ nl ++
  "            <td style=" ++ dq ++ "padding: 12px; border-bottom: 1px solid #ecf0f1;" ++ dq ++ ">" ++ of_optional (exchange ipo) ++ "</td>" ++ nl ++
  "        </tr>" ++ nl ++
  "        ")).

(** The second loop: [rows_html += ...] per offering. *)
Fixpoint rows_loop (ipos : list IPOData) (rows_html : string) : result string :=
  match ipos with
  | [] => Ok rows_html
  | ipo :: rest =>
      result_bind (html_row ipo) (fun row => rows_loop rest (rows_html ++ row))
  end.

(** The two bodies of a report with no offering. *)
Definition empty_text (date : string) : string :=
  ("IPO Monitor Report - " ++ date ++ nl ++ nl)
  ++ ("No IPOs with offer amount > $200M scheduled for today." ++ nl).

Definition empty_html (date : string) : string :=
  nl ++
  "        <html>" ++ nl ++
  "        <body style=" ++ dq ++ "font-family: Arial, sans-serif; max-width: 600px; margin: 0 auto;" ++ dq ++ ">" ++ nl ++
  "            <h2 style=" ++ dq ++ "color: #2c3e50;" ++ dq ++ ">📊 IPO Monitor Report - " ++ date ++ "</h2>" ++ nl ++
  "            <p style=" ++ dq ++ "color: #7f8c8d;" ++ dq ++ ">No IPOs with offer amount > $200M scheduled for today.</p>" ++ nl ++
  "            <hr style=" ++ dq ++ "border: 1px solid #ecf0f1;" ++ dq ++ ">" ++ nl ++
  "            <p style=" ++ dq ++ "font-size: 12px; color: #95a5a6;" ++ dq ++ ">" ++ nl ++
  "                This is an automated report from your IPO Monitor." ++ nl ++
  "            </p>" ++ nl ++
  "        </body>" ++ nl ++
  "        </html>" ++ nl ++
  "        ".

(** The rich body around the rows. *)
Definition html_page (date : string) (count : nat) (rows_html : string) : string :=
  nl ++
  "    <html>" ++ nl ++
  "    <body style=" ++ dq ++ "font-family: Arial, sans-serif; max-width: 800px; margin: 0 auto; padding: 20px;" ++ dq ++ ">" ++ nl ++
  "        <h2 style=" ++ dq ++ "color: #2c3e50;" ++ dq ++ ">📊 IPO Monitor Report - " ++ date ++ "</h2>" ++ nl ++
  "        <p style=" ++ dq ++ "background-color: #d4edda; padding: 15px; border-radius: 5px; color: #155724;" ++ dq ++ ">" ++ nl ++
  "            <strong>🔔 Alert:</strong> Found <strong>" ++ of_Z (Z.of_nat count) ++ "</strong> IPO(s) with offer amount > $200M today!" ++ nl ++
  "        </p>" ++ nl ++
  "        " ++ nl ++
  "        <table style=" ++ dq ++ "width: 100%; border-collapse: collapse; margin-top: 20px;" ++ dq ++ ">" ++ nl ++
  "            <thead>" ++ nl ++
  "                <tr style=" ++ dq ++ "background-color: #3498db; color: white;" ++ dq ++ ">" ++ nl ++
  "                    <th style=" ++ dq ++ "padding: 12px; text-align: left;" ++ dq ++ ">Ticker</th>" ++ nl ++
  "                    <th style=" ++ dq ++ "padding: 12px; text-align: left;" ++ dq ++ ">Company</th>" ++ nl ++
  "                    <th style=" ++ dq ++ "padding: 12px; text-align: left;" ++ dq ++ ">Price</th>" ++ nl ++
  "                    <th style=" ++ dq ++ "padding: 12px; text-align: left;" ++ dq ++ ">Offer Amount</th>" ++ nl ++
  "                    <th style=" ++ dq ++ "padding: 12px; text-align: left;" ++ dq ++ ">Exchange</th>" ++ nl ++
  "                </tr>" ++ nl ++
  "            </thead>" ++ nl ++
  "            <tbody>" ++ nl ++
  "                " ++ rows_html ++ nl ++
  "            </tbody>" ++ nl ++
  "        </table>" ++ nl ++
  "        " ++ nl ++
  "        <hr style=" ++ dq ++ "border: 1px solid #ecf0f1; margin-top: 30px;" ++ dq ++ ">" ++ nl ++
  "        <p style=" ++ dq ++ "font-size: 12px; color: #95a5a6;" ++ dq ++ ">" ++ nl ++
  "            This is an automated report from your IPO Monitor.<br>" ++ nl ++
  "            Threshold: Offer Amount > $200,000,000" ++ nl ++
  "        </p>" ++ nl ++
  "    </body>" ++ nl ++
  "    </html>" ++ nl ++
  "    ".

(** [create_email_content]: the rich body and the plain body, in this order. *)
Definition create_email_content (ipos : list IPOData) (date : string)
    : result (string * string) :=
  match ipos with
  | [] => Ok (empty_html date, empty_text date)
  | _ :: _ =>
      let text := "IPO Monitor Report - " ++ date ++ nl in
      let text := text ++ ("Found " ++ of_Z (Z.of_nat (length ipos))
                             ++ " IPO(s) with offer amount > $200M" ++ nl) in
      let text := text ++ (repeat "=" 50 ++ nl ++ nl) in
      let text := text_loop ipos text in
      result_bind (rows_loop ipos EmptyString) (fun rows_html =>
      let html := html_page date (length ipos) rows_html in
      Ok (html, text))
  end.

(** ** The orchestrator *)

(** [int(text)] for ASCII text: blanks around, a sign, then digits, where one
    underscore may stand between two digits. Anything else is a [ValueError].
    (Digits and blanks beyond ASCII, and the interpreter's limit on the
    length of a literal, are left out.) *)
Definition is_space (c : ascii) : bool :=
  let n := nat_of_ascii c in
  ((9 <=? n) && (n <=? 13) || (28 <=? n) && (n <=? 32))%nat.

Definition digit_of (c : ascii) : option Z :=
  let n := nat_of_ascii c in
  if ((48 <=? n) && (n <=? 57))%nat then Some (Z.of_nat n - 48) else None.

Fixpoint lstrip (s : string) : string :=
  match s with
  | String c rest => if is_space c then lstrip rest else s
  | EmptyString => s
  end.

(** The digits after the first one: [acc] is the number read so far; the
    text may end in blanks. *)
Fixpoint int_digits (s : string) (acc : Z) : option Z :=
  match s with
  | EmptyString => Some acc
  | String c rest =>
      match digit_of c with
      | Some d => int_digits rest (10 * acc + d)
      | None =>
          if Ascii.eqb c "_"
          then match rest with
               | String c' rest' =>
                   match digit_of c' with
                   | Some d => int_digits rest' (10 * acc + d)
                   | None => None
                   end
               | EmptyString => None
               end
          else if is_space c
          then match lstrip rest with
               | EmptyString => Some acc
               | String _ _ => None
               end
          else None
      end
  end.

Definition int_unsigned (s : string) : option Z :=
  match s with
  | String c rest =>
      match digit_of c with
      | Some d => int_digits rest d
      | None => None
      end
  | EmptyString => None
  end.

Definition py_int (text : string) : result Z :=
  let parsed :=
    match lstrip text with
    | String "-" rest => option_map Z.opp (int_unsigned rest)
    | String "+" rest => int_unsigned rest
    | s => int_unsigned s
    end in
  match parsed with
  | Some z => Ok z
  | None => Error (Exn ValueError ("invalid literal for int() with base 10: '" ++ text ++ "'"))
  end.

(** [os.environ.get(key)]. *)
Definition environ_get (w : World) (key : string) : option string :=
  environ w !! key.

(** [a or b] for optional strings: [a] when it is true, that is neither
    [None] nor empty, and [b] otherwise. *)
Definition py_or (a b : option string) : option string :=
  match a with
  | Some s => if truthy s then a else b
  | None => b
  end.

(** [a or b] where [b] is a string. *)
Definition or_str (a : option string) (b : string) : string :=
  match a with
  | Some s => if truthy s then s else b
  | None => b
  end.

(** [not v] for an optional string. *)
Definition py_not (v : option string) : bool :=
  match v with
  | Some s => negb (truthy s)
  | None => true
  end.

(** [get_today_date]: the clock is the world's. *)
Definition get_today_date (w : World) : string := today_date w.

(** The subject line of the report. *)
Definition subject_line (qualifying_ipos : list IPOData) (today : string) : string :=
  match qualifying_ipos with
  | _ :: _ =>
      "🔔 IPO Alert: " ++ of_Z (Z.of_nat (length qualifying_ipos))
        ++ " Large IPO(s) Today - " ++ today
  | [] => "📊 IPO Monitor Report - " ++ today
  end.

(** [main]. After the validation none of the four settings is [None] (the
    recipient defaults to the sender), so the last case of the match on them
    is not reached: see [complete_settings]. *)
Definition main (w : World) : M unit :=
  logger_info (repeat "=" 50) ;;
  logger_info "IPO Monitor Starting..." ;;
  logger_info (repeat "=" 50) ;;
  let finnhub_api_key := py_or (environ_get w "FINNHUB_API_KEY") None in
  let email_sender := py_or (environ_get w "EMAIL_SENDER") None in
  let email_password := py_or (environ_get w "EMAIL_PASSWORD") None in
  let email_recipient := py_or (environ_get w "EMAIL_RECIPIENT") email_sender in
  let smtp_server := or_str (environ_get w "SMTP_PORT") "smtp.gmail.com" in
  smtp_port <- lift (py_int (or_str (environ_get w "SMTP_PORT") "587")) ;;
  let missing_vars := [] in
  let missing_vars :=
    if py_not finnhub_api_key then (missing_vars ++ ["FINNHUB_API_KEY"])%list
    else missing_vars in
  let missing_vars :=
    if py_not email_sender then (missing_vars ++ ["EMAIL_SENDER"])%list
    else missing_vars in
  let missing_vars :=
    if py_not email_password then (missing_vars ++ ["EMAIL_PASSWORD"])%list
    else missing_vars in
  match missing_vars with
  | _ :: _ =>
      logger_error ("Missing required environment variables: " ++ join ", " missing_vars) ;;
      logger_error "Please set these variables before running the script." ;;
      sys_exit 1
  | [] => ret tt
  end ;;
  let today := get_today_date w in
  logger_info ("Checking IPOs for date: " ++ today) ;;
  match finnhub_api_key, email_sender, email_password, email_recipient with
  | Some the_api_key, Some the_sender, Some the_password, Some the_recipient =>
      let finnhub := {| api_key := the_api_key |} in
      let notifier := {| sender := the_sender; password := the_password;
                         smtp_server := smtp_server; smtp_port := smtp_port |} in
      logger_info "Fetching IPO calendar from Finnhub..." ;;
      raw_ipos <- get_ipo_calendar w finnhub today today ;;
      logger_info ("Received " ++ of_Z (Z.of_nat (length raw_ipos)) ++ " total IPO entries") ;;
      ipos <- lift (result_map from_finnhub raw_ipos) ;;
      qualifying_ipos <- filter_todays_large_ipos ipos today ;;
      logger_info ("Found " ++ of_Z (Z.of_nat (length qualifying_ipos))
                     ++ " IPO(s) meeting criteria (>$200M)") ;;
      bodies <- lift (create_email_content qualifying_ipos today) ;;
      let '(html_body, text_body) := bodies in
      let subject := subject_line qualifying_ipos today in
      success <- send_email w notifier the_recipient subject html_body text_body ;;
      if success
      then logger_info "IPO Monitor completed successfully!"
      else
        logger_error "IPO Monitor completed with email delivery failure" ;;
        sys_exit 1
  | _, _, _, _ => raise (Exn TypeError "NoneType")
  end.

(** One run of the script, from nothing logged and nothing sent. *)
Definition run (w : World) : outcome unit * state := main w initial.

(** ** What the specification speaks of *)

(** An optional value and an offering built around it. *)
Definition with_offer (v : option PyFloat.float) : IPOData :=
  {| symbol := "N/A"; name := "Unknown"; ipo_date := EmptyString;
     price := None; shares := None; offer_amount := v; exchange := Some "N/A" |}.

(** The rule of the filter in the words of the specification: the date is
    the target date, and the offer value is present and strictly greater
    than the threshold. *)
Definition selected (target_date : string) (ipo : IPOData) : bool :=
  String.eqb (ipo_date ipo) target_date
  && match offer_amount ipo with
     | Some v => PyFloat.gt_int v OFFER_AMOUNT_THRESHOLD
     | None => false
     end.

(** The record that the filter logs for an offering it keeps. *)
Definition found_record (ipo : IPOData) : level * string :=
  (INFO, "Found qualifying IPO: " ++ symbol ipo ++ " - " ++ name ipo ++ " "
           ++ "(Offer: " ++ format_offer_amount ipo ++ ")").

(** [needle] occurs in [hay]. *)
Definition occurs_in (needle hay : string) : Prop :=
  exists before after, hay = before ++ needle ++ after.

(** The required settings that a world lacks, in the order [main] tests
    them. *)
Definition required_keys : list string :=
  ["FINNHUB_API_KEY"; "EMAIL_SENDER"; "EMAIL_PASSWORD"].

Definition missing_required (w : World) : list string :=
  List.filter (fun key => py_not (environ_get w key)) required_keys.

(** The record that enumerates the missing settings. *)
Definition missing_record (w : World) : level * string :=
  (ERROR, "Missing required environment variables: " ++ join ", " (missing_required w)).

(** The SMTP operations of a trace, those that failed, and the delivery. *)
Definition is_smtp (ev : net_event) : bool :=
  match ev with
  | HttpGet _ _ _ _ => false
  | _ => true
  end.

Definition is_sendmail (ev : net_event) : bool :=
  match ev with
  | SmtpSendmail _ _ _ => true
  | _ => false
  end.

Definition smtp_failed (w : World) (ev : net_event) : bool :=
  is_smtp ev && match smtp_reply w ev with Some _ => true | None => false end.

(** The dispatch reports a failure when an operation of its session failed;
    it succeeds when the message was handed over and no operation failed. *)
Definition dispatch_failed (w : World) (st : state) : bool :=
  existsb (smtp_failed w) (net st).

Definition dispatch_succeeded (w : World) (st : state) : bool :=
  existsb is_sendmail (net st) && negb (dispatch_failed w st).

(** The hosts that a trace connects to. *)
Definition connected_hosts (st : state) : list string :=
  omap (fun ev => match ev with SmtpConnect host _ => Some host | _ => None end) (net st).

(** The messages that a trace hands over. *)
Definition sent_messages (st : state) : list Message :=
  omap (fun ev => match ev with SmtpSendmail _ _ msg => Some msg | _ => None end) (net st).

(** ** Worked inputs *)

(** The scenario of the specification: 15 million shares at 20 dollars. *)
Definition abcd_raw : RawIPO :=
  {| raw_symbol := Some "ABCD"; raw_name := Some "Acme Co";
     raw_date := Some "2024-05-01";
     raw_price := Some (PyFloat.of_decimal 200 1);
     raw_numberOfShares := Some 15000000;
     raw_exchange := Some (Some "NASDAQ") |}.

Definition abcd : IPOData :=
  {| symbol := "ABCD"; name := "Acme Co"; ipo_date := "2024-05-01";
     price := Some (PyFloat.nearest 20);
     shares := Some 15000000;
     offer_amount := Some (PyFloat.nearest 300000000);
     exchange := Some "NASDAQ" |}.

(** An entry with a price of zero, and one with no price yet. *)
Definition free_raw : RawIPO :=
  {| raw_symbol := Some "FREE"; raw_name := Some "Gratis Inc";
     raw_date := Some "2024-05-01";
     raw_price := Some (S754_zero false);
     raw_numberOfShares := Some 1000;
     raw_exchange := Some (Some "NYSE") |}.

Definition unpriced : IPOData :=
  {| symbol := "TBDX"; name := "Later Ltd"; ipo_date := "2024-05-01";
     price := None; shares := Some 1000;
     offer_amount := Some (PyFloat.nearest 300000000);
     exchange := Some "NYSE" |}.

(** A complete configuration, and worlds around it. *)
Definition complete_env : gmap string string :=
  <["FINNHUB_API_KEY" := "token"]>
    (<["EMAIL_SENDER" := "alerts@example.com"]>
       (<["EMAIL_PASSWORD" := "secret"]> ∅)).

Definition ok_response (data : response_body) : http_result :=
  HttpResponse {| status_code := 200; reason := "OK";
                  url := "https://finnhub.io/api/v1/calendar/ipo"; body := data |}.

Definition calm_world (env : gmap string string) (reply : http_result) : World :=
  {| environ := env; today_date := "2024-05-01";
     http_reply := fun _ => reply;
     smtp_reply := fun _ => None |}.

(** The relay host is set, the port is not. *)
Definition relay_host_world : World :=
  calm_world (<["SMTP_SERVER" := "mail.example.com"]> complete_env)
             (ok_response (JsonObject (Some []))).

(** The relay port is set, the host is not. *)
Definition relay_port_world : World :=
  calm_world (<["SMTP_PORT" := "2525"]> complete_env)
             (ok_response (JsonObject (Some []))).

(** The relay host is set to the empty text, the port to 2525. *)
Definition empty_host_world : World :=
  calm_world (<["SMTP_SERVER" := EmptyString]> (<["SMTP_PORT" := "2525"]> complete_env))
             (ok_response (JsonObject (Some []))).

(** No required setting at all, and a port that is no number. *)
Definition bad_port_world : World :=
  calm_world (<["SMTP_PORT" := "abc"]> ∅) (ok_response (JsonObject (Some []))).

(** The sender credential is missing. *)
Definition no_password_world : World :=
  calm_world (<["FINNHUB_API_KEY" := "token"]>
                (<["EMAIL_SENDER" := "alerts@example.com"]> ∅))
             (ok_response (JsonObject (Some [abcd_raw]))).

(** The provider answers with a JSON list, and with a status 300 that
    carries a calendar. *)
Definition list_body_world : World :=
  calm_world complete_env (ok_response (JsonOther "list")).

Definition multiple_choices_world : World :=
  calm_world complete_env
    (HttpResponse {| status_code := 300; reason := "Multiple Choices";
                     url := "https://finnhub.io/api/v1/calendar/ipo";
                     body := JsonObject (Some [abcd_raw]) |}).

(** The connection to the provider fails; the mail goes through. *)
Definition offline_world : World :=
  calm_world complete_env (HttpFailure ConnectionError "Connection refused").

(** The relay refuses the login. *)
Definition refused_world : World :=
  {| environ := complete_env; today_date := "2024-05-01";
     http_reply := fun _ => ok_response (JsonObject (Some [abcd_raw]));
     smtp_reply := fun ev =>
       match ev with
       | SmtpLogin _ _ => Some "(535, b'5.7.8 Username and Password not accepted')"
       | _ => None
       end |}.

Definition a_client : FinnhubClient := {| api_key := "token" |}.

(** ** Shapes that the statements below share *)

(** The record that [from_finnhub] builds around an offer amount. *)
Definition built_record (data : RawIPO) (v : option PyFloat.float) : IPOData :=
  {| symbol := default "N/A" (raw_symbol data);
     name := default "Unknown" (raw_name data);
     ipo_date := default EmptyString (raw_date data);
     price := raw_price data;
     shares := raw_numberOfShares data;
     offer_amount := v;
     exchange := default (Some "N/A") (raw_exchange data) |}.

(** The one request of a fetch. *)
Definition calendar_request (self : FinnhubClient) (from_date to_date : string)
    : net_event :=
  HttpGet (BASE_URL ++ "/calendar/ipo") [("X-Finnhub-Token", api_key self)]
          [("from", from_date); ("to", to_date)] 30.

(** The state after a fetch that was recovered from. *)
Definition recovered (st : state) (request : net_event) (text : string) : state :=
  {| log := (log st ++ [(ERROR, ("Failed to fetch IPO calendar: " ++ text)%string)])%list;
     net := (net st ++ [request])%list |}.

(** The message of a dispatch, and the operations of a session that runs to
    its end. *)
Definition composed (self : EmailNotifier)
    (recipient subject body_html body_text : string) : Message :=
  {| msg_subject := subject; msg_from := sender self; msg_to := recipient;
     msg_parts := [("plain", body_text); ("html", body_html)] |}.

Definition full_session (self : EmailNotifier) (recipient : string) (msg : Message)
    : list net_event :=
  [SmtpConnect (smtp_server self) (smtp_port self); SmtpStartTls;
   SmtpLogin (sender self) (password self);
   SmtpSendmail (sender self) recipient msg; SmtpQuit].

(** What every run logs first. *)
Definition banner : list (level * string) :=
  [(INFO, repeat "=" 50); (INFO, "IPO Monitor Starting..."); (INFO, repeat "=" 50)].

(** ** The claims that the code does not meet, as they are stated *)

(** The offer amount of a construction, when it returns. *)
Definition built_offer (r : result IPOData) : result (option PyFloat.float) :=
  result_bind r (fun ipo => Ok (offer_amount ipo)).

(** The offer value is the product whenever price and shares are present. *)
Definition offer_is_product_when_present (data : RawIPO) : Prop :=
  forall p s,
    raw_price data = Some p -> raw_numberOfShares data = Some s ->
    exists r v,
      from_finnhub data = Ok r /\ float_times_int p s = Ok v /\ offer_amount r = Some v.

(** The fetch fails soft, in the words of the specification: after a
    timeout, a failure of the transport, a status outside 200 to 299 or a
    body that is no JSON object, it returns the empty list. *)
Definition fails_soft (w : World) (self : FinnhubClient) (from_date to_date : string)
    (st : state) : Prop :=
  let request := calendar_request self from_date to_date in
  let failed :=
    match http_reply w request with
    | HttpFailure _ _ => true
    | HttpResponse response =>
        negb ((200 <=? status_code response) && (status_code response <? 300))
        || match body response with
           | JsonObject _ => false
           | _ => true
           end
    end in
  failed = true ->
  fst (get_ipo_calendar w self from_date to_date st) = Ret [].

(** A missing required setting aborts the run with status 1, before any
    network operation and with the missing settings enumerated in the log. *)
Definition aborts_enumerating (w : World) : Prop :=
  missing_required w <> [] ->
  exit_status (fst (run w)) = 1
  /\ net (snd (run w)) = []
  /\ In (missing_record w) (log (snd (run w))).

(** ** The session of a dispatch, operation by operation *)

(** An SMTP operation goes through. *)
Definition smtp_ok (w : World) (ev : net_event) : bool :=
  match smtp_reply w ev with
  | None => true
  | Some _ => false
  end.

(** The operations that a dispatch issues, as the answers of the relay
    decide: it stops at the first operation that fails, and says [QUIT]
    whenever the connection was made. *)
Definition session_trace (w : World) (self : EmailNotifier) (recipient : string)
    (msg : Message) : list net_event :=
  let connect := SmtpConnect (smtp_server self) (smtp_port self) in
  let login := SmtpLogin (sender self) (password self) in
  let sendmail := SmtpSendmail (sender self) recipient msg in
  if negb (smtp_ok w connect) then [connect]
  else if negb (smtp_ok w SmtpStartTls) then [connect; SmtpStartTls; SmtpQuit]
  else if negb (smtp_ok w login) then [connect; SmtpStartTls; login; SmtpQuit]
  else [connect; SmtpStartTls; login; sendmail; SmtpQuit].

(** ** The entries of a fetch, read off the reply *)

(** What [get_ipo_calendar] hands to its caller for a reply to its request:
    the entries, or the exception that it lets through. *)
Definition calendar_of (reply : http_result) : result (list RawIPO) :=
  match reply with
  | HttpFailure _ _ => Ok []
  | HttpResponse response =>
      if (400 <=? status_code response) && (status_code response <? 600)
      then Ok []
      else match body response with
           | NotJson _ => Ok []
           | JsonObject calendar => Ok (default [] calendar)
           | JsonOther pytype =>
               Error (Exn AttributeError
                        ("'" ++ pytype ++ "' object has no attribute 'get'"))
           end
  end.

(** The outcome of a computation that returns [v] or raises. *)
Definition outcome_of {A : Type} (r : result A) : outcome A :=
  match r with
  | Ok v => Ret v
  | Error e => Raise e
  end.

(** The relay that [main] configures from the settings. *)
Definition configured_notifier (w : World) (from_addr secret : string) (port : Z)
    : EmailNotifier :=
  {| sender := from_addr; password := secret;
     smtp_server := or_str (environ_get w "SMTP_PORT") "smtp.gmail.com";
     smtp_port := port |}.

(** A world with the scenario's entry in the calendar and a relay that
    takes the mail. *)
Definition abcd_world : World :=
  calm_world complete_env (ok_response (JsonObject (Some [abcd_raw]))).

(** The replies that a fetch recovers from: a failure of the transport, a
    status from 400 to 599, a body that is no JSON. *)
Definition fetch_recovers (reply : http_result) : bool :=
  match reply with
  | HttpFailure _ _ => true
  | HttpResponse response =>
      (400 <=? status_code response) && (status_code response <? 600)
      || match body response with
         | NotJson _ => true
         | _ => false
         end
  end.

(** The log of a run that reaches the dispatch, around the records of the
    fetch and of the dispatch. *)
Definition steps_logged (today : string) (fetch_records : list (level * string))
    (received : nat) (kept : list IPOData) (dispatch_records : list (level * string))
    : list (level * string) :=
  (banner
   ++ [(INFO, ("Checking IPOs for date: " ++ today)%string);
       (INFO, "Fetching IPO calendar from Finnhub...")]
   ++ fetch_records
   ++ [(INFO, ("Received " ++ of_Z (Z.of_nat received) ++ " total IPO entries")%string)]
   ++ List.map found_record kept
   ++ [(INFO, ("Found " ++ of_Z (Z.of_nat (length kept))
                 ++ " IPO(s) meeting criteria (>$200M)")%string)]
   ++ dispatch_records)%list.

(** ** Dates *)

(** What the script uses of [datetime]: a naive [datetime], a [timedelta],
    their sum and [strftime('%Y-%m-%d')]. Days are counted as the library
    counts them, in the proleptic Gregorian calendar, 1 January of the year 1
    being day 1. *)
Module PyDate.

Record datetime : Set := {
  year : Z;
  month : Z;
  day : Z;
  hour : Z;
  minute : Z;
  second : Z;
  microsecond : Z
}.

(** A [timedelta] holds days, seconds below 86400 and microseconds below
    1000000. *)
Record timedelta : Set := {
  days : Z;
  seconds : Z;
  microseconds : Z
}.

(** [timedelta(days, seconds, microseconds)]: the carries are moved up. *)
Definition timedelta_of (d s us : Z) : timedelta :=
  let s := s + us / 1000000 in
  {| days := d + s / 86400; seconds := s mod 86400; microseconds := us mod 1000000 |}.

(** [timedelta(hours=h)]. *)
Definition of_hours (h : Z) : timedelta := timedelta_of 0 (h * 3600) 0.

Definition is_leap (y : Z) : bool :=
  (y mod 4 =? 0) && (negb (y mod 100 =? 0) || (y mod 400 =? 0)).

Definition days_before_year (y : Z) : Z :=
  let y := y - 1 in
  y * 365 + y / 4 - y / 100 + y / 400.

(** The two tables of the library; the entry 0 is a placeholder. *)
Definition DAYS_IN_MONTH (m : Z) : Z :=
  match m with
  | 1 => 31 | 2 => 28 | 3 => 31 | 4 => 30 | 5 => 31 | 6 => 30
  | 7 => 31 | 8 => 31 | 9 => 30 | 10 => 31 | 11 => 30 | 12 => 31
  | _ => -1
  end.

Definition DAYS_BEFORE_MONTH (m : Z) : Z :=
  match m with
  | 1 => 0 | 2 => 31 | 3 => 59 | 4 => 90 | 5 => 120 | 6 => 151
  | 7 => 181 | 8 => 212 | 9 => 243 | 10 => 273 | 11 => 304 | 12 => 334
  | _ => -1
  end.

Definition days_in_month (y m : Z) : Z :=
  if (m =? 2) && is_leap y then 29 else DAYS_IN_MONTH m.

Definition days_before_month (y m : Z) : Z :=
  DAYS_BEFORE_MONTH m + (if (2 <? m) && is_leap y then 1 else 0).

(** Year, month and day to the number of the day, and back. *)
Definition ymd2ord (y m d : Z) : Z :=
  days_before_year y + days_before_month y m + d.

(** The end of the conversion back: the month and the day of the month of
    the day [n] of a year, 1 January being day 0. The month is estimated
    first; the estimate is right or one too large. *)
Definition month_day (leapyear : bool) (n : Z) : Z * Z :=
  let month := Z.shiftr (n + 50) 5 in
  let preceding :=
    DAYS_BEFORE_MONTH month + (if (2 <? month) && leapyear then 1 else 0) in
  if n <? preceding
  then
    let month := month - 1 in
    let preceding :=
      preceding
      - (DAYS_IN_MONTH month + (if (month =? 2) && leapyear then 1 else 0)) in
    (month, n - preceding + 1)
  else (month, n - preceding + 1).

(** The day is located in its cycle of 400 years, then of 100 years, then of
    4 years, then in its year. *)
Definition ord2ymd (n : Z) : Z * Z * Z :=
  let n := n - 1 in
  let n400 := n / 146097 in
  let n := n mod 146097 in
  let year := n400 * 400 + 1 in
  let n100 := n / 36524 in
  let n := n mod 36524 in
  let n4 := n / 1461 in
  let n := n mod 1461 in
  let n1 := n / 365 in
  let n := n mod 365 in
  let year := year + (n100 * 100 + n4 * 4 + n1) in
  if (n1 =? 4) || (n100 =? 4)
  then (year - 1, 12, 31)
  else
    let leapyear := (n1 =? 3) && (negb (n4 =? 24) || (n100 =? 3)) in
    let '(month, day) := month_day leapyear n in
    (year, month, day).

(** The number of 31 December 9999, the last day of the library. *)
Definition MAXORDINAL : Z := 3652059.

Definition toordinal (self : datetime) : Z :=
  ymd2ord (year self) (month self) (day self).

(** [self + other]: the sum is normalised as a [timedelta] counted from day
    0, and its days must be a day of the library. *)
Definition add (self : datetime) (other : timedelta) : result datetime :=
  let delta :=
    timedelta_of (toordinal self + days other)
      (hour self * 3600 + minute self * 60 + second self + seconds other)
      (microsecond self + microseconds other) in
  let hour := seconds delta / 3600 in
  let rem := seconds delta mod 3600 in
  if (0 <? days delta) && (days delta <=? MAXORDINAL)
  then
    let '(y, m, d) := ord2ymd (days delta) in
    Ok {| year := y; month := m; day := d;
          hour := hour; minute := rem / 60; second := rem mod 60;
          microsecond := microseconds delta |}
  else Error (Exn OverflowError "date value out of range").

(** [%m] and [%d]: two digits. *)
Definition pad2 (n : Z) : string :=
  if n <? 10 then "0" ++ PyStr.of_Z n else PyStr.of_Z n.

(** The text of a date as [strftime('%Y-%m-%d')] writes it. ([%Y] is the
    year in decimal; whether a year below 1000 is padded to four digits
    differs between platforms, and is left out here.) *)
Definition iso (y m d : Z) : string :=
  PyStr.of_Z y ++ "-" ++ pad2 m ++ "-" ++ pad2 d.

Definition strftime_ymd (self : datetime) : string :=
  iso (year self) (month self) (day self).

End PyDate.

(** [DUBAI_TZ_OFFSET]. *)
Definition DUBAI_TZ_OFFSET : PyDate.timedelta := PyDate.of_hours 4.

(** [get_today_date], from the instant that [datetime.utcnow()] reads off
    the clock: this is the day that a world carries as [today_date]. *)
Definition get_today_date_at (utc_now : PyDate.datetime) : result string :=
  let dubai_time := PyDate.add utc_now DUBAI_TZ_OFFSET in
  result_bind dubai_time (fun dubai_time => Ok (PyDate.strftime_ymd dubai_time)).

(** A date of the calendar, and an instant on such a date. *)
Definition valid_date (y m d : Z) : Prop :=
  1 <= y /\ 1 <= m <= 12 /\ 1 <= d <= PyDate.days_in_month y m.

Definition valid_datetime (t : PyDate.datetime) : Prop :=
  valid_date (PyDate.year t) (PyDate.month t) (PyDate.day t)
  /\ 0 <= PyDate.hour t < 24 /\ 0 <= PyDate.minute t < 60
  /\ 0 <= PyDate.second t < 60 /\ 0 <= PyDate.microsecond t < 1000000.

(** The day after a date of the calendar. *)
Definition next_day (y m d : Z) : Z * Z * Z :=
  if d <? PyDate.days_in_month y m then (y, m, d + 1)
  else if m <? 12 then (y, m + 1, 1)
  else (y + 1, 1, 1).

(** The integers from [lo] on, [n] of them. *)
Definition range (lo : Z) (n : nat) : list Z :=
  List.map (fun i => lo + Z.of_nat i) (seq 0 n).

(** Whether [month_day] finds every day of a year, leap or not, from its
    number in the year. *)
Definition month_day_inverts (leap : bool) : bool :=
  forallb (fun m =>
    forallb (fun d =>
      match PyDate.month_day leap
              (PyDate.DAYS_BEFORE_MONTH m + (if (2 <? m) && leap then 1 else 0)
               + d - 1) with
      | (m', d') => (m' =? m) && (d' =? d)
      end)
      (range 1 (Z.to_nat (if (m =? 2) && leap then 29 else PyDate.DAYS_IN_MONTH m))))
    (range 1 12).

(** * Proofs *)
(** ** Offering records *)

Section Construction.

Variable data : RawIPO.

Lemma from_finnhub_product p s v :
  raw_price data = Some p -> raw_numberOfShares data = Some s ->
  PyFloat.truthy p = true -> s <> 0 ->
  float_times_int p s = Ok v ->
  from_finnhub data = Ok (built_record data (Some v)).
Proof.
  intros Hp Hs Tp Ts Hv. unfold from_finnhub. rewrite Hp, Hs. cbn [float_truthy int_truthy].
  rewrite Tp. apply Z.eqb_neq in Ts. rewrite Ts. cbn. rewrite Hv. cbn.
  unfold built_record. rewrite Hp, Hs. reflexivity.
Qed.

Lemma from_finnhub_overflow p s e :
  raw_price data = Some p -> raw_numberOfShares data = Some s ->
  PyFloat.truthy p = true -> s <> 0 ->
  float_times_int p s = Error e ->
  from_finnhub data = Error e.
Proof.
  intros Hp Hs Tp Ts Hv. unfold from_finnhub. rewrite Hp, Hs. cbn [float_truthy int_truthy].
  rewrite Tp. apply Z.eqb_neq in Ts. rewrite Ts. cbn. rewrite Hv. reflexivity.
Qed.

Lemma from_finnhub_absent :
  float_truthy (raw_price data) = false \/ int_truthy (raw_numberOfShares data) = false ->
  from_finnhub data = Ok (built_record data None).
Proof.
  intros H. unfold from_finnhub.
  unfold built_record.
  destruct (raw_price data) as [p|]; destruct (raw_numberOfShares data) as [s|];
    try reflexivity.
  destruct H as [H|H]; rewrite H; [reflexivity | rewrite andb_false_r; reflexivity].
Qed.

End Construction.

(** C1, amended. The record built from a raw entry carries the product
    [price * shares] as its offer amount whenever both are present and not
    zero and the number of shares converts to a float; it carries no offer
    amount ([None], which is no number) whenever one of the two is missing or
    zero; and the offer amount depends on nothing but the price and the number
    of shares of the entry. *)
Theorem from_finnhub_offer_amount (data : RawIPO) :
  (forall p s y,
      raw_price data = Some p -> raw_numberOfShares data = Some s ->
      PyFloat.truthy p = true -> s <> 0 -> float_of_int s = Ok y ->
      exists r, from_finnhub data = Ok r
                /\ offer_amount r = Some (PyFloat.mul p y)
                /\ price r = Some p /\ shares r = Some s)
  /\ (float_truthy (raw_price data) = false \/ int_truthy (raw_numberOfShares data) = false ->
      exists r, from_finnhub data = Ok r /\ offer_amount r = None
                /\ price r = raw_price data /\ shares r = raw_numberOfShares data)
  /\ (forall other,
      raw_price other = raw_price data ->
      raw_numberOfShares other = raw_numberOfShares data ->
      built_offer (from_finnhub other) = built_offer (from_finnhub data)).
Proof.
  split; [|split].
  - intros p s y Hp Hs Tp Ts Hy.
    assert (Hv : float_times_int p s = Ok (PyFloat.mul p y))
      by (unfold float_times_int; rewrite Hy; reflexivity).
    rewrite (from_finnhub_product data p s _ Hp Hs Tp Ts Hv). cbn.
    eexists; repeat split; assumption.
  - intros H. rewrite (from_finnhub_absent data H). cbn. eexists; repeat split.
  - intros other Hp Hs. unfold from_finnhub. rewrite Hp, Hs.
    destruct (raw_price data) as [p|]; destruct (raw_numberOfShares data) as [s|];
      try reflexivity.
    destruct (float_truthy (Some p) && int_truthy (Some s)); [|reflexivity].
    destruct (float_times_int p s); reflexivity.
Qed.

(** The amended claim at the scenario of the specification: 20 dollars times
    15 million shares. *)
Lemma from_finnhub_offer_amount_abcd :
  exists r, from_finnhub abcd_raw = Ok r
            /\ offer_amount r = Some (PyFloat.mul (PyFloat.of_decimal 200 1) (PyFloat.nearest 15000000))
            /\ price r = Some (PyFloat.of_decimal 200 1) /\ shares r = Some 15000000.
Proof.
  apply (proj1 (from_finnhub_offer_amount abcd_raw)); try reflexivity. lia.
Defined.

(** C1 as stated fails on an entry whose price is zero: price and shares are
    both present and their product is the float zero, yet the record carries
    no offer amount. *)
Lemma zero_price_has_no_offer :
  raw_price free_raw = Some (S754_zero false)
  /\ raw_numberOfShares free_raw = Some 1000
  /\ float_times_int (S754_zero false) 1000 = Ok (S754_zero false)
  /\ built_offer (from_finnhub free_raw) = Ok None
  /\ ~ offer_is_product_when_present free_raw.
Proof.
  repeat split; try reflexivity.
  intros H. destruct (H _ _ eq_refl eq_refl) as (r & v & Hr & _ & Ho).
  vm_compute in Hr. injection Hr as <-. discriminate Ho.
Qed.

(** The ends of the range of ints that convert to a float: the largest float
    is reached, half a unit in the last place above it is not. *)
Lemma float_of_int_range :
  float_of_int (2 ^ 1024 - 2 ^ 970 - 1)
  = Ok (S754_finite false 9007199254740991 971)
  /\ float_of_int (2 ^ 1024 - 2 ^ 970)
     = Error (Exn OverflowError "int too large to convert to float")
  /\ float_of_int (- (2 ^ 1024 - 2 ^ 970))
     = Error (Exn OverflowError "int too large to convert to float").
Proof. repeat split; vm_compute; reflexivity. Qed.

(** ** The filter *)

(** A float above the threshold is not zero, so the test of truth that the
    code performs first changes nothing. *)
Lemma exceeds_selected target ipo :
  negb (String.eqb (ipo_date ipo) target) = false ->
  exceeds (offer_amount ipo) OFFER_AMOUNT_THRESHOLD = selected target ipo.
Proof.
  intros Hd. apply negb_false_iff in Hd. unfold selected, exceeds. rewrite Hd. cbn.
  destruct (offer_amount ipo) as [[s|s| |s m e]|]; try reflexivity.
Qed.

Lemma filter_loop_spec ipos : forall target acc st,
  filter_loop ipos target acc st =
    (Ret (acc ++ List.filter (selected target) ipos)%list,
     {| log := (log st ++ List.map found_record (List.filter (selected target) ipos))%list;
        net := net st |}).
Proof.
  induction ipos as [|ipo rest IH]; intros target acc st; cbn [filter_loop List.filter List.map].
  - unfold ret. rewrite !app_nil_r. destruct st; reflexivity.
  - destruct (negb (String.eqb (ipo_date ipo) target)) eqn:Hd.
    + assert (Hs : selected target ipo = false).
      { unfold selected. apply negb_true_iff in Hd. rewrite Hd. reflexivity. }
      rewrite Hs. apply IH.
    + rewrite (exceeds_selected _ _ Hd).
      destruct (selected target ipo).
      * unfold bind, logger_info. rewrite IH. cbn [log net List.map].
        rewrite <- !app_assoc. reflexivity.
      * apply IH.
Qed.

Lemma selected_iff target ipo :
  selected target ipo = true <->
  ipo_date ipo = target
  /\ exists v, offer_amount ipo = Some v
               /\ PyFloat.compare_int v OFFER_AMOUNT_THRESHOLD = Some Gt.
Proof.
  unfold selected. rewrite andb_true_iff, String.eqb_eq. apply and_iff_compat_l.
  destruct (offer_amount ipo) as [v|].
  - unfold PyFloat.gt_int. split.
    + intros H. exists v. split; [reflexivity|].
      destruct (PyFloat.compare_int v OFFER_AMOUNT_THRESHOLD) as [[| |]|]; congruence.
    + intros (v' & [= <-] & ->). reflexivity.
  - split; [discriminate | intros (v & [=] & _)].
Qed.

Lemma sublist_List_filter {A : Type} (f : A -> bool) (l : list A) :
  sublist (List.filter f l) l.
Proof.
  induction l as [|x l IH]; cbn.
  - constructor.
  - destruct (f x); [apply sublist_skip | apply sublist_cons]; exact IH.
Qed.

(** C2. The filter returns, for every list of offerings and every target
    date, exactly the offerings whose date is the target date and whose offer
    amount is present and strictly greater than 200,000,000, in the order of
    the list; an offering at exactly 200,000,000 is not among them; and the
    filter touches nothing but the log. *)
Theorem filter_todays_large_ipos_selects (ipos : list IPOData) (target_date : string)
    (st : state) :
  exists kept st',
    filter_todays_large_ipos ipos target_date st = (Ret kept, st')
    /\ kept = List.filter (selected target_date) ipos
    /\ (forall ipo, In ipo kept <->
          In ipo ipos /\ ipo_date ipo = target_date
          /\ exists v, offer_amount ipo = Some v
                       /\ PyFloat.compare_int v 200000000 = Some Gt)
    /\ (forall ipo v, offer_amount ipo = Some v ->
          PyFloat.compare_int v 200000000 = Some Eq -> ~ In ipo kept)
    /\ (forall ipo, offer_amount ipo = Some (PyFloat.nearest 200000000) -> ~ In ipo kept)
    /\ sublist kept ipos
    /\ net st' = net st.
Proof.
  unfold filter_todays_large_ipos. rewrite filter_loop_spec. cbn [app].
  eexists; eexists. split; [reflexivity|]. split; [reflexivity|].
  assert (Hin : forall ipo, In ipo (List.filter (selected target_date) ipos) <->
          In ipo ipos /\ ipo_date ipo = target_date
          /\ exists v, offer_amount ipo = Some v
                       /\ PyFloat.compare_int v 200000000 = Some Gt).
  { intros ipo. rewrite filter_In, selected_iff. reflexivity. }
  split; [exact Hin|]. split; [|split; [|split]].
  - intros ipo v Hv Heq Hk. apply Hin in Hk. destruct Hk as (_ & _ & v' & Hv' & Hgt).
    congruence.
  - intros ipo Hv Hk. apply Hin in Hk. destruct Hk as (_ & _ & v' & Hv' & Hgt).
    rewrite Hv in Hv'. injection Hv' as <-. vm_compute in Hgt. discriminate Hgt.
  - apply sublist_List_filter.
  - reflexivity.
Qed.

(** ** The formatter of offer amounts *)

(** The comparison with an int is monotone in the int. *)
Lemma ge_int_mono v z1 z2 :
  z1 <= z2 -> PyFloat.ge_int v z2 = true -> PyFloat.ge_int v z1 = true.
Proof.
  intros Hz. unfold PyFloat.ge_int, PyFloat.compare_int.
  destruct v as [s|s| |s m e]; try (destruct s; discriminate || reflexivity); try discriminate.
  - destruct (Z.compare_spec 0 z2), (Z.compare_spec 0 z1); try discriminate; try reflexivity; lia.
  - assert (Hp : forall p, 0 < 2 ^ Zpos p) by (intros; apply Z.pow_pos_nonneg; lia).
    destruct e as [|p|p].
    + destruct (Z.compare_spec (cond_Zopp s (Zpos m) * 2 ^ 0) z2),
               (Z.compare_spec (cond_Zopp s (Zpos m) * 2 ^ 0) z1);
        try discriminate; try reflexivity; lia.
    + destruct (Z.compare_spec (cond_Zopp s (Zpos m) * 2 ^ Zpos p) z2),
               (Z.compare_spec (cond_Zopp s (Zpos m) * 2 ^ Zpos p) z1);
        try discriminate; try reflexivity; lia.
    + specialize (Hp p).
      destruct (Z.compare_spec (cond_Zopp s (Zpos m)) (z2 * 2 ^ Zpos p)),
               (Z.compare_spec (cond_Zopp s (Zpos m)) (z1 * 2 ^ Zpos p));
        try discriminate; try reflexivity; nia.
Qed.

(** The hundredths printed for a magnitude with a negative exponent are the
    integer nearest to a hundred times the magnitude, and the even one of the
    two when both are equally near. *)
Lemma hundredths_nearest m p :
  let h := PyFloat.hundredths m (Zneg p) in
  2 * Z.abs (h * 2 ^ Zpos p - Zpos m * 100) <= 2 ^ Zpos p
  /\ (2 * Z.abs (h * 2 ^ Zpos p - Zpos m * 100) = 2 ^ Zpos p -> Z.even h = true).
Proof.
  cbv zeta. unfold PyFloat.hundredths.
  assert (Hd : 0 < 2 ^ Zpos p) by (apply Z.pow_pos_nonneg; lia).
  pose proof (Z.div_mod (Zpos m * 100) (2 ^ Zpos p) ltac:(lia)) as Hdm.
  pose proof (Z.mod_pos_bound (Zpos m * 100) (2 ^ Zpos p) Hd) as Hr.
  set (den := 2 ^ Zpos p) in *.
  set (q := Zpos m * 100 / den) in *.
  set (r := (Zpos m * 100) mod den) in *.
  destruct (Z.compare_spec (2 * r) den) as [He|Hl|Hg].
  - destruct (Z.even q) eqn:Hev.
    + split; [nia | intros _; exact Hev].
    + split; [nia|]. intros _. rewrite Z.even_add, Hev. reflexivity.
  - split; [nia | intros H; exfalso; nia].
  - split; [nia | intros H; exfalso; nia].
Qed.

Lemma hundredths_exact m e :
  0 <= e -> PyFloat.hundredths m e = Zpos m * 2 ^ e * 100.
Proof. destruct e; [reflexivity | reflexivity | lia]. Qed.

Lemma format_offer_amount_billions r v :
  offer_amount r = Some v -> PyFloat.ge_int v 1000000000 = true ->
  format_offer_amount r
  = "$" ++ PyFloat.format_2f false (PyFloat.div v (PyFloat.nearest 1000000000)) ++ "B".
Proof. intros Hv Hb. unfold format_offer_amount. rewrite Hv, Hb. reflexivity. Qed.

Lemma format_offer_amount_millions r v :
  offer_amount r = Some v ->
  PyFloat.ge_int v 1000000 = true -> PyFloat.compare_int v 1000000000 = Some Lt ->
  format_offer_amount r
  = "$" ++ PyFloat.format_2f false (PyFloat.div v (PyFloat.nearest 1000000)) ++ "M".
Proof.
  intros Hv Hm Hb. unfold format_offer_amount. rewrite Hv.
  unfold PyFloat.ge_int at 1. rewrite Hb, Hm. reflexivity.
Qed.

Lemma format_offer_amount_below r v :
  offer_amount r = Some v -> PyFloat.ge_int v 1000000 = false ->
  format_offer_amount r = "$" ++ PyFloat.format_2f true v.
Proof.
  intros Hv Hm. unfold format_offer_amount. rewrite Hv, Hm.
  destruct (PyFloat.ge_int v 1000000000) eqn:Hb; [|reflexivity].
  apply (ge_int_mono v 1000000) in Hb; [congruence | lia].
Qed.

(** C8. The formatted offer amount is [N/A] when the amount is absent; the
    amount divided by 10^9, with two decimals and [B], from 1,000,000,000 on;
    the amount divided by 10^6, with two decimals and [M], from 1,000,000 up
    to but not including 1,000,000,000; and the amount itself with thousands
    separators and two decimals otherwise. Two decimals are the hundredths
    nearest to the value. At the boundaries: 999,999.99, 1,000,000 and
    1,000,000,000. *)
Theorem format_offer_amount_cases :
  (forall r, offer_amount r = None -> format_offer_amount r = "N/A")
  /\ (forall r v, offer_amount r = Some v ->
        PyFloat.ge_int v 1000000000 = true ->
        format_offer_amount r
        = "$" ++ PyFloat.format_2f false (PyFloat.div v (PyFloat.nearest 1000000000)) ++ "B")
  /\ (forall r v, offer_amount r = Some v ->
        PyFloat.ge_int v 1000000 = true ->
        PyFloat.compare_int v 1000000000 = Some Lt ->
        format_offer_amount r
        = "$" ++ PyFloat.format_2f false (PyFloat.div v (PyFloat.nearest 1000000)) ++ "M")
  /\ (forall r v, offer_amount r = Some v ->
        PyFloat.ge_int v 1000000 = false ->
        format_offer_amount r = "$" ++ PyFloat.format_2f true v)
  /\ (forall grouping s m e,
        let h := PyFloat.hundredths m e in
        let whole := of_Z (h / 100) in
        PyFloat.format_2f grouping (S754_finite s m e)
        = sign s ++ (if grouping then group3 whole else whole)
            ++ "." ++ PyFloat.two_digits (h mod 100))
  /\ (forall m p,
        2 * Z.abs (PyFloat.hundredths m (Zneg p) * 2 ^ Zpos p - Zpos m * 100) <= 2 ^ Zpos p)
  /\ (forall m e, 0 <= e -> PyFloat.hundredths m e = Zpos m * 2 ^ e * 100)
  /\ format_offer_amount (with_offer (Some (PyFloat.of_decimal 99999999 2))) = "$999,999.99"
  /\ format_offer_amount (with_offer (Some (PyFloat.nearest 1000000))) = "$1.00M"
  /\ format_offer_amount (with_offer (Some (PyFloat.nearest 1000000000))) = "$1.00B".
Proof.
  split; [|split; [|split; [|split; [|split; [|split; [|split; [|split; [|split]]]]]]]].
  - intros r Hr. unfold format_offer_amount. rewrite Hr. reflexivity.
  - exact format_offer_amount_billions.
  - exact format_offer_amount_millions.
  - exact format_offer_amount_below.
  - reflexivity.
  - intros m p. apply (hundredths_nearest m p).
  - exact hundredths_exact.
  - vm_compute. reflexivity.
  - vm_compute. reflexivity.
  - vm_compute. reflexivity.
Qed.

(** The cases of C8 at work: an absent amount, 2.5 billion, 300 million and
    1234.5 dollars. *)
Lemma format_offer_amount_cases_at_work :
  format_offer_amount (with_offer None) = "N/A"
  /\ format_offer_amount (with_offer (Some (PyFloat.nearest 2500000000))) = "$2.50B"
  /\ format_offer_amount (with_offer (Some (PyFloat.nearest 300000000))) = "$300.00M"
  /\ format_offer_amount (with_offer (Some (PyFloat.of_decimal 12345 1))) = "$1,234.50".
Proof.
  destruct format_offer_amount_cases as (Hn & Hb & Hm & Hl & _).
  split; [|split; [|split]].
  - apply Hn. reflexivity.
  - rewrite (Hb _ (PyFloat.nearest 2500000000)); reflexivity.
  - rewrite (Hm _ (PyFloat.nearest 300000000)); reflexivity.
  - rewrite (Hl _ (PyFloat.of_decimal 12345 1)); reflexivity.
Defined.

(** ** The scenario of the specification *)

(** The price 20.0 of the scenario is the float twenty. *)
Lemma twenty_is_exact : PyFloat.of_decimal 200 1 = PyFloat.nearest 20.
Proof. vm_compute. reflexivity. Qed.

(** C7. The raw entry of the scenario (ABCD, Acme Co, 2024-05-01, a price of
    20.0, 15,000,000 shares, NASDAQ) gives a record whose offer amount is
    300,000,000; with the target date 2024-05-01 the filter keeps it; and the
    plain body of the report has the lines [Ticker: ABCD] and
    [Offer Amount: $300.00M]. *)
Theorem scenario_abcd :
  from_finnhub abcd_raw = Ok abcd
  /\ offer_amount abcd = Some (PyFloat.nearest 300000000)
  /\ PyFloat.compare_int (PyFloat.nearest 300000000) 300000000 = Some Eq
  /\ (forall st, fst (filter_todays_large_ipos [abcd] "2024-05-01" st) = Ret [abcd])
  /\ exists html text,
       create_email_content [abcd] "2024-05-01" = Ok (html, text)
       /\ In "Ticker: ABCD" (lines text)
       /\ In "Offer Amount: $300.00M" (lines text).
Proof.
  split; [vm_compute; reflexivity|].
  split; [reflexivity|].
  split; [vm_compute; reflexivity|].
  split.
  - intros st.
    unfold filter_todays_large_ipos. rewrite filter_loop_spec. vm_compute. reflexivity.
  - eexists; eexists. split; [vm_compute; reflexivity|].
    split; vm_compute; tauto.
Qed.

(** ** The report renderer *)

Lemma append_assoc (a b c : string) : a ++ b ++ c = (a ++ b) ++ c.
Proof.
  induction a as [|ch a IH]; [reflexivity|].
  change (String ch (a ++ b ++ c) = String ch ((a ++ b) ++ c)). f_equal. exact IH.
Qed.

Lemma append_empty_r (a : string) : a ++ EmptyString = a.
Proof.
  induction a as [|ch a IH]; [reflexivity|].
  change (String ch (a ++ EmptyString) = String ch a). f_equal. exact IH.
Qed.

Lemma occurs_here needle rest : occurs_in needle (needle ++ rest).
Proof. exists EmptyString, rest. reflexivity. Qed.

Lemma occurs_whole needle : occurs_in needle needle.
Proof. exists EmptyString, EmptyString. symmetry. apply append_empty_r. Qed.

Lemma occurs_skip needle a b : occurs_in needle b -> occurs_in needle (a ++ b).
Proof.
  intros (before & after & ->). exists (a ++ before), after. apply append_assoc.
Qed.

Lemma occurs_keep needle a b : occurs_in needle a -> occurs_in needle (a ++ b).
Proof.
  intros (before & after & ->). exists before, (after ++ b).
  rewrite <- !append_assoc. reflexivity.
Qed.

(** Walks down a chain of appends to the piece looked for. *)
Ltac find_piece :=
  repeat first [ apply occurs_here | apply occurs_whole | apply occurs_skip ].

(** A row carries the ticker, the company, the formatted offer amount and the
    exchange of its offering. *)
Lemma html_row_carries ipo p :
  price ipo = Some p ->
  exists row,
    html_row ipo = Ok row
    /\ occurs_in (symbol ipo) row
    /\ occurs_in (name ipo) row
    /\ occurs_in (format_offer_amount ipo) row
    /\ occurs_in (of_optional (exchange ipo)) row.
Proof.
  intros Hp. unfold html_row, price_2f. rewrite Hp. unfold result_bind.
  eexists. split; [reflexivity|]. repeat split; find_piece.
Qed.

Lemma html_row_unpriced ipo :
  price ipo = None ->
  html_row ipo = Error (Exn TypeError "unsupported format string passed to NoneType.__format__").
Proof. intros Hp. unfold html_row, price_2f. rewrite Hp. reflexivity. Qed.

(** The loop over priced offerings appends one row per offering, in order. *)
Lemma rows_loop_priced ipos : forall acc,
  Forall (fun ipo => price ipo <> None) ipos ->
  exists rows,
    Forall2 (fun ipo row => html_row ipo = Ok row) ipos rows
    /\ rows_loop ipos acc = Ok (acc ++ String.concat EmptyString rows).
Proof.
  induction ipos as [|ipo rest IH]; intros acc Hall.
  - exists []. split; [constructor|]. cbn. rewrite append_empty_r. reflexivity.
  - inversion Hall as [|? ? Hp Hrest]; subst.
    destruct (price ipo) as [p|] eqn:Hprice; [|congruence].
    destruct (html_row_carries ipo p Hprice) as (row & Hrow & _).
    destruct (IH (acc ++ row) Hrest) as (rows & Hrows & Hloop).
    exists (row :: rows). split; [constructor; assumption|].
    cbn [rows_loop]. rewrite Hrow. cbn [result_bind]. rewrite Hloop.
    f_equal. rewrite <- append_assoc. f_equal.
    destruct rows as [|r rs]; [cbn; rewrite append_empty_r; reflexivity|].
    cbn [String.concat]. reflexivity.
Qed.

Lemma occurs_in_concat row rows :
  In row rows -> occurs_in row (String.concat EmptyString rows).
Proof.
  induction rows as [|r rs IH]; [intros []|].
  intros [->|Hin].
  - destruct rs; [apply occurs_whole | apply occurs_here].
  - destruct rs as [|r' rs']; [destruct Hin|].
    change (occurs_in row (r ++ EmptyString ++ String.concat EmptyString (r' :: rs'))).
    apply occurs_skip, occurs_skip, IH, Hin.
Qed.

(** The page is the rows between a top that shows the count and a bottom that
    states the threshold. *)
Lemma html_page_layout date count rows :
  exists top bottom,
    html_page date count rows = top ++ rows ++ bottom
    /\ occurs_in ("Found <strong>" ++ of_Z (Z.of_nat count) ++ "</strong> IPO(s)") top
    /\ occurs_in "Threshold: Offer Amount > $200,000,000" bottom.
Proof.
  eexists (nl ++
  "    <html>" ++ nl ++
  "    <body style=" ++ dq ++ "font-family: Arial, sans-serif; max-width: 800px; margin: 0 auto; padding: 20px;" ++ dq ++ ">" ++ nl ++
  "        <h2 style=" ++ dq ++ "color: #2c3e50;" ++ dq ++ ">📊 IPO Monitor Report - " ++ date ++ "</h2>" ++ nl ++
  "        <p style=" ++ dq ++ "background-color: #d4edda; padding: 15px; border-radius: 5px; color: #155724;" ++ dq ++ ">" ++ nl ++
  "            <strong>🔔 Alert:</strong> " ++ ("Found <strong>" ++ of_Z (Z.of_nat count) ++ "</strong> IPO(s)") ++ " with offer amount > $200M today!" ++ nl ++
  "        </p>" ++ nl ++
  "        " ++ nl ++
  "        <table style=" ++ dq ++ "width: 100%; border-collapse: collapse; margin-top: 20px;" ++ dq ++ ">" ++ nl ++
  "            <thead>" ++ nl ++
  "                <tr style=" ++ dq ++ "background-color: #3498db; color: white;" ++ dq ++ ">" ++ nl ++
  "                    <th style=" ++ dq ++ "padding: 12px; text-align: left;" ++ dq ++ ">Ticker</th>" ++ nl ++
  "                    <th style=" ++ dq ++ "padding: 12px; text-align: left;" ++ dq ++ ">Company</th>" ++ nl ++
  "                    <th style=" ++ dq ++ "padding: 12px; text-align: left;" ++ dq ++ ">Price</th>" ++ nl ++
  "                    <th style=" ++ dq ++ "padding: 12px; text-align: left;" ++ dq ++ ">Offer Amount</th>" ++ nl ++
  "                    <th style=" ++ dq ++ "padding: 12px; text-align: left;" ++ dq ++ ">Exchange</th>" ++ nl ++
  "                </tr>" ++ nl ++
  "            </thead>" ++ nl ++
  "            <tbody>" ++ nl ++
  "                "), _.
  split; [|split].
  - unfold html_page. rewrite <- !append_assoc. reflexivity.
  - find_piece.
  - repeat first
      [ apply occurs_keep; solve [ exists "            ", EmptyString; reflexivity ]
      | apply occurs_skip ].
Qed.

(** An offering that was built from a raw entry and has an offer amount has
    a price; so has every offering that the filter keeps in a run. *)
Lemma built_offer_has_price data r :
  from_finnhub data = Ok r -> offer_amount r <> None -> price r <> None.
Proof.
  unfold from_finnhub.
  destruct (raw_price data) as [p|]; destruct (raw_numberOfShares data) as [s|];
    cbn [result_bind]; try (intros [= <-]; cbn; congruence).
  destruct (float_truthy (Some p) && int_truthy (Some s));
    [|intros [= <-]; cbn; congruence].
  destruct (float_times_int p s); cbn [result_bind]; [|discriminate].
  intros [= <-]. cbn. discriminate.
Qed.

Lemma kept_offerings_are_priced raws : forall ipos target,
  result_map from_finnhub raws = Ok ipos ->
  Forall (fun ipo => price ipo <> None) (List.filter (selected target) ipos).
Proof.
  induction raws as [|data raws IH]; intros ipos target; cbn [result_map].
  - intros [= <-]. constructor.
  - destruct (from_finnhub data) as [r|e] eqn:Hr; cbn [result_bind]; [|discriminate].
    destruct (result_map from_finnhub raws) as [rs|e]; cbn [result_bind]; [|discriminate].
    intros [= <-]. cbn [List.filter].
    destruct (selected target r) eqn:Hsel; [|apply IH; reflexivity].
    constructor; [|apply IH; reflexivity].
    apply (built_offer_has_price data r Hr).
    apply selected_iff in Hsel. destruct Hsel as (_ & v & -> & _). discriminate.
Qed.

(** [contains] decides [occurs_in]. *)
Lemma prefix_append needle rest : String.prefix needle (needle ++ rest) = true.
Proof.
  induction needle as [|ch needle IH]; [destruct rest; reflexivity|].
  change (String.prefix (String ch needle) (String ch (needle ++ rest)) = true).
  cbn. destruct (ascii_dec ch ch); [exact IH | congruence].
Qed.

Lemma prefix_occurs needle hay :
  String.prefix needle hay = true -> exists rest, hay = needle ++ rest.
Proof.
  revert hay. induction needle as [|ch needle IH]; intros hay H.
  - exists hay. reflexivity.
  - destruct hay as [|ch' hay]; [discriminate|]. cbn in H.
    destruct (ascii_dec ch ch') as [<-|]; [|discriminate].
    destruct (IH hay H) as (rest & ->). exists rest. reflexivity.
Qed.

Lemma contains_occurs needle hay : contains needle hay = true <-> occurs_in needle hay.
Proof.
  split.
  - induction hay as [|ch hay IH]; cbn [contains]; intros H;
      apply orb_true_iff in H as [H|H].
    + destruct (prefix_occurs _ _ H) as (rest & ->). apply occurs_here.
    + discriminate.
    + destruct (prefix_occurs _ _ H) as (rest & ->). apply occurs_here.
    + apply (occurs_skip needle (String ch EmptyString) hay), IH, H.
  - intros (before & after & ->). induction before as [|ch before IH].
    + change (contains needle (needle ++ after) = true).
      destruct (needle ++ after) eqn:E; cbn [contains]; rewrite <- E, prefix_append; reflexivity.
    + change (contains needle (String ch (before ++ needle ++ after)) = true).
      cbn [contains]. rewrite IH. apply orb_true_r.
Qed.

Lemma not_occurs needle hay : contains needle hay = false -> ~ occurs_in needle hay.
Proof. intros H Ho. apply contains_occurs in Ho. congruence. Qed.

(** C4, amended. For every list of offerings that is not empty and in which
    every offering has a price (as every offering built from a raw entry with
    an offer amount has), the rich body is the page around one table row per
    offering, in order; each row carries the ticker, the company, the formatted
    offer amount and the exchange of its offering (the date of the offering and
    its number of shares stand in the plain body only); the count of the
    offerings stands above the rows and the threshold of 200,000,000 dollars
    below them. *)
Theorem rich_body_rows (ipos : list IPOData) (date : string) :
  ipos <> [] ->
  Forall (fun ipo => price ipo <> None) ipos ->
  exists rows text,
    create_email_content ipos date
    = Ok (html_page date (length ipos) (String.concat EmptyString rows), text)
    /\ Forall2 (fun ipo row =>
                  html_row ipo = Ok row
                  /\ occurs_in row (String.concat EmptyString rows)
                  /\ occurs_in (symbol ipo) row
                  /\ occurs_in (name ipo) row
                  /\ occurs_in (format_offer_amount ipo) row
                  /\ occurs_in (of_optional (exchange ipo)) row) ipos rows
    /\ exists top bottom,
         html_page date (length ipos) (String.concat EmptyString rows)
         = top ++ String.concat EmptyString rows ++ bottom
         /\ occurs_in ("Found <strong>" ++ of_Z (Z.of_nat (length ipos)) ++ "</strong> IPO(s)") top
         /\ occurs_in "Threshold: Offer Amount > $200,000,000" bottom.
Proof.
  intros Hne Hall.
  destruct (rows_loop_priced ipos EmptyString Hall) as (rows & Hrows & Hloop).
  exists rows. eexists. split; [|split].
  - unfold create_email_content. destruct ipos as [|ipo rest]; [congruence|].
    rewrite Hloop. cbn [result_bind]. reflexivity.
  - assert (Hin : forall row, In row rows -> occurs_in row (String.concat EmptyString rows))
      by (intros; apply occurs_in_concat; assumption).
    clear Hloop Hne. revert Hin. generalize (String.concat EmptyString rows) as all.
    induction Hrows as [|ipo row ipos' rows' Hrow Hrest IH]; intros all Hin; [constructor|].
    inversion Hall as [|? ? Hp Hall']; subst.
    destruct (price ipo) as [p|] eqn:Hprice; [|congruence].
    destruct (html_row_carries ipo p Hprice) as (row' & Hrow' & Hs & Hn & Ho & He).
    assert (row' = row) by congruence. subst row'.
    constructor.
    + repeat split; try assumption. apply Hin. left. reflexivity.
    + apply IH; [assumption|]. intros r Hr. apply Hin. right. exact Hr.
  - apply html_page_layout.
Qed.

(** The amended claim at the report of the scenario. *)
Lemma rich_body_rows_abcd :
  exists rows text,
    create_email_content [abcd] "2024-05-01"
    = Ok (html_page "2024-05-01" 1 (String.concat EmptyString rows), text)
    /\ Forall2 (fun ipo row =>
                  html_row ipo = Ok row
                  /\ occurs_in row (String.concat EmptyString rows)
                  /\ occurs_in (symbol ipo) row
                  /\ occurs_in (name ipo) row
                  /\ occurs_in (format_offer_amount ipo) row
                  /\ occurs_in (of_optional (exchange ipo)) row) [abcd] rows
    /\ exists top bottom,
         html_page "2024-05-01" 1 (String.concat EmptyString rows)
         = top ++ String.concat EmptyString rows ++ bottom
         /\ occurs_in ("Found <strong>" ++ of_Z 1 ++ "</strong> IPO(s)") top
         /\ occurs_in "Threshold: Offer Amount > $200,000,000" bottom.
Proof.
  apply (rich_body_rows [abcd] "2024-05-01").
  - discriminate.
  - repeat constructor. discriminate.
Defined.

(** C4 as stated fails. The row of the scenario's offering shows neither its
    date nor its number of shares, which the plain body shows; and for an
    offering without a price the rich body is not rendered at all: the
    format of the price raises [TypeError]. *)
Lemma rich_body_omits_fields :
  (exists html text row,
      create_email_content [abcd] "2024-05-01" = Ok (html, text)
      /\ html_row abcd = Ok row
      /\ occurs_in "IPO Date: 2024-05-01" text
      /\ occurs_in "Shares: 15,000,000" text
      /\ ~ occurs_in (ipo_date abcd) row
      /\ ~ occurs_in "15,000,000" html
      /\ ~ occurs_in "15000000" html)
  /\ create_email_content [unpriced] "2024-05-01"
     = Error (Exn TypeError "unsupported format string passed to NoneType.__format__").
Proof.
  split; [|vm_compute; reflexivity].
  eexists; eexists; eexists.
  split; [vm_compute; reflexivity|].
  split; [vm_compute; reflexivity|].
  split; [apply contains_occurs; vm_compute; reflexivity|].
  split; [apply contains_occurs; vm_compute; reflexivity|].
  split; [apply not_occurs; vm_compute; reflexivity|].
  split; apply not_occurs; vm_compute; reflexivity.
Qed.

(** ** The calendar fetcher *)

(** Runs the plumbing of the monad, and nothing else. *)
Ltac step :=
  cbv beta iota zeta
      delta [bind ret raise issue lift logger_info logger_error try_except
             try_finally sys_exit];
  cbn [fst snd log net].

Section Fetch.

Variable w : World.
Variable self : FinnhubClient.
Variables from_date to_date : string.
Variable st : state.

Abbreviation request := (calendar_request self from_date to_date).
Abbreviation asked := {| log := log st; net := (net st ++ [request])%list |}.

Lemma fetch_transport_failure kind text :
  http_reply w request = HttpFailure kind text ->
  get_ipo_calendar w self from_date to_date st = (Ret [], recovered st request text).
Proof.
  intros H. unfold get_ipo_calendar, session_get. change (HttpGet _ _ _ _) with request. step.
  rewrite H. reflexivity.
Qed.

Lemma fetch_error_status response :
  http_reply w request = HttpResponse response ->
  400 <= status_code response < 600 ->
  exists text, get_ipo_calendar w self from_date to_date st = (Ret [], recovered st request text).
Proof.
  intros H Hs. unfold get_ipo_calendar, session_get, raise_for_status.
  change (HttpGet _ _ _ _) with request. step. rewrite H. step.
  destruct ((400 <=? status_code response) && (status_code response <? 500)) eqn:H4.
  - eexists. reflexivity.
  - assert (H5 : (500 <=? status_code response) && (status_code response <? 600) = true).
    { apply andb_false_iff in H4. apply andb_true_iff.
      rewrite Z.leb_le, Z.ltb_lt. rewrite Z.leb_gt, Z.ltb_ge in H4. lia. }
    rewrite H5. eexists. reflexivity.
Qed.

Lemma raise_for_status_passes response s :
  ~ 400 <= status_code response < 600 ->
  raise_for_status response s = (Ret tt, s).
Proof.
  intros Hs. unfold raise_for_status.
  assert (H4 : (400 <=? status_code response) && (status_code response <? 500) = false).
  { apply andb_false_iff. rewrite Z.leb_gt, Z.ltb_ge. lia. }
  assert (H5 : (500 <=? status_code response) && (status_code response <? 600) = false).
  { apply andb_false_iff. rewrite Z.leb_gt, Z.ltb_ge. lia. }
  rewrite H4, H5. reflexivity.
Qed.

Lemma fetch_not_json response text :
  http_reply w request = HttpResponse response ->
  body response = NotJson text ->
  exists text', get_ipo_calendar w self from_date to_date st = (Ret [], recovered st request text').
Proof.
  intros H Hb.
  destruct (Z_le_dec 400 (status_code response)) as [Hlo|Hlo];
    [destruct (Z_lt_dec (status_code response) 600) as [Hhi|Hhi]|].
  1: { apply (fetch_error_status response H). lia. }
  all: exists text; unfold get_ipo_calendar, session_get;
    change (HttpGet _ _ _ _) with request; step; rewrite H; step;
    rewrite raise_for_status_passes by lia;
    unfold response_json; rewrite Hb; reflexivity.
Qed.

Lemma fetch_object response calendar :
  http_reply w request = HttpResponse response ->
  ~ 400 <= status_code response < 600 ->
  body response = JsonObject calendar ->
  get_ipo_calendar w self from_date to_date st = (Ret (default [] calendar), asked).
Proof.
  intros H Hs Hb. unfold get_ipo_calendar, session_get.
  change (HttpGet _ _ _ _) with request. step. rewrite H. step. rewrite raise_for_status_passes by assumption.
  unfold response_json. rewrite Hb. destruct calendar; reflexivity.
Qed.

Lemma fetch_other_json response pytype :
  http_reply w request = HttpResponse response ->
  ~ 400 <= status_code response < 600 ->
  body response = JsonOther pytype ->
  get_ipo_calendar w self from_date to_date st
  = (Raise (Exn AttributeError ("'" ++ pytype ++ "' object has no attribute 'get'")), asked).
Proof.
  intros H Hs Hb. unfold get_ipo_calendar, session_get.
  change (HttpGet _ _ _ _) with request. step. rewrite H. step. rewrite raise_for_status_passes by assumption.
  unfold response_json. rewrite Hb. reflexivity.
Qed.

(** Whatever the answer, a fetch issues its one request and no other
    operation, and what it raises, if it raises, is an [AttributeError]. *)
Lemma fetch_outcomes :
  exists o st',
    get_ipo_calendar w self from_date to_date st = (o, st')
    /\ net st' = (net st ++ [request])%list
    /\ ((exists raws, o = Ret raws)
        \/ (exists text, o = Raise (Exn AttributeError text))).
Proof.
  destruct (http_reply w request) as [kind text|response] eqn:H.
  - rewrite (fetch_transport_failure kind text H). eexists; eexists. eauto.
  - destruct (Z_le_dec 400 (status_code response)) as [Hlo|Hlo];
      [destruct (Z_lt_dec (status_code response) 600) as [Hhi|Hhi]|].
    1: { destruct (fetch_error_status response H ltac:(lia)) as (text & ->).
         eexists; eexists. eauto. }
    all: destruct (body response) as [text|calendar|pytype] eqn:Hb;
      [ destruct (fetch_not_json response text H Hb) as (text' & ->)
      | rewrite (fetch_object response calendar H ltac:(lia) Hb)
      | rewrite (fetch_other_json response pytype H ltac:(lia) Hb) ];
      eexists; eexists; eauto.
Qed.

End Fetch.

(** C5, amended. A fetch issues one request. It does not raise and returns
    the empty list after a timeout or a failure of the transport, after a
    response with a status from 400 to 599, and after a response whose body is
    no JSON; after any other response whose body is a JSON object it returns
    the list under [ipoCalendar], or the empty list when the object has no such
    key. *)
Theorem get_ipo_calendar_fails_soft (w : World) (self : FinnhubClient)
    (from_date to_date : string) (st : state) :
  let request := calendar_request self from_date to_date in
  let fetched := get_ipo_calendar w self from_date to_date st in
  (forall kind text,
      http_reply w request = HttpFailure kind text -> fst fetched = Ret [])
  /\ (forall response,
      http_reply w request = HttpResponse response ->
      400 <= status_code response < 600 -> fst fetched = Ret [])
  /\ (forall response text,
      http_reply w request = HttpResponse response ->
      body response = NotJson text -> fst fetched = Ret [])
  /\ (forall response calendar,
      http_reply w request = HttpResponse response ->
      ~ 400 <= status_code response < 600 ->
      body response = JsonObject calendar ->
      fst fetched = Ret (default [] calendar))
  /\ net (snd fetched) = (net st ++ [request])%list.
Proof.
  cbv zeta. split; [|split; [|split; [|split]]].
  - intros kind text H. rewrite (fetch_transport_failure w self from_date to_date st kind text H). reflexivity.
  - intros response H Hs.
    destruct (fetch_error_status w self from_date to_date st response H Hs) as (text & ->). reflexivity.
  - intros response text H Hb.
    destruct (fetch_not_json w self from_date to_date st response text H Hb) as (text' & ->). reflexivity.
  - intros response calendar H Hs Hb.
    rewrite (fetch_object w self from_date to_date st response calendar H Hs Hb). reflexivity.
  - destruct (fetch_outcomes w self from_date to_date st) as (o & st' & -> & Hnet & _).
    exact Hnet.
Qed.

(** The amended claim at work: the connection fails, and the provider answers
    with a calendar of one entry. *)
Lemma get_ipo_calendar_fails_soft_at_work :
  fst (get_ipo_calendar offline_world a_client "2024-05-01" "2024-05-01" initial) = Ret []
  /\ fst (get_ipo_calendar no_password_world a_client "2024-05-01" "2024-05-01" initial)
     = Ret [abcd_raw].
Proof.
  split.
  - apply (proj1 (get_ipo_calendar_fails_soft offline_world a_client
                    "2024-05-01" "2024-05-01" initial) ConnectionError "Connection refused").
    reflexivity.
  - apply (proj1 (proj2 (proj2 (proj2
             (get_ipo_calendar_fails_soft no_password_world a_client
                "2024-05-01" "2024-05-01" initial))))
             {| status_code := 200; reason := "OK";
                url := "https://finnhub.io/api/v1/calendar/ipo";
                body := JsonObject (Some [abcd_raw]) |} (Some [abcd_raw])).
    + reflexivity.
    + cbn. lia.
    + reflexivity.
Defined.

(** C5 as stated fails. A response whose body is JSON but no object (here a
    list) makes the fetch raise [AttributeError] to its caller; and a status
    outside 200 to 299 that [raise_for_status] lets pass (here 300) does not
    give the empty list when its body carries a calendar. *)
Lemma fetch_is_not_always_soft :
  fst (get_ipo_calendar list_body_world a_client "2024-05-01" "2024-05-01" initial)
  = Raise (Exn AttributeError "'list' object has no attribute 'get'")
  /\ fst (get_ipo_calendar multiple_choices_world a_client "2024-05-01" "2024-05-01" initial)
     = Ret [abcd_raw]
  /\ ~ fails_soft list_body_world a_client "2024-05-01" "2024-05-01" initial
  /\ ~ fails_soft multiple_choices_world a_client "2024-05-01" "2024-05-01" initial.
Proof.
  split; [vm_compute; reflexivity|]. split; [vm_compute; reflexivity|].
  split; intros H; specialize (H eq_refl); vm_compute in H; discriminate H.
Qed.

(** ** The dispatcher *)

Section Dispatch.

Variable w : World.
Variable self : EmailNotifier.
Variables recipient subject body_html body_text : string.
Variable st : state.

Abbreviation msg := (composed self recipient subject body_html body_text).
Abbreviation session := (full_session self recipient msg).

(** When no operation fails the message is handed over and the dispatch
    reports success. *)
Lemma send_email_delivers :
  (forall ev, In ev session -> smtp_reply w ev = None) ->
  send_email w self recipient subject body_html body_text st
  = (Ret true,
     {| log := (log st ++ [(INFO, ("Email sent successfully to " ++ recipient)%string)])%list;
        net := (net st ++ session)%list |}).
Proof.
  intros Hok. unfold send_email, smtp. change {| msg_subject := _; msg_from := _; msg_to := _; msg_parts := _ |} with msg. step.
  rewrite !Hok by (cbn; tauto). step.
  rewrite <- !app_assoc. reflexivity.
Qed.

(** A dispatch never raises: it reports [True] or [False]. Its operations
    are SMTP operations, at least one; it reports [True] exactly when the
    message was handed over and no operation failed, and [False] exactly
    when an operation failed. *)
Lemma send_email_reports :
  exists (sent : bool) st' ops,
    send_email w self recipient subject body_html body_text st = (Ret sent, st')
    /\ net st' = (net st ++ ops)%list
    /\ forallb is_smtp ops = true
    /\ existsb (smtp_failed w) ops = negb sent
    /\ existsb is_sendmail ops && negb (existsb (smtp_failed w) ops) = sent
    /\ connected_hosts {| log := []; net := ops |} = [smtp_server self].
Proof.
  unfold send_email, smtp. change {| msg_subject := _; msg_from := _; msg_to := _; msg_parts := _ |} with msg. step.
  destruct (smtp_reply w (SmtpConnect (smtp_server self) (smtp_port self))) eqn:H1; step.
  { eexists; eexists; exists [SmtpConnect (smtp_server self) (smtp_port self)].
    split; [reflexivity|]. cbn. unfold smtp_failed. rewrite H1. cbn. auto. }
  destruct (smtp_reply w SmtpStartTls) eqn:H2; step.
  { destruct (smtp_reply w SmtpQuit) eqn:H5; step;
      (eexists; eexists;
       exists [SmtpConnect (smtp_server self) (smtp_port self); SmtpStartTls; SmtpQuit];
       split; [rewrite <- !app_assoc; reflexivity|];
       cbn; unfold smtp_failed; rewrite H1, H2, H5; cbn; auto). }
  destruct (smtp_reply w (SmtpLogin (sender self) (password self))) eqn:H3; step.
  { destruct (smtp_reply w SmtpQuit) eqn:H5; step;
      (eexists; eexists;
       exists [SmtpConnect (smtp_server self) (smtp_port self); SmtpStartTls;
               SmtpLogin (sender self) (password self); SmtpQuit];
       split; [rewrite <- !app_assoc; reflexivity|];
       cbn; unfold smtp_failed; rewrite H1, H2, H3, H5; cbn; auto). }
  destruct (smtp_reply w (SmtpSendmail (sender self) recipient msg)) eqn:H4; step;
    destruct (smtp_reply w SmtpQuit) eqn:H5; step;
    (eexists; eexists; exists session;
     split; [rewrite <- !app_assoc; reflexivity|];
     cbn; unfold smtp_failed; change {| msg_subject := _; msg_from := _; msg_to := _; msg_parts := _ |} with msg; rewrite H1, H2, H3, H4, H5; cbn; auto).
Qed.

End Dispatch.

(** ** The orchestrator *)

Lemma py_not_or_none v : py_not (py_or v None) = py_not v.
Proof. destruct v as [[|ch s]|]; reflexivity. Qed.

Lemma present_setting v :
  py_not v = false -> exists s, v = Some s /\ truthy s = true.
Proof.
  destruct v as [[|ch s]|]; try discriminate. intros _. eexists. split; reflexivity.
Qed.

Section Orchestrator.

Variable w : World.

Abbreviation port_text := (or_str (environ_get w "SMTP_PORT") "587").

(** The list that [main] appends the missing settings to is the list of
    the required settings that the world lacks. *)
Lemma missing_vars_are_missing_required :
  let finnhub_api_key := py_or (environ_get w "FINNHUB_API_KEY") None in
  let email_sender := py_or (environ_get w "EMAIL_SENDER") None in
  let email_password := py_or (environ_get w "EMAIL_PASSWORD") None in
  let missing_vars := [] in
  let missing_vars :=
    if py_not finnhub_api_key then (missing_vars ++ ["FINNHUB_API_KEY"])%list
    else missing_vars in
  let missing_vars :=
    if py_not email_sender then (missing_vars ++ ["EMAIL_SENDER"])%list
    else missing_vars in
  let missing_vars :=
    if py_not email_password then (missing_vars ++ ["EMAIL_PASSWORD"])%list
    else missing_vars in
  missing_vars = missing_required w.
Proof.
  cbv zeta. rewrite !py_not_or_none. unfold missing_required, required_keys.
  cbn [List.filter].
  destruct (py_not (environ_get w "FINNHUB_API_KEY")),
           (py_not (environ_get w "EMAIL_SENDER")),
           (py_not (environ_get w "EMAIL_PASSWORD")); reflexivity.
Qed.

(** A port that is no number ends the run before the validation. *)
Lemma run_bad_port e :
  py_int port_text = Error e ->
  run w = (Raise e, {| log := banner; net := [] |}).
Proof.
  intros H. unfold run, main. rewrite H. reflexivity.
Qed.

(** A missing required setting ends the run at the validation. *)
Lemma run_missing port :
  py_int port_text = Ok port ->
  missing_required w <> [] ->
  run w = (Exit 1,
           {| log := (banner ++ [missing_record w;
                                 (ERROR, "Please set these variables before running the script.")])%list;
              net := [] |}).
Proof.
  intros H Hm. unfold run, main. rewrite H.
  pose proof missing_vars_are_missing_required as Hv. cbv zeta in Hv.
  step. rewrite Hv. unfold missing_record.
  destruct (missing_required w) as [|key keys]; [congruence|]. reflexivity.
Qed.

(** The settings of a complete configuration. *)
Lemma complete_settings :
  missing_required w = [] ->
  exists key from_addr secret to_addr,
    py_or (environ_get w "FINNHUB_API_KEY") None = Some key
    /\ py_or (environ_get w "EMAIL_SENDER") None = Some from_addr
    /\ py_or (environ_get w "EMAIL_PASSWORD") None = Some secret
    /\ py_or (environ_get w "EMAIL_RECIPIENT") (Some from_addr) = Some to_addr.
Proof.
  unfold missing_required, required_keys. cbn [List.filter]. intros Hm.
  destruct (py_not (environ_get w "FINNHUB_API_KEY")) eqn:H1; [discriminate|].
  destruct (py_not (environ_get w "EMAIL_SENDER")) eqn:H2; [discriminate|].
  destruct (py_not (environ_get w "EMAIL_PASSWORD")) eqn:H3; [discriminate|].
  destruct (present_setting _ H1) as (key & -> & Tk).
  destruct (present_setting _ H2) as (from_addr & -> & Tf).
  destruct (present_setting _ H3) as (secret & -> & Ts).
  exists key, from_addr, secret. cbn [py_or]. rewrite Tk, Tf, Ts.
  destruct (environ_get w "EMAIL_RECIPIENT") as [[|ch r]|]; cbn [py_or truthy]; eauto.
Qed.

(** With a complete configuration a run ends in one of three ways: by an
    exception, before any SMTP operation; by returning, after a dispatch that
    succeeded; or by [sys.exit(1)], after a dispatch that failed. *)
Lemma run_complete :
  missing_required w = [] ->
  exists o st,
    run w = (o, st)
    /\ ((exists e, o = Raise e /\ existsb is_smtp (net st) = false
                     /\ dispatch_succeeded w st = false /\ dispatch_failed w st = false)
        \/ (o = Ret tt /\ dispatch_succeeded w st = true /\ dispatch_failed w st = false)
        \/ (o = Exit 1 /\ dispatch_failed w st = true /\ dispatch_succeeded w st = false)).
Proof.
  intros Hm.
  destruct (py_int port_text) as [port|e] eqn:Hp.
  2: { rewrite (run_bad_port e Hp). eexists; eexists. split; [reflexivity|]. left.
       eexists. repeat split. }
  destruct (complete_settings Hm) as (key & from_addr & secret & to_addr & Hk & Hf & Hs & Ht).
  pose proof missing_vars_are_missing_required as Hv. cbv zeta in Hv.
  unfold run, main. rewrite Hp. step. rewrite Hv, Hm. step.
  rewrite Hk, Hf, Hs, Ht. step.
  match goal with
  | |- context [get_ipo_calendar ?a ?b ?c ?d ?s] =>
      destruct (fetch_outcomes a b c d s) as (o1 & st1 & -> & Hnet1 & Ho1)
  end.
  step. destruct Ho1 as [(raws & ->)|(text & ->)].
  2: { eexists; eexists. split; [reflexivity|]. left. eexists. split; [reflexivity|].
       unfold dispatch_succeeded, dispatch_failed. cbn [net]. rewrite Hnet1.
       repeat split. }
  destruct (result_map from_finnhub raws) as [ipos|e]; step.
  2: { eexists; eexists. split; [reflexivity|]. left. eexists. split; [reflexivity|].
       unfold dispatch_succeeded, dispatch_failed. cbn [net]. rewrite Hnet1.
       repeat split. }
  unfold filter_todays_large_ipos. rewrite filter_loop_spec. step.
  destruct (create_email_content _ _) as [[html_body text_body]|e]; step.
  2: { eexists; eexists. split; [reflexivity|]. left. eexists. split; [reflexivity|].
       unfold dispatch_succeeded, dispatch_failed. cbn [net]. rewrite Hnet1.
       repeat split. }
  match goal with
  | |- context [send_email ?a ?b ?c ?d ?e ?f ?s] =>
      destruct (send_email_reports a b c d e f s)
        as (sent & st2 & ops & -> & Hnet2 & _ & Hfail & Hsucc & _)
  end.
  cbn [net] in Hnet2. rewrite Hnet1 in Hnet2. cbn [net app] in Hnet2.
  assert (Hf2 : dispatch_failed w st2 = negb sent).
  { unfold dispatch_failed. rewrite Hnet2. cbn [existsb app]. exact Hfail. }
  assert (Hs2 : dispatch_succeeded w st2 = sent).
  { unfold dispatch_succeeded, dispatch_failed. rewrite Hnet2. cbn [existsb app]. exact Hsucc. }
  destruct sent; step; eexists; eexists; (split; [reflexivity|]); right; [left|right];
    unfold dispatch_succeeded, dispatch_failed in *; cbn [net] in *; auto.
Qed.

(** The scenario of the specification: the fetch fails, the mail goes
    through. The run returns, after handing over one message, the report of a
    day with no offering. *)
Lemma run_offline kind text port :
  missing_required w = [] ->
  py_int port_text = Ok port ->
  (forall request, http_reply w request = HttpFailure kind text) ->
  (forall ev, smtp_reply w ev = None) ->
  exists st msg,
    run w = (Ret tt, st)
    /\ sent_messages st = [msg]
    /\ msg_subject msg = subject_line [] (today_date w)
    /\ msg_parts msg = [("plain", empty_text (today_date w));
                        ("html", empty_html (today_date w))].
Proof.
  intros Hm Hp Hhttp Hsmtp.
  destruct (complete_settings Hm) as (key & from_addr & secret & to_addr & Hk & Hf & Hs & Ht).
  pose proof missing_vars_are_missing_required as Hv. cbv zeta in Hv.
  unfold run, main. rewrite Hp. step. rewrite Hv, Hm. step.
  rewrite Hk, Hf, Hs, Ht. step.
  rewrite (fetch_transport_failure _ _ _ _ _ kind text (Hhttp _)). step.
  cbn [result_map length]. step.
  unfold filter_todays_large_ipos. cbn [filter_loop]. step.
  cbn [create_email_content]. step.
  rewrite send_email_delivers by (intros; apply Hsmtp). step.
  eexists; eexists. split; [reflexivity|]. split; [reflexivity|]. split; reflexivity.
Qed.

(** A run connects to at most one relay, and its host is what the setting
    [SMTP_PORT] holds, or [smtp.gmail.com] when that setting is unset or
    empty. *)
Lemma run_connects :
  connected_hosts (snd (run w)) = []
  \/ connected_hosts (snd (run w)) = [or_str (environ_get w "SMTP_PORT") "smtp.gmail.com"].
Proof.
  destruct (py_int port_text) as [port|e] eqn:Hp.
  2: { rewrite (run_bad_port e Hp). left. reflexivity. }
  destruct (missing_required w) as [|k ks] eqn:Hm.
  2: { rewrite (run_missing port Hp) by congruence. left. reflexivity. }
  destruct (complete_settings Hm) as (key & from_addr & secret & to_addr & Hk & Hf & Hs & Ht).
  pose proof missing_vars_are_missing_required as Hv. cbv zeta in Hv.
  unfold run, main. rewrite Hp. step. rewrite Hv, Hm. step.
  rewrite Hk, Hf, Hs, Ht. step.
  match goal with
  | |- context [get_ipo_calendar ?a ?b ?c ?d ?s] =>
      destruct (fetch_outcomes a b c d s) as (o1 & st1 & -> & Hnet1 & Ho1)
  end.
  step. destruct Ho1 as [(raws & ->)|(text & ->)].
  2: { left. cbn [snd]. unfold connected_hosts. rewrite Hnet1. reflexivity. }
  destruct (result_map from_finnhub raws) as [ipos|e]; step.
  2: { left. unfold connected_hosts. rewrite Hnet1. reflexivity. }
  unfold filter_todays_large_ipos. rewrite filter_loop_spec. step.
  destruct (create_email_content _ _) as [[html_body text_body]|e]; step.
  2: { left. unfold connected_hosts. rewrite Hnet1. reflexivity. }
  match goal with
  | |- context [send_email ?a ?b ?c ?d ?e ?f ?s] =>
      destruct (send_email_reports a b c d e f s)
        as (sent & st2 & ops & -> & Hnet2 & _ & _ & _ & Hhost)
  end.
  cbn [net] in Hnet2. rewrite Hnet1 in Hnet2. cbn [net app] in Hnet2.
  right. unfold connected_hosts in *. cbn [net smtp_server] in Hhost.
  destruct sent; step; rewrite Hnet2; cbn [omap list_omap]; exact Hhost.
Qed.

End Orchestrator.

(** C6, amended. When a required setting (the API key, the sender address or
    the sender credential) is missing, the run ends with status 1 and has
    issued no network operation; and when the port setting is unset, empty or
    an integer literal, the run ends by [sys.exit(1)] and its log enumerates
    the missing settings. *)
Theorem missing_setting_aborts (w : World) :
  missing_required w <> [] ->
  exit_status (fst (run w)) = 1
  /\ net (snd (run w)) = []
  /\ (forall port,
        py_int (or_str (environ_get w "SMTP_PORT") "587") = Ok port ->
        fst (run w) = Exit 1 /\ In (missing_record w) (log (snd (run w)))).
Proof.
  intros Hm.
  destruct (py_int (or_str (environ_get w "SMTP_PORT") "587")) as [port|e] eqn:Hp.
  - rewrite (run_missing w port Hp Hm). cbn [fst snd exit_status net log].
    split; [reflexivity|]. split; [reflexivity|]. intros _ _.
    split; [reflexivity|]. apply in_or_app. right. left. reflexivity.
  - rewrite (run_bad_port w e Hp). cbn [fst snd exit_status net].
    split; [reflexivity|]. split; [reflexivity|]. intros port [=].
Qed.

(** The amended claim in the scenario of the specification: the sender
    credential is missing. *)
Lemma missing_setting_aborts_no_password :
  missing_required no_password_world = ["EMAIL_PASSWORD"]
  /\ exit_status (fst (run no_password_world)) = 1
  /\ net (snd (run no_password_world)) = []
  /\ fst (run no_password_world) = Exit 1
  /\ In (ERROR, "Missing required environment variables: EMAIL_PASSWORD")
        (log (snd (run no_password_world))).
Proof.
  assert (Hm : missing_required no_password_world <> []) by (vm_compute; discriminate).
  destruct (missing_setting_aborts no_password_world Hm) as (Hs & Hn & Hl).
  destruct (Hl 587 eq_refl) as (He & Hi).
  split; [reflexivity|]. repeat split; assumption.
Defined.

(** C6 as stated fails when the port setting is no integer literal: [int]
    raises [ValueError] before the validation, so the run ends with nothing
    logged about the missing settings. *)
Lemma bad_port_hides_missing_settings :
  missing_required bad_port_world = ["FINNHUB_API_KEY"; "EMAIL_SENDER"; "EMAIL_PASSWORD"]
  /\ fst (run bad_port_world)
     = Raise (Exn ValueError "invalid literal for int() with base 10: 'abc'")
  /\ log (snd (run bad_port_world)) = banner
  /\ ~ aborts_enumerating bad_port_world.
Proof.
  split; [vm_compute; reflexivity|]. split; [vm_compute; reflexivity|].
  split; [vm_compute; reflexivity|].
  intros H. destruct H as (_ & _ & Hin); [vm_compute; discriminate|].
  vm_compute in Hin. intuition discriminate.
Qed.

(** C9. With a complete required configuration the process ends with status
    0 exactly when the dispatch succeeded; a dispatch that failed ends it by
    [sys.exit(1)]; an exception that ends a run never comes out of the
    dispatch (no SMTP operation has been issued then); and when the fetch fails
    in the transport and the mail goes through, the run hands over the report
    of a day with no offering and returns. *)
Theorem exit_status_follows_dispatch (w : World) :
  missing_required w = [] ->
  (exit_status (fst (run w)) = 0 <-> dispatch_succeeded w (snd (run w)) = true)
  /\ (dispatch_failed w (snd (run w)) = true ->
      fst (run w) = Exit 1 /\ exit_status (fst (run w)) = 1)
  /\ (forall e, fst (run w) = Raise e -> existsb is_smtp (net (snd (run w))) = false)
  /\ (forall kind text port,
        py_int (or_str (environ_get w "SMTP_PORT") "587") = Ok port ->
        (forall request, http_reply w request = HttpFailure kind text) ->
        (forall ev, smtp_reply w ev = None) ->
        fst (run w) = Ret tt
        /\ exit_status (fst (run w)) = 0
        /\ exists msg,
             sent_messages (snd (run w)) = [msg]
             /\ msg_subject msg = subject_line [] (today_date w)
             /\ msg_parts msg = [("plain", empty_text (today_date w));
                                 ("html", empty_html (today_date w))]).
Proof.
  intros Hm. split; [|split; [|split]].
  - destruct (run_complete w Hm) as (o & st & -> & [(e & -> & _ & Hs & _)|[(-> & Hs & _)|(-> & _ & Hs)]]);
      cbn [fst snd exit_status]; rewrite Hs; split; (reflexivity || discriminate).
  - destruct (run_complete w Hm) as (o & st & -> & [(e & -> & _ & _ & Hf)|[(-> & _ & Hf)|(-> & _ & _)]]);
      cbn [fst snd exit_status]; try (rewrite Hf; discriminate). intros _. split; reflexivity.
  - destruct (run_complete w Hm) as (o & st & -> & [(e & -> & Hn & _)|[(-> & _)|(-> & _)]]);
      cbn [fst snd]; intros e'; try discriminate. intros _. exact Hn.
  - intros kind text port Hp Hhttp Hsmtp.
    destruct (run_offline w kind text port Hm Hp Hhttp Hsmtp) as (st & msg & -> & H1 & H2 & H3).
    cbn [fst snd exit_status]. split; [reflexivity|]. split; [reflexivity|]. eauto.
Qed.

(** C9 at work: the provider cannot be reached and the mail goes through;
    the relay refuses the login. *)
Lemma exit_status_follows_dispatch_at_work :
  (exit_status (fst (run offline_world)) = 0
   /\ dispatch_succeeded offline_world (snd (run offline_world)) = true)
  /\ (dispatch_failed refused_world (snd (run refused_world)) = true
      /\ fst (run refused_world) = Exit 1).
Proof.
  split.
  - assert (Hm : missing_required offline_world = []) by reflexivity.
    destruct (exit_status_follows_dispatch offline_world Hm) as (Hiff & _ & _ & Hoff).
    destruct (Hoff ConnectionError "Connection refused" 587 eq_refl
                (fun _ => eq_refl) (fun _ => eq_refl)) as (_ & H0 & _).
    split; [exact H0 | apply Hiff, H0].
  - assert (Hm : missing_required refused_world = []) by reflexivity.
    destruct (exit_status_follows_dispatch refused_world Hm) as (_ & Hfail & _).
    assert (Hf : dispatch_failed refused_world (snd (run refused_world)) = true)
      by (vm_compute; reflexivity).
    split; [exact Hf | apply Hfail, Hf].
Defined.

(** C3: the code does not meet the claim. The relay host is read from the
    setting of the port: a run connects to what [SMTP_PORT] holds, or to
    [smtp.gmail.com] when that is unset or empty, whatever [SMTP_SERVER] holds.
    With [SMTP_SERVER] set to [mail.example.com] the run connects to
    [smtp.gmail.com]; with [SMTP_PORT] set to [2525] it connects to the host
    [2525]. *)
Theorem relay_host_is_read_from_port_setting :
  (forall w,
      connected_hosts (snd (run w)) = []
      \/ connected_hosts (snd (run w))
         = [or_str (environ_get w "SMTP_PORT") "smtp.gmail.com"])
  /\ environ_get relay_host_world "SMTP_SERVER" = Some "mail.example.com"
  /\ connected_hosts (snd (run relay_host_world)) = ["smtp.gmail.com"]
  /\ environ_get relay_port_world "SMTP_SERVER" = None
  /\ connected_hosts (snd (run relay_port_world)) = ["2525"].
Proof.
  split; [exact run_connects|]. repeat split; vm_compute; reflexivity.
Qed.

(** An empty value and no value are the same to the two readers of a
    setting. *)
Lemma py_or_insert_empty (env : gmap string string) key other fallback :
  py_or (<[key := EmptyString]> env !! other) fallback
  = py_or (delete key env !! other) fallback.
Proof.
  destruct (decide (key = other)) as [->|Hne].
  - rewrite lookup_insert_eq, lookup_delete_eq. reflexivity.
  - rewrite lookup_insert_ne, lookup_delete_ne by assumption. reflexivity.
Qed.

Lemma or_str_insert_empty (env : gmap string string) key other fallback :
  or_str (<[key := EmptyString]> env !! other) fallback
  = or_str (delete key env !! other) fallback.
Proof.
  destruct (decide (key = other)) as [->|Hne].
  - rewrite lookup_insert_eq, lookup_delete_eq. reflexivity.
  - rewrite lookup_insert_ne, lookup_delete_ne by assumption. reflexivity.
Qed.

(** Setting a variable to the empty text gives the same run as unsetting
    it. *)
Lemma empty_setting_is_unset (env : gmap string string) today http smtp_answers key :
  run {| environ := <[key := EmptyString]> env; today_date := today;
         http_reply := http; smtp_reply := smtp_answers |}
  = run {| environ := delete key env; today_date := today;
           http_reply := http; smtp_reply := smtp_answers |}.
Proof.
  unfold run, main, environ_get. cbn [environ].
  rewrite !py_or_insert_empty, !or_str_insert_empty. reflexivity.
Qed.

(** C10: the code does not meet the claim. An empty value is treated as an
    absent one for every setting, but an empty relay host does not fall back
    to [smtp.gmail.com]: with [SMTP_SERVER] empty and [SMTP_PORT] set to
    [2525] the run connects to the host [2525]. *)
Theorem empty_relay_host_does_not_fall_back :
  environ_get empty_host_world "SMTP_SERVER" = Some EmptyString
  /\ environ_get empty_host_world "SMTP_PORT" = Some "2525"
  /\ connected_hosts (snd (run empty_host_world)) = ["2525"]
  /\ fst (run empty_host_world) = Ret tt.
Proof. repeat split; vm_compute; reflexivity. Qed.

(** ** More on the dispatcher *)

(** What a dispatch does, whatever the relay answers. *)
Lemma send_email_runs (w : World) (self : EmailNotifier)
    (recipient subject body_html body_text : string) (st : state) :
  exists sent st',
    send_email w self recipient subject body_html body_text st = (Ret sent, st')
    /\ net st'
       = (net st ++ session_trace w self recipient
                      (composed self recipient subject body_html body_text))%list
    /\ sent = forallb (smtp_ok w)
                (full_session self recipient
                   (composed self recipient subject body_html body_text))
    /\ (if sent
        then log st' = (log st ++ [(INFO, ("Email sent successfully to " ++ recipient)%string)])%list
        else exists text,
               log st' = (log st ++ [(ERROR, ("Failed to send email: " ++ text)%string)])%list).
Proof.
  set (msg := composed self recipient subject body_html body_text).
  unfold send_email, smtp, session_trace, full_session, smtp_ok.
  change {| msg_subject := _; msg_from := _; msg_to := _; msg_parts := _ |} with msg.
  destruct (smtp_reply w (SmtpConnect (smtp_server self) (smtp_port self))) eqn:H1;
    destruct (smtp_reply w SmtpStartTls) eqn:H2;
    destruct (smtp_reply w (SmtpLogin (sender self) (password self))) eqn:H3;
    destruct (smtp_reply w (SmtpSendmail (sender self) recipient msg)) eqn:H4;
    destruct (smtp_reply w SmtpQuit) eqn:H5;
    step; cbn [negb forallb andb];
    repeat (first [rewrite H1 | rewrite H2 | rewrite H3 | rewrite H4 | rewrite H5];
            step; cbn [negb forallb andb]);
    (eexists; eexists; split; [reflexivity|]);
    cbn [net log]; rewrite <- ?app_assoc;
    (split; [reflexivity|]); (split; [reflexivity|]);
    first [reflexivity | eexists; reflexivity].
Qed.

(** The order of a session. *)
Lemma session_trace_order (w : World) (self : EmailNotifier) (recipient : string)
    (msg : Message) :
  let ops := session_trace w self recipient msg in
  sublist ops (full_session self recipient msg)
  /\ (forall user secret, In (SmtpLogin user secret) ops ->
        smtp_ok w SmtpStartTls = true)
  /\ (forall from_addr to_addr m, In (SmtpSendmail from_addr to_addr m) ops ->
        smtp_ok w SmtpStartTls = true
        /\ smtp_ok w (SmtpLogin (sender self) (password self)) = true)
  /\ (In SmtpQuit ops <->
        smtp_ok w (SmtpConnect (smtp_server self) (smtp_port self)) = true).
Proof.
  cbv zeta. unfold session_trace, full_session.
  destruct (smtp_ok w (SmtpConnect (smtp_server self) (smtp_port self)));
    destruct (smtp_ok w SmtpStartTls);
    destruct (smtp_ok w (SmtpLogin (sender self) (password self)));
    cbn [negb];
    (split; [repeat first [apply sublist_nil | apply sublist_skip | apply sublist_cons]|]);
    (split; [intros user secret Hin; cbn in Hin; intuition discriminate|]);
    (split; [intros a b m Hin; cbn in Hin; intuition discriminate|]);
    cbn; intuition discriminate.
Qed.

(** X1. A dispatch never raises and never exits: it returns a boolean, which
    is [True] exactly when the five operations of a session all go through.
    It adds one record to the log: an [INFO] that names the recipient on
    success, an [ERROR] with the text of the exception otherwise. Its
    operations are taken in order from connect, STARTTLS, login, sendmail,
    QUIT: the login is issued only after STARTTLS went through, the message
    is handed over only after the login went through, and QUIT is said
    exactly when the connection was made. *)
Theorem send_email_session (w : World) (self : EmailNotifier)
    (recipient subject body_html body_text : string) (st : state) :
  let msg := composed self recipient subject body_html body_text in
  let ops := session_trace w self recipient msg in
  exists sent st',
    send_email w self recipient subject body_html body_text st = (Ret sent, st')
    /\ net st' = (net st ++ ops)%list
    /\ sent = forallb (smtp_ok w) (full_session self recipient msg)
    /\ (if sent
        then log st' = (log st ++ [(INFO, ("Email sent successfully to " ++ recipient)%string)])%list
        else exists text,
               log st' = (log st ++ [(ERROR, ("Failed to send email: " ++ text)%string)])%list)
    /\ sublist ops (full_session self recipient msg)
    /\ (forall user secret, In (SmtpLogin user secret) ops ->
          smtp_ok w SmtpStartTls = true)
    /\ (forall from_addr to_addr m, In (SmtpSendmail from_addr to_addr m) ops ->
          smtp_ok w SmtpStartTls = true
          /\ smtp_ok w (SmtpLogin (sender self) (password self)) = true)
    /\ (In SmtpQuit ops <->
          smtp_ok w (SmtpConnect (smtp_server self) (smtp_port self)) = true).
Proof.
  cbv zeta.
  destruct (send_email_runs w self recipient subject body_html body_text st)
    as (sent & st' & Hrun & Hnet & Hsent & Hlog).
  destruct (session_trace_order w self recipient
              (composed self recipient subject body_html body_text))
    as (Hsub & Hlogin & Hmail & Hquit).
  exists sent, st'.
  split; [exact Hrun|]. split; [exact Hnet|]. split; [exact Hsent|].
  split; [exact Hlog|]. split; [exact Hsub|]. split; [exact Hlogin|].
  split; [exact Hmail|]. exact Hquit.
Qed.

(** ** A whole run *)

(** A construction raises nothing but the [OverflowError] of a share count
    that no float holds. *)
Lemma from_finnhub_raises data e :
  from_finnhub data = Error e ->
  e = Exn OverflowError "int too large to convert to float"
  /\ exists p s,
       raw_price data = Some p /\ raw_numberOfShares data = Some s
       /\ PyFloat.truthy p = true /\ s <> 0 /\ float_of_int s = Error e.
Proof.
  unfold from_finnhub.
  destruct (raw_price data) as [p|]; destruct (raw_numberOfShares data) as [s|];
    cbn [result_bind]; try discriminate.
  cbn [float_truthy int_truthy].
  destruct (PyFloat.truthy p) eqn:Tp; cbn [andb]; [|discriminate].
  destruct (s =? 0) eqn:Ts; cbn [negb]; [discriminate|].
  unfold float_times_int.
  destruct (float_of_int s) as [y|e'] eqn:Hy; cbn [result_bind]; [discriminate|].
  intros [= <-]. split.
  - unfold float_of_int in Hy. destruct (PyFloat.nearest s); congruence.
  - exists p, s. apply Z.eqb_neq in Ts. auto.
Qed.

Lemma result_map_from_finnhub_raises raws : forall e,
  result_map from_finnhub raws = Error e ->
  e = Exn OverflowError "int too large to convert to float".
Proof.
  induction raws as [|data raws IH]; intros e; cbn [result_map]; [discriminate|].
  destruct (from_finnhub data) as [r|e'] eqn:Hr; cbn [result_bind].
  - destruct (result_map from_finnhub raws) as [rs|e'']; cbn [result_bind];
      [discriminate|].
    intros [= <-]. apply IH. reflexivity.
  - intros [= <-]. apply (from_finnhub_raises data e' Hr).
Qed.

(** A fetch hands over what [calendar_of] reads off the reply, after its one
    request. *)
Lemma fetch_calendar_of (w : World) (self : FinnhubClient) (from_date to_date : string)
    (st : state) :
  exists st',
    get_ipo_calendar w self from_date to_date st
    = (outcome_of (calendar_of (http_reply w (calendar_request self from_date to_date))),
       st')
    /\ net st' = (net st ++ [calendar_request self from_date to_date])%list
    /\ exists records,
         log st' = (log st ++ records)%list
         /\ if fetch_recovers (http_reply w (calendar_request self from_date to_date))
            then exists text,
                   records = [(ERROR, ("Failed to fetch IPO calendar: " ++ text)%string)]
            else records = [].
Proof.
  unfold calendar_of, fetch_recovers.
  destruct (http_reply w (calendar_request self from_date to_date))
    as [kind text|response] eqn:H.
  - rewrite (fetch_transport_failure w self from_date to_date st kind text H).
    eexists. split; [reflexivity|]. split; [reflexivity|].
    eexists. split; [reflexivity|]. eexists. reflexivity.
  - destruct ((400 <=? status_code response) && (status_code response <? 600)) eqn:Hs.
    + apply andb_true_iff in Hs. rewrite Z.leb_le, Z.ltb_lt in Hs.
      destruct (fetch_error_status w self from_date to_date st response H Hs)
        as (text & ->).
      eexists. split; [reflexivity|]. split; [reflexivity|].
      eexists. split; [reflexivity|]. eexists. reflexivity.
    + assert (Hs' : ~ 400 <= status_code response < 600).
      { apply andb_false_iff in Hs. rewrite Z.leb_gt, Z.ltb_ge in Hs. lia. }
      cbn [orb].
      destruct (body response) as [text|calendar|pytype] eqn:Hb.
      * destruct (fetch_not_json w self from_date to_date st response text H Hb)
          as (text' & ->).
        eexists. split; [reflexivity|]. split; [reflexivity|].
        eexists. split; [reflexivity|]. eexists. reflexivity.
      * rewrite (fetch_object w self from_date to_date st response calendar H Hs' Hb).
        eexists. split; [reflexivity|]. split; [reflexivity|].
        exists []. cbn [log]. rewrite app_nil_r. split; reflexivity.
      * rewrite (fetch_other_json w self from_date to_date st response pytype H Hs' Hb).
        eexists. split; [reflexivity|]. split; [reflexivity|].
        exists []. cbn [log]. rewrite app_nil_r. split; reflexivity.
Qed.

Lemma calendar_of_raises reply e :
  calendar_of reply = Error e -> exn_class_of e = AttributeError.
Proof.
  unfold calendar_of. destruct reply as [kind text|response]; [discriminate|].
  destruct ((400 <=? status_code response) && (status_code response <? 600));
    [discriminate|].
  destruct (body response); try discriminate. intros [= <-]. reflexivity.
Qed.

(** Both bodies are made for offerings that carry a price. *)
Lemma create_email_content_priced ipos date :
  Forall (fun ipo => price ipo <> None) ipos ->
  exists html text, create_email_content ipos date = Ok (html, text).
Proof.
  intros Hall. unfold create_email_content.
  destruct ipos as [|ipo rest]; [eexists; eexists; reflexivity|].
  destruct (rows_loop_priced (ipo :: rest) EmptyString Hall) as (rows & _ & ->).
  cbn [result_bind]. eexists; eexists; reflexivity.
Qed.

(** A required setting that is there. *)
Lemma py_or_present a key b :
  a = Some key -> truthy key = true -> py_or a b = Some key.
Proof. intros -> T. cbn [py_or]. rewrite T. reflexivity. Qed.

Lemma py_not_present a key :
  a = Some key -> truthy key = true -> py_not a = false.
Proof. intros -> T. cbn [py_not]. rewrite T. reflexivity. Qed.

Lemma py_or_or_str a b :
  py_or a (Some b) = Some (or_str a b).
Proof. destruct a as [s|]; cbn; [destruct (truthy s)|]; reflexivity. Qed.

(** A run with its settings in place, step by step: the fetch, the
    constructions, the filter, the two bodies and the dispatch. *)
Lemma run_configured (w : World) (port : Z) (key from_addr secret : string) :
  py_int (or_str (environ_get w "SMTP_PORT") "587") = Ok port ->
  environ_get w "FINNHUB_API_KEY" = Some key -> truthy key = true ->
  environ_get w "EMAIL_SENDER" = Some from_addr -> truthy from_addr = true ->
  environ_get w "EMAIL_PASSWORD" = Some secret -> truthy secret = true ->
  let today := today_date w in
  let request := calendar_request {| api_key := key |} today today in
  let recipient := or_str (environ_get w "EMAIL_RECIPIENT") from_addr in
  let notifier := configured_notifier w from_addr secret port in
  match calendar_of (http_reply w request) with
  | Error e =>
      exn_class_of e = AttributeError
      /\ fst (run w) = Raise e /\ net (snd (run w)) = [request]
  | Ok raws =>
      match result_map from_finnhub raws with
      | Error e =>
          exn_class_of e = OverflowError
          /\ fst (run w) = Raise e /\ net (snd (run w)) = [request]
      | Ok ipos =>
          let kept := List.filter (selected today) ipos in
          exists html text,
            create_email_content kept today = Ok (html, text)
            /\ fst (run w)
               = (if forallb (smtp_ok w)
                       (full_session notifier recipient
                          (composed notifier recipient (subject_line kept today)
                             html text))
                  then Ret tt else Exit 1)
            /\ net (snd (run w))
               = request
                 :: session_trace w notifier recipient
                      (composed notifier recipient (subject_line kept today)
                         html text)
            /\ exists fetch_records dispatch_records,
                 log (snd (run w))
                 = steps_logged today fetch_records (length raws) kept dispatch_records
                 /\ (if fetch_recovers (http_reply w request)
                     then exists reason,
                            fetch_records
                            = [(ERROR, "Failed to fetch IPO calendar: " ++ reason)]
                     else fetch_records = [])
                 /\ (if forallb (smtp_ok w)
                          (full_session notifier recipient
                             (composed notifier recipient (subject_line kept today)
                                html text))
                     then dispatch_records
                          = [(INFO, "Email sent successfully to " ++ recipient);
                             (INFO, "IPO Monitor completed successfully!")]
                     else exists reason,
                            dispatch_records
                            = [(ERROR, "Failed to send email: " ++ reason);
                               (ERROR, "IPO Monitor completed with email delivery failure")])
      end
  end.
Proof.
  intros Hp Hk Tk Hf Tf Hs Ts. cbv zeta.
  pose proof (missing_vars_are_missing_required w) as Hv. cbv zeta in Hv.
  assert (Hm : missing_required w = []).
  { unfold missing_required, required_keys. cbn [List.filter].
    rewrite (py_not_present _ _ Hk Tk), (py_not_present _ _ Hf Tf),
            (py_not_present _ _ Hs Ts). reflexivity. }
  unfold run, main. rewrite Hp. step. rewrite Hv, Hm. step.
  rewrite (py_or_present _ _ None Hk Tk), (py_or_present _ _ None Hf Tf),
          (py_or_present _ _ None Hs Ts), py_or_or_str.
  step. unfold get_today_date.
  match goal with
  | |- context [get_ipo_calendar ?a ?b ?c ?d ?s] =>
      destruct (fetch_calendar_of a b c d s)
        as (st1 & -> & Hnet1 & fetch_records & Hlog1 & Hrec)
  end.
  cbn [net log app] in Hnet1, Hlog1.
  destruct (calendar_of _) as [raws|e] eqn:Hc; cbn [outcome_of]; step.
  2: { split; [apply (calendar_of_raises _ _ Hc)|]. split; [reflexivity|exact Hnet1]. }
  destruct (result_map from_finnhub raws) as [ipos|e] eqn:Hr; step.
  2: { split; [rewrite (result_map_from_finnhub_raises raws e Hr); reflexivity|].
       split; [reflexivity|exact Hnet1]. }
  unfold filter_todays_large_ipos. rewrite filter_loop_spec. step.
  cbn [app].
  destruct (create_email_content_priced _ (today_date w)
              (kept_offerings_are_priced raws ipos (today_date w) Hr))
    as (html & text & Hbodies).
  exists html, text. split; [exact Hbodies|]. rewrite Hbodies. step.
  match goal with
  | |- context [send_email ?a ?b ?c ?d ?e ?f ?s] =>
      destruct (send_email_runs a b c d e f s)
        as (sent & st2 & -> & Hnet2 & Hsent & Hlog2)
  end.
  cbn [net log] in Hnet2, Hlog2. rewrite Hnet1 in Hnet2. rewrite Hlog1 in Hlog2.
  cbn [app] in Hnet2.
  unfold configured_notifier. rewrite <- Hsent.
  destruct sent; step.
  - split; [reflexivity|]. split; [exact Hnet2|].
    exists fetch_records. eexists. split; [|split; [exact Hrec|reflexivity]].
    rewrite Hlog2. unfold steps_logged, banner. cbn [app].
    rewrite <- !app_assoc. reflexivity.
  - destruct Hlog2 as (reason & Hlog2).
    split; [reflexivity|]. split; [exact Hnet2|].
    exists fetch_records. eexists. split; [|split; [exact Hrec|exists reason; reflexivity]].
    rewrite Hlog2. unfold steps_logged, banner. cbn [app].
    rewrite <- !app_assoc. reflexivity.
Qed.

(** The operations of a session are SMTP operations; a session hands over
    at most one message, and exactly one when all of it goes through. *)
Lemma session_trace_counts (w : World) (self : EmailNotifier) (recipient : string)
    (msg : Message) (request : net_event) :
  let st := {| log := []; net := request :: session_trace w self recipient msg |} in
  is_smtp request = false ->
  forallb is_smtp (session_trace w self recipient msg) = true
  /\ (length (sent_messages st) <= 1)%nat
  /\ connected_hosts st = [smtp_server self]
  /\ (forallb (smtp_ok w) (full_session self recipient msg) = true ->
      sent_messages st = [msg]).
Proof.
  cbv zeta. intros Hreq. destruct request; try discriminate.
  unfold session_trace, full_session, sent_messages, connected_hosts.
  cbn [forallb].
  destruct (smtp_ok w (SmtpConnect (smtp_server self) (smtp_port self)));
    destruct (smtp_ok w SmtpStartTls);
    destruct (smtp_ok w (SmtpLogin (sender self) (password self)));
    cbn; repeat split; try lia; try discriminate.
Qed.





(** ** The filter and the formatter together *)

Lemma gt_int_ge_int v z : PyFloat.gt_int v z = true -> PyFloat.ge_int v z = true.
Proof.
  unfold PyFloat.gt_int, PyFloat.ge_int.
  destruct (PyFloat.compare_int v z) as [[| |]|]; congruence.
Qed.

Lemma selected_prints target ipo :
  selected target ipo = true ->
  exists v,
    offer_amount ipo = Some v
    /\ PyFloat.ge_int v 1000000 = true
    /\ format_offer_amount ipo
       = if PyFloat.ge_int v 1000000000
         then "$" ++ PyFloat.format_2f false (PyFloat.div v (PyFloat.nearest 1000000000)) ++ "B"
         else "$" ++ PyFloat.format_2f false (PyFloat.div v (PyFloat.nearest 1000000)) ++ "M".
Proof.
  unfold selected. intros H. apply andb_true_iff in H. destruct H as (_ & H).
  destruct (offer_amount ipo) as [v|] eqn:Hv; [|discriminate].
  exists v. split; [reflexivity|].
  assert (Hm : PyFloat.ge_int v 1000000 = true).
  { apply (ge_int_mono v 1000000 OFFER_AMOUNT_THRESHOLD); [unfold OFFER_AMOUNT_THRESHOLD; lia|].
    apply gt_int_ge_int, H. }
  split; [exact Hm|]. unfold format_offer_amount. rewrite Hv, Hm. reflexivity.
Qed.

(** X4. What the filter keeps is never shown as [N/A] or in plain dollars:
    the offer amount of a kept offering prints in millions, with [M], or
    from 1,000,000,000 on in billions, with [B]; so does the record that the
    filter logs for it. *)
Theorem kept_offering_prints_in_millions_or_billions (ipos : list IPOData)
    (target_date : string) (st : state) :
  exists kept st',
    filter_todays_large_ipos ipos target_date st = (Ret kept, st')
    /\ log st' = (log st ++ List.map found_record kept)%list
    /\ Forall (fun ipo =>
                 exists v amount,
                   offer_amount ipo = Some v
                   /\ format_offer_amount ipo = "$" ++ amount
                   /\ found_record ipo
                      = (INFO, "Found qualifying IPO: " ++ symbol ipo ++ " - "
                                 ++ name ipo ++ " (Offer: $" ++ amount ++ ")")
                   /\ (if PyFloat.ge_int v 1000000000
                       then amount
                            = PyFloat.format_2f false
                                (PyFloat.div v (PyFloat.nearest 1000000000)) ++ "B"
                       else amount
                            = PyFloat.format_2f false
                                (PyFloat.div v (PyFloat.nearest 1000000)) ++ "M"))
              kept.
Proof.
  unfold filter_todays_large_ipos. rewrite filter_loop_spec. cbn [app].
  eexists; eexists. split; [reflexivity|]. split; [reflexivity|].
  apply List.Forall_forall. intros ipo Hin. apply filter_In in Hin. destruct Hin as (_ & Hsel).
  destruct (selected_prints target_date ipo Hsel) as (v & Hv & _ & Hfmt).
  exists v. unfold found_record. rewrite Hfmt.
  destruct (PyFloat.ge_int v 1000000000); eexists; (split; [exact Hv|]);
    (split; [reflexivity|]); split; reflexivity.
Qed.

(** X5. The filter composes: filtering two lists one after the other, on the
    state that the first run leaves, keeps and logs what filtering their
    concatenation keeps and logs; and filtering what the filter kept keeps
    all of it. *)
Theorem filter_todays_large_ipos_composes (first second : list IPOData)
    (target_date : string) (st : state) :
  exists kept1 st1 kept2 st2,
    filter_todays_large_ipos first target_date st = (Ret kept1, st1)
    /\ filter_todays_large_ipos second target_date st1 = (Ret kept2, st2)
    /\ filter_todays_large_ipos (first ++ second) target_date st
       = (Ret (kept1 ++ kept2)%list, st2)
    /\ filter_todays_large_ipos kept1 target_date st = (Ret kept1, st1)
    /\ length (log st2) = (length (log st) + length kept1 + length kept2)%nat.
Proof.
  unfold filter_todays_large_ipos.
  exists (List.filter (selected target_date) first),
    {| log := (log st ++ List.map found_record
                 (List.filter (selected target_date) first))%list;
       net := net st |},
    (List.filter (selected target_date) second),
    {| log := ((log st ++ List.map found_record
                  (List.filter (selected target_date) first))
               ++ List.map found_record
                    (List.filter (selected target_date) second))%list;
       net := net st |}.
  rewrite !filter_loop_spec. cbn [app log net].
  split; [reflexivity|]. split; [reflexivity|].
  split; [|split].
  - rewrite List.filter_app, List.map_app, List.app_assoc. reflexivity.
  - assert (Hidem : List.filter (selected target_date)
                      (List.filter (selected target_date) first)
                    = List.filter (selected target_date) first).
    { induction first as [|ipo rest IH]; [reflexivity|]. cbn [List.filter].
      destruct (selected target_date ipo) eqn:Hsel; [|exact IH].
      cbn [List.filter]. rewrite Hsel, IH. reflexivity. }
    rewrite Hidem. reflexivity.
  - rewrite !List.length_app, !List.length_map. lia.
Qed.

(** ** The plain body *)

Lemma text_loop_appends ipos : forall text,
  text_loop ipos text = text ++ String.concat EmptyString (List.map text_block ipos).
Proof.
  induction ipos as [|ipo rest IH]; intros text; cbn [text_loop List.map].
  - cbn. rewrite append_empty_r. reflexivity.
  - rewrite IH, <- append_assoc. f_equal.
    destruct rest as [|ipo' rest']; [cbn; rewrite append_empty_r; reflexivity|].
    reflexivity.
Qed.

Lemma rows_loop_unpriced ipos : forall acc,
  Exists (fun ipo => price ipo = None) ipos ->
  rows_loop ipos acc
  = Error (Exn TypeError "unsupported format string passed to NoneType.__format__").
Proof.
  induction ipos as [|ipo rest IH]; intros acc Hex; [inversion Hex|].
  cbn [rows_loop].
  destruct (price ipo) as [p|] eqn:Hp.
  - destruct (html_row_carries ipo p Hp) as (row & -> & _). cbn [result_bind].
    apply IH. inversion Hex as [? ? H|? ? H]; subst; [congruence|exact H].
  - rewrite (html_row_unpriced ipo Hp). reflexivity.
Qed.

(** X6. The two bodies of a report. Of no offering, they are the two fixed
    texts of a day without offerings. Of offerings that all carry a price,
    the plain body is three lines of heading, with the date and the count,
    and then one block per offering, in order; a block shows the ticker, the
    company, the date, the offer amount and the exchange of its offering, its
    price unless that is absent or zero, and its number of shares, with
    thousands separators, unless that is absent or zero: then it shows [TBD].
    Of offerings of which one has no price, no body is made: the rich body
    raises [TypeError]; a price of zero does not. *)
Theorem create_email_content_bodies (ipos : list IPOData) (date : string) :
  (ipos = [] ->
   create_email_content ipos date = Ok (empty_html date, empty_text date))
  /\ (ipos <> [] -> Forall (fun ipo => price ipo <> None) ipos ->
      exists html,
        create_email_content ipos date
        = Ok (html,
              ("IPO Monitor Report - " ++ date ++ nl)
              ++ ("Found " ++ of_Z (Z.of_nat (length ipos))
                    ++ " IPO(s) with offer amount > $200M" ++ nl)
              ++ (repeat "=" 50 ++ nl ++ nl)
              ++ String.concat EmptyString (List.map text_block ipos)))
  /\ (Exists (fun ipo => price ipo = None) ipos ->
      create_email_content ipos date
      = Error (Exn TypeError "unsupported format string passed to NoneType.__format__"))
  /\ (forall ipo,
        let block := text_block ipo in
        occurs_in ("Ticker: " ++ symbol ipo ++ nl) block
        /\ occurs_in ("Company: " ++ name ipo ++ nl) block
        /\ occurs_in ("IPO Date: " ++ ipo_date ipo ++ nl) block
        /\ occurs_in ("Offer Amount: " ++ format_offer_amount ipo ++ nl) block
        /\ occurs_in ("Exchange: " ++ of_optional (exchange ipo) ++ nl) block
        /\ occurs_in (if float_truthy (price ipo)
                      then "Price: $" ++ PyFloat.format_2f false
                                           (default (S754_zero false) (price ipo)) ++ nl
                      else "Price: TBD" ++ nl) block
        /\ occurs_in (if int_truthy (shares ipo)
                      then "Shares: " ++ format_int_comma (default 0 (shares ipo)) ++ nl
                      else "Shares: TBD" ++ nl) block).
Proof.
  split; [intros ->; reflexivity|]. split; [|split].
  - intros Hne Hall. unfold create_email_content.
    destruct ipos as [|ipo rest]; [congruence|].
    destruct (rows_loop_priced (ipo :: rest) EmptyString Hall) as (rows & _ & ->).
    cbn [result_bind]. eexists. rewrite text_loop_appends, <- !append_assoc. reflexivity.
  - intros Hex. unfold create_email_content.
    destruct ipos as [|ipo rest]; [inversion Hex|].
    rewrite (rows_loop_unpriced (ipo :: rest) EmptyString Hex). reflexivity.
  - intros ipo. cbv zeta. unfold text_block, float_truthy, int_truthy.
    split; [find_piece|]. split; [find_piece|]. split; [find_piece|].
    split; [find_piece|]. split; [find_piece|]. split.
    + destruct (price ipo) as [p|]; [destruct (PyFloat.truthy p)|]; cbn [default];
        find_piece.
    + destruct (shares ipo) as [s|]; [destruct (negb (s =? 0))|]; cbn [default];
        find_piece.
Qed.

(** X7. The log of a run whose settings are in place and that reaches the
    dispatch, record by record: the three lines of the banner, the date
    checked, the fetch announced, an [ERROR] when the fetch was recovered
    from (and only then), the number of entries received, one record per
    offering kept, in order, the number of offerings kept, the record of the
    dispatch and the closing record: two [INFO] records when the message was
    delivered, two [ERROR] records otherwise. The two numbers logged are the
    length of the calendar received and the length of the list kept. *)
Theorem run_logs_its_steps (w : World) (port : Z)
    (key from_addr secret : string) (raws : list RawIPO) (ipos : list IPOData) :
  py_int (or_str (environ_get w "SMTP_PORT") "587") = Ok port ->
  environ_get w "FINNHUB_API_KEY" = Some key -> truthy key = true ->
  environ_get w "EMAIL_SENDER" = Some from_addr -> truthy from_addr = true ->
  environ_get w "EMAIL_PASSWORD" = Some secret -> truthy secret = true ->
  let today := today_date w in
  let request := calendar_request {| api_key := key |} today today in
  calendar_of (http_reply w request) = Ok raws ->
  result_map from_finnhub raws = Ok ipos ->
  let kept := List.filter (selected today) ipos in
  let recipient := or_str (environ_get w "EMAIL_RECIPIENT") from_addr in
  exists fetch_records dispatch_records,
    log (snd (run w))
    = (banner
       ++ [(INFO, ("Checking IPOs for date: " ++ today)%string);
           (INFO, "Fetching IPO calendar from Finnhub...")]
       ++ fetch_records
       ++ [(INFO, ("Received " ++ of_Z (Z.of_nat (length raws))
                     ++ " total IPO entries")%string)]
       ++ List.map found_record kept
       ++ [(INFO, ("Found " ++ of_Z (Z.of_nat (length kept))
                     ++ " IPO(s) meeting criteria (>$200M)")%string)]
       ++ dispatch_records)%list
    /\ (if fetch_recovers (http_reply w request)
        then exists reason,
               fetch_records = [(ERROR, "Failed to fetch IPO calendar: " ++ reason)]
        else fetch_records = [])
    /\ (if exit_status (fst (run w)) =? 0
        then dispatch_records
             = [(INFO, "Email sent successfully to " ++ recipient);
                (INFO, "IPO Monitor completed successfully!")]
        else exists reason,
               dispatch_records
               = [(ERROR, "Failed to send email: " ++ reason);
                  (ERROR, "IPO Monitor completed with email delivery failure")]).
Proof.
  intros Hp Hk Tk Hf Tf Hs Ts today request Hc Hr. cbv zeta.
  pose proof (run_configured w port key from_addr secret Hp Hk Tk Hf Tf Hs Ts) as Hrun.
  cbv zeta in Hrun. fold today in Hrun. fold request in Hrun.
  rewrite Hc, Hr in Hrun.
  destruct Hrun as (html & text & _ & Hout & _ & fetch_records & dispatch_records
                    & Hlog & Hfetch & Hdispatch).
  exists fetch_records, dispatch_records.
  split; [exact Hlog|]. split; [exact Hfetch|]. rewrite Hout.
  destruct (forallb (smtp_ok w) _); exact Hdispatch.
Qed.

Lemma run_logs_its_steps_abcd :
  log (snd (run abcd_world))
  = (banner
     ++ [(INFO, "Checking IPOs for date: 2024-05-01");
         (INFO, "Fetching IPO calendar from Finnhub...");
         (INFO, "Received 1 total IPO entries");
         (INFO, "Found qualifying IPO: ABCD - Acme Co (Offer: $300.00M)");
         (INFO, "Found 1 IPO(s) meeting criteria (>$200M)");
         (INFO, "Email sent successfully to alerts@example.com");
         (INFO, "IPO Monitor completed successfully!")])%list.
Proof.
  destruct (run_logs_its_steps abcd_world 587 "token" "alerts@example.com"
                  "secret" [abcd_raw] [abcd]
                  ltac:(vm_compute; reflexivity) ltac:(vm_compute; reflexivity)
                  ltac:(reflexivity) ltac:(vm_compute; reflexivity)
                  ltac:(reflexivity) ltac:(vm_compute; reflexivity)
                  ltac:(reflexivity) ltac:(vm_compute; reflexivity)
                  ltac:(vm_compute; reflexivity))
    as (fetch_records & dispatch_records & Hlog & Hfetch & Hdispatch).
  rewrite Hlog.
  change (fetch_recovers _) with false in Hfetch.
  change (exit_status (fst (run abcd_world)) =? 0) with true in Hdispatch.
  cbv iota in Hfetch, Hdispatch. rewrite Hfetch, Hdispatch.
  vm_compute. reflexivity.
Defined.

(** X8. A fetch that failed reads as a day without offerings. With the
    settings in place, when the request fails in the transport, is answered
    with a status from 400 to 599 or with a body that is no JSON, the run
    goes on to the dispatch: the one message it hands over is the report of
    a day with no offering, word for word the message of a day on which the
    provider lists nothing; the failure itself stands in the log only. *)
Theorem failed_fetch_reads_as_empty_day (w : World) (port : Z)
    (key from_addr secret : string) :
  py_int (or_str (environ_get w "SMTP_PORT") "587") = Ok port ->
  environ_get w "FINNHUB_API_KEY" = Some key -> truthy key = true ->
  environ_get w "EMAIL_SENDER" = Some from_addr -> truthy from_addr = true ->
  environ_get w "EMAIL_PASSWORD" = Some secret -> truthy secret = true ->
  let today := today_date w in
  let request := calendar_request {| api_key := key |} today today in
  fetch_recovers (http_reply w request) = true ->
  let recipient := or_str (environ_get w "EMAIL_RECIPIENT") from_addr in
  let notifier := configured_notifier w from_addr secret port in
  let msg := {| msg_subject := "📊 IPO Monitor Report - " ++ today;
                msg_from := from_addr; msg_to := recipient;
                msg_parts := [("plain", empty_text today); ("html", empty_html today)] |} in
  net (snd (run w)) = request :: session_trace w notifier recipient msg
  /\ fst (run w)
     = (if forallb (smtp_ok w) (full_session notifier recipient msg)
        then Ret tt else Exit 1)
  /\ (exists reason,
        In (ERROR, "Failed to fetch IPO calendar: " ++ reason) (log (snd (run w))))
  /\ (forall w',
        environ w' = environ w -> today_date w' = today_date w ->
        smtp_reply w' = smtp_reply w ->
        http_reply w' request = ok_response (JsonObject (Some [])) ->
        net (snd (run w')) = net (snd (run w))
        /\ fst (run w') = fst (run w)).
Proof.
  intros Hp Hk Tk Hf Tf Hs Ts today request Hrec. cbv zeta.
  assert (Hc : calendar_of (http_reply w request) = Ok []).
  { unfold fetch_recovers in Hrec. unfold calendar_of.
    destruct (http_reply w request) as [kind text|response]; [reflexivity|].
    destruct ((400 <=? status_code response) && (status_code response <? 600));
      [reflexivity|].
    destruct (body response); try discriminate. reflexivity. }
  pose proof (run_configured w port key from_addr secret Hp Hk Tk Hf Tf Hs Ts) as Hrun.
  cbv zeta in Hrun. fold today in Hrun. fold request in Hrun.
  rewrite Hc, Hrec in Hrun. cbn [result_map List.filter create_email_content] in Hrun.
  destruct Hrun as (html & text & [= <- <-] & Hout & Hnet & fetch_records
                    & dispatch_records & Hlog & (reason & ->) & _).
  split; [exact Hnet|]. split; [exact Hout|]. split.
  - exists reason. rewrite Hlog. unfold steps_logged.
    apply in_or_app. right. apply in_or_app. right. left. reflexivity.
  - intros w' Henv Hday Hsmtp Hreply.
    assert (Hget : forall k, environ_get w' k = environ_get w k).
    { intros k. unfold environ_get. rewrite Henv. reflexivity. }
    pose proof (run_configured w' port key from_addr secret) as Hrun'.
    rewrite !Hget, Hday in Hrun'. specialize (Hrun' Hp Hk Tk Hf Tf Hs Ts).
    cbv zeta in Hrun'. fold today in Hrun'. fold request in Hrun'.
    rewrite Hreply in Hrun'.
    cbn [calendar_of ok_response status_code body default Z.leb Z.ltb Z.compare
         Pos.compare Pos.compare_cont andb
         result_map List.filter create_email_content] in Hrun'.
    destruct Hrun' as (html' & text' & [= <- <-] & Hout' & Hnet' & _).
    rewrite Hnet', Hnet, Hout', Hout.
    unfold session_trace, full_session, smtp_ok, configured_notifier.
    rewrite !Hget, Hsmtp. split; reflexivity.
Qed.

Lemma failed_fetch_reads_as_empty_day_offline :
  net (snd (run offline_world))
  = [calendar_request a_client "2024-05-01" "2024-05-01";
     SmtpConnect "smtp.gmail.com" 587; SmtpStartTls;
     SmtpLogin "alerts@example.com" "secret";
     SmtpSendmail "alerts@example.com" "alerts@example.com"
       {| msg_subject := "📊 IPO Monitor Report - 2024-05-01";
          msg_from := "alerts@example.com"; msg_to := "alerts@example.com";
          msg_parts := [("plain", empty_text "2024-05-01");
                        ("html", empty_html "2024-05-01")] |};
     SmtpQuit]
  /\ fst (run offline_world) = Ret tt.
Proof.
  destruct (failed_fetch_reads_as_empty_day offline_world 587 "token"
                  "alerts@example.com" "secret"
                  ltac:(vm_compute; reflexivity) ltac:(vm_compute; reflexivity)
                  ltac:(reflexivity) ltac:(vm_compute; reflexivity)
                  ltac:(reflexivity) ltac:(vm_compute; reflexivity)
                  ltac:(reflexivity) ltac:(vm_compute; reflexivity))
    as (Hnet & Hout & _).
  split; [exact Hnet|exact Hout].
Defined.

(** ** The fetch, whatever the reply *)

(** X9. What a fetch does depends on the reply to its one request alone,
    not on what the run has logged or sent before. The request is a GET of
    the calendar under the base address, with the token in the header
    [X-Finnhub-Token], the two dates as [from] and [to] and a timeout of 30
    seconds. A fetch logs one [ERROR] record when it recovers from a failed
    request (a failure of the transport, a status from 400 to 599, a body
    that is no JSON) and nothing otherwise. It raises exactly when a response
    with a status outside 400 to 599 carries JSON that is no object: an
    [AttributeError] that names the type; and it never exits. *)
Theorem get_ipo_calendar_depends_on_the_reply (w : World) (self : FinnhubClient)
    (from_date to_date : string) (st : state) :
  let request :=
    HttpGet "https://finnhub.io/api/v1/calendar/ipo"
      [("X-Finnhub-Token", api_key self)]
      [("from", from_date); ("to", to_date)] 30 in
  let reply := http_reply w request in
  let fetched := get_ipo_calendar w self from_date to_date st in
  fst fetched = fst (get_ipo_calendar w self from_date to_date initial)
  /\ net (snd fetched) = (net st ++ [request])%list
  /\ (if fetch_recovers reply
      then fst fetched = Ret []
           /\ exists reason,
                log (snd fetched)
                = (log st ++ [(ERROR, ("Failed to fetch IPO calendar: " ++ reason)%string)])%list
      else log (snd fetched) = log st)
  /\ (forall e, fst fetched = Raise e <->
        exists response pytype,
          reply = HttpResponse response
          /\ ~ 400 <= status_code response < 600
          /\ body response = JsonOther pytype
          /\ e = Exn AttributeError ("'" ++ pytype ++ "' object has no attribute 'get'"))
  /\ (forall code, fst fetched <> Exit code).
Proof.
  cbv zeta.
  change (HttpGet "https://finnhub.io/api/v1/calendar/ipo"
            [("X-Finnhub-Token", api_key self)]
            [("from", from_date); ("to", to_date)] 30)
    with (calendar_request self from_date to_date).
  destruct (fetch_calendar_of w self from_date to_date st)
    as (st' & -> & Hnet & records & Hlog & Hrec).
  destruct (fetch_calendar_of w self from_date to_date initial) as (st0 & -> & _).
  cbn [fst snd].
  split; [reflexivity|]. split; [exact Hnet|].
  unfold fetch_recovers, calendar_of in *.
  destruct (http_reply w (calendar_request self from_date to_date))
    as [kind text|response].
  - destruct Hrec as (reason & ->). cbn [outcome_of].
    split; [split; [reflexivity|exists reason; exact Hlog]|].
    split; [|discriminate].
    intros e. split; [discriminate|]. intros (r & t & [=] & _).
  - destruct ((400 <=? status_code response) && (status_code response <? 600)) eqn:Hs.
    + destruct Hrec as (reason & ->). cbn [outcome_of orb].
      split; [split; [reflexivity|exists reason; exact Hlog]|].
      split; [|discriminate].
      intros e. split; [discriminate|]. intros (r & t & [= <-] & Hns & _).
      apply andb_true_iff in Hs. rewrite Z.leb_le, Z.ltb_lt in Hs. contradiction.
    + assert (Hns : ~ 400 <= status_code response < 600).
      { apply andb_false_iff in Hs. rewrite Z.leb_gt, Z.ltb_ge in Hs. lia. }
      cbn [orb] in *.
      destruct (body response) as [text|calendar|pytype] eqn:Hb; cbn [outcome_of].
      * destruct Hrec as (reason & ->).
        split; [split; [reflexivity|exists reason; exact Hlog]|].
        split; [|discriminate].
        intros e. split; [discriminate|].
        intros (r & t & [= <-] & _ & Hb' & _). congruence.
      * subst records. rewrite app_nil_r in Hlog.
        split; [exact Hlog|]. split; [|discriminate].
        intros e. split; [discriminate|].
        intros (r & t & [= <-] & _ & Hb' & _). congruence.
      * subst records. rewrite app_nil_r in Hlog.
        split; [exact Hlog|]. split; [|discriminate].
        intros e. split.
        -- intros [= <-]. exists response, pytype. auto.
        -- intros (r & t & [= <-] & _ & Hb' & ->). congruence.
Qed.

(** ** One count, four places *)

(** The two bodies of a report of at least one offering. *)
Lemma create_email_content_shape ipos date html text :
  ipos <> [] ->
  create_email_content ipos date = Ok (html, text) ->
  exists rows,
    html = html_page date (length ipos) rows
    /\ text = ((("IPO Monitor Report - " ++ date ++ nl)
                ++ ("Found " ++ of_Z (Z.of_nat (length ipos))
                      ++ " IPO(s) with offer amount > $200M" ++ nl))
               ++ (repeat "=" 50 ++ nl ++ nl))
              ++ String.concat EmptyString (List.map text_block ipos).
Proof.
  intros Hne. unfold create_email_content.
  destruct ipos as [|ipo rest]; [congruence|].
  destruct (rows_loop (ipo :: rest) EmptyString) as [rows|e]; cbn [result_bind];
    [|discriminate].
  rewrite text_loop_appends. intros H.
  apply (f_equal (fun r => match r with Ok p => p | Error _ => (html, text) end)) in H.
  cbv beta iota in H. apply pair_equal_spec in H. destruct H as (<- & <-).
  exists rows. split; reflexivity.
Qed.

(** X10. The number of offerings that a run reports is the same in all four
    places that state it: when the filter keeps at least one offering, the
    subject of the message, the plain body, the rich body and the log each
    carry the number of offerings kept, and the message handed over, when the
    session goes through, is made of that subject and those bodies. *)
Theorem run_counts_agree (w : World) (port : Z)
    (key from_addr secret : string) (raws : list RawIPO) (ipos : list IPOData) :
  py_int (or_str (environ_get w "SMTP_PORT") "587") = Ok port ->
  environ_get w "FINNHUB_API_KEY" = Some key -> truthy key = true ->
  environ_get w "EMAIL_SENDER" = Some from_addr -> truthy from_addr = true ->
  environ_get w "EMAIL_PASSWORD" = Some secret -> truthy secret = true ->
  let today := today_date w in
  let request := calendar_request {| api_key := key |} today today in
  calendar_of (http_reply w request) = Ok raws ->
  result_map from_finnhub raws = Ok ipos ->
  let kept := List.filter (selected today) ipos in
  kept <> [] ->
  let count := of_Z (Z.of_nat (length kept)) in
  let subject := "🔔 IPO Alert: " ++ count ++ " Large IPO(s) Today - " ++ today in
  let recipient := or_str (environ_get w "EMAIL_RECIPIENT") from_addr in
  let notifier := configured_notifier w from_addr secret port in
  exists html text,
    create_email_content kept today = Ok (html, text)
    /\ occurs_in ("Found <strong>" ++ count ++ "</strong> IPO(s)") html
    /\ occurs_in ("Found " ++ count ++ " IPO(s) with offer amount > $200M") text
    /\ In (INFO, "Found " ++ count ++ " IPO(s) meeting criteria (>$200M)")
          (log (snd (run w)))
    /\ (fst (run w) = Ret tt ->
        sent_messages (snd (run w))
        = [{| msg_subject := subject; msg_from := from_addr; msg_to := recipient;
              msg_parts := [("plain", text); ("html", html)] |}]).
Proof.
  intros Hp Hk Tk Hf Tf Hs Ts today request Hc Hr kept Hne. cbv zeta.
  pose proof (run_configured w port key from_addr secret Hp Hk Tk Hf Tf Hs Ts) as Hrun.
  cbv zeta in Hrun. fold today in Hrun. fold request in Hrun.
  rewrite Hc, Hr in Hrun. fold kept in Hrun.
  destruct Hrun as (html & text & Hbodies & Hout & Hnet & fetch_records
                    & dispatch_records & Hlog & _ & _).
  exists html, text. split; [exact Hbodies|].
  assert (Hsubject : subject_line kept today
                     = "🔔 IPO Alert: " ++ of_Z (Z.of_nat (length kept))
                         ++ " Large IPO(s) Today - " ++ today).
  { unfold subject_line. destruct kept; [congruence|reflexivity]. }
  destruct (create_email_content_shape kept today html text Hne Hbodies)
    as (rows & Hhtml & Htext).
  rewrite Hhtml, Htext.
  split; [|split; [|split]].
  - destruct (html_page_layout today (length kept) rows) as (top & bottom & -> & Htop & _).
    apply occurs_keep. exact Htop.
  - apply occurs_keep, occurs_keep, occurs_skip.
    exists EmptyString, nl.
    change (EmptyString ++ ?x) with x. rewrite <- !append_assoc. reflexivity.
  - rewrite Hlog. unfold steps_logged.
    do 5 (apply in_or_app; right). left. reflexivity.
  - intros Hret. rewrite Hret in Hout.
    destruct (forallb (smtp_ok w) _) eqn:Hall; [|discriminate].
    match type of Hnet with
    | _ = ?req :: session_trace w ?self ?rcpt ?msg =>
        destruct (session_trace_counts w self rcpt msg req eq_refl)
          as (_ & _ & _ & Hsent)
    end.
    specialize (Hsent Hall). unfold sent_messages in *. cbn [net] in Hsent.
    rewrite Hnet, Hsent, Hsubject. unfold composed. rewrite Hhtml, Htext. reflexivity.
Qed.

Lemma run_counts_agree_abcd :
  exists html text,
    create_email_content [abcd] "2024-05-01" = Ok (html, text)
    /\ occurs_in "Found <strong>1</strong> IPO(s)" html
    /\ occurs_in "Found 1 IPO(s) with offer amount > $200M" text
    /\ In (INFO, "Found 1 IPO(s) meeting criteria (>$200M)")
          (log (snd (run abcd_world)))
    /\ sent_messages (snd (run abcd_world))
       = [{| msg_subject := "🔔 IPO Alert: 1 Large IPO(s) Today - 2024-05-01";
             msg_from := "alerts@example.com"; msg_to := "alerts@example.com";
             msg_parts := [("plain", text); ("html", html)] |}].
Proof.
  destruct (run_counts_agree abcd_world 587 "token" "alerts@example.com" "secret"
              [abcd_raw] [abcd]
              ltac:(vm_compute; reflexivity) ltac:(vm_compute; reflexivity)
              ltac:(reflexivity) ltac:(vm_compute; reflexivity)
              ltac:(reflexivity) ltac:(vm_compute; reflexivity)
              ltac:(reflexivity) ltac:(vm_compute; reflexivity)
              ltac:(vm_compute; reflexivity) ltac:(vm_compute; discriminate))
    as (html & text & Hbodies & Hhtml & Htext & Hlog & Hsent).
  exists html, text. split; [exact Hbodies|]. split; [exact Hhtml|].
  split; [exact Htext|]. split; [exact Hlog|].
  apply Hsent. vm_compute. reflexivity.
Defined.

(** ** The range of the constructions *)

(** The digits of a number in binary. *)
Lemma digits2_pos_size p : digits2_pos p = Pos.size p.
Proof. induction p as [p IH|p IH|]; cbn; [rewrite IH| rewrite IH|]; reflexivity. Qed.

Lemma Zdigits2_gt m : 0 <= m -> m < 2 ^ Zdigits2 m.
Proof.
  intros Hm. destruct m as [|p|p]; [reflexivity| |lia].
  cbn [Zdigits2].
  rewrite digits2_pos_size. pose proof (Pos.size_gt p) as H.
  apply Pos2Z.pos_lt_pos in H. rewrite Pos2Z.inj_pow in H. exact H.
Qed.

Lemma Zdigits2_le m k : 0 <= k -> 0 <= m < 2 ^ k -> Zdigits2 m <= k.
Proof.
  intros Hk (Hm & Hlt). destruct m as [|p|p]; [exact Hk| |lia].
  cbn [Zdigits2].
  rewrite digits2_pos_size. pose proof (Pos.size_le p) as H.
  assert (H' : 2 ^ Zpos (Pos.size p) <= 2 * Zpos p).
  { rewrite <- Pos2Z.inj_pow. change (2 * Zpos p) with (Zpos p~0).
    apply Pos2Z.pos_le_pos. exact H. }
  destruct (Z_le_gt_dec (Zpos (Pos.size p)) k) as [Hle|Hgt]; [exact Hle|exfalso].
  assert (Hpow : 2 ^ (k + 1) <= 2 ^ Zpos (Pos.size p))
    by (apply Z.pow_le_mono_r; lia).
  rewrite Z.pow_add_r in Hpow by lia. lia.
Qed.

Lemma Zdigits2_nonneg m : 0 <= Zdigits2 m.
Proof. destruct m; cbn; lia. Qed.

(** Shifting right halves the mantissa. *)
Lemma shr_1_m mrs : 0 <= shr_m mrs -> shr_m (shr_1 mrs) = shr_m mrs / 2.
Proof.
  destruct mrs as [m r s]. cbn [shr_m]. intros Hm. unfold shr_1.
  destruct m as [|[p|p|]|p]; cbn [shr_m]; try lia; try reflexivity.
  - rewrite Pos2Z.inj_xI. apply (Z.div_unique _ 2 _ 1); lia.
  - rewrite Pos2Z.inj_xO. apply (Z.div_unique _ 2 _ 0); lia.
Qed.

Lemma iter_shr_1_m p : forall mrs,
  0 <= shr_m mrs -> shr_m (SpecFloat.iter_pos shr_1 p mrs) = shr_m mrs / 2 ^ Zpos p.
Proof.
  induction p as [p IH|p IH|]; intros mrs Hm; cbn [SpecFloat.iter_pos].
  - assert (H1 : 0 <= shr_m (shr_1 mrs))
      by (rewrite shr_1_m by exact Hm; apply Z.div_pos; lia).
    assert (H2 : 0 <= shr_m (SpecFloat.iter_pos shr_1 p (shr_1 mrs)))
      by (rewrite IH by exact H1; apply Z.div_pos; [exact H1|lia]).
    rewrite IH by exact H2. rewrite IH by exact H1. rewrite shr_1_m by exact Hm.
    rewrite !Z.div_div by lia. f_equal.
    replace (Zpos p~1) with (1 + Zpos p + Zpos p) by lia.
    rewrite !Z.pow_add_r by lia. change (2 ^ 1) with 2. ring.
  - assert (H2 : 0 <= shr_m (SpecFloat.iter_pos shr_1 p mrs))
      by (rewrite IH by exact Hm; apply Z.div_pos; [exact Hm|lia]).
    rewrite IH by exact H2. rewrite IH by exact Hm.
    rewrite !Z.div_div by lia. f_equal.
    replace (Zpos p~0) with (Zpos p + Zpos p) by lia.
    rewrite !Z.pow_add_r by lia. ring.
  - rewrite shr_1_m by exact Hm. reflexivity.
Qed.

Lemma shr_record_of_loc_m m l : shr_m (shr_record_of_loc m l) = m.
Proof. destruct l as [|[| |]]; reflexivity. Qed.

Lemma round_nearest_even_bounds m l :
  m <= round_nearest_even m l <= m + 1.
Proof.
  unfold round_nearest_even. destruct l as [|[| |]]; try lia.
  destruct (Z.even m); lia.
Qed.

(** What a shift leaves: a mantissa that is not negative, and no more
    digits above the exponent than before. *)
Lemma shr_fexp_bounds m e l k :
  0 <= m -> 0 <= k -> Zdigits2 m + e <= k -> e <= k - 53 ->
  match shr_fexp PyFloat.prec PyFloat.emax m e l with
  | (mrs, e') =>
      0 <= shr_m mrs /\ shr_m mrs < 2 ^ (k - e') /\ e' <= k - 53
      /\ (e' = e \/ e' = fexp PyFloat.prec PyFloat.emax (Zdigits2 m + e))
  end.
Proof.
  intros Hm Hk Hd He. unfold shr_fexp, shr.
  pose proof (Zdigits2_gt m Hm) as Hlt. pose proof (Zdigits2_nonneg m) as Hnn.
  assert (Hfexp : fexp PyFloat.prec PyFloat.emax (Zdigits2 m + e) <= k - 53).
  { unfold fexp, emin, PyFloat.prec, PyFloat.emax. lia. }
  assert (Hsmall : m < 2 ^ (k - e)).
  { apply (Z.lt_le_trans _ (2 ^ Zdigits2 m)); [exact Hlt|].
    apply Z.pow_le_mono_r; lia. }
  destruct (fexp PyFloat.prec PyFloat.emax (Zdigits2 m + e) - e) as [|p|p] eqn:Hn.
  - rewrite shr_record_of_loc_m. auto.
  - rewrite iter_shr_1_m by (rewrite shr_record_of_loc_m; exact Hm).
    rewrite shr_record_of_loc_m.
    split; [apply Z.div_pos; lia|]. split; [|split; [lia|right; lia]].
    apply Z.div_lt_upper_bound; [lia|].
    rewrite <- Z.pow_add_r by lia.
    replace (Zpos p + (k - (e + Zpos p))) with (k - e) by lia. exact Hsmall.
  - rewrite shr_record_of_loc_m. auto.
Qed.

(** Rounding a mantissa that reaches no further than [2^1023] gives no
    infinity. *)
Lemma binary_round_aux_finite sx mx ex lx :
  0 <= mx -> Zdigits2 mx + ex <= 1023 -> ex <= 970 ->
  forall s, binary_round_aux PyFloat.prec PyFloat.emax sx mx ex lx <> S754_infinity s.
Proof.
  intros Hm Hd He s. unfold binary_round_aux.
  pose proof (shr_fexp_bounds mx ex lx 1023 Hm ltac:(lia) Hd ltac:(lia)) as H1.
  destruct (shr_fexp PyFloat.prec PyFloat.emax mx ex lx) as [mrs' e'].
  destruct H1 as (Hm' & Hlt' & He' & _).
  pose proof (round_nearest_even_bounds (shr_m mrs') (loc_of_shr_record mrs')) as Hr.
  set (r := round_nearest_even (shr_m mrs') (loc_of_shr_record mrs')) in *.
  assert (Hr2 : r < 2 ^ (1024 - e')).
  { replace (1024 - e') with (1023 - e' + 1) by lia.
    rewrite Z.pow_add_r by lia. lia. }
  pose proof (Zdigits2_le r (1024 - e') ltac:(lia) ltac:(lia)) as Hdr.
  pose proof (shr_fexp_bounds r e' loc_Exact 1024 ltac:(lia) ltac:(lia) ltac:(lia)
                ltac:(lia)) as H2.
  destruct (shr_fexp PyFloat.prec PyFloat.emax r e' loc_Exact) as [mrs'' e''].
  destruct H2 as (_ & _ & He'' & _).
  destruct (shr_m mrs'') as [|m|m]; try discriminate.
  assert (Hle : (e'' <=? PyFloat.emax - PyFloat.prec) = true).
  { apply Z.leb_le. unfold PyFloat.emax, PyFloat.prec. lia. }
  rewrite Hle. discriminate.
Qed.

Lemma iter_xO m k : Zpos (Pos.iter xO m k) = Zpos m * 2 ^ Zpos k.
Proof.
  induction k as [|k IH] using Pos.peano_ind.
  - cbn [Pos.iter]. rewrite Pos2Z.inj_xO. change (2 ^ 1) with 2. lia.
  - rewrite Pos.iter_succ, Pos2Z.inj_xO, IH, Pos2Z.inj_succ, Z.pow_succ_r by lia.
    ring.
Qed.

Lemma nearest_finite z :
  Z.abs z < 2 ^ 1023 -> forall s, PyFloat.nearest z <> S754_infinity s.
Proof.
  intros Hz s. unfold PyFloat.nearest, binary_normalize.
  assert (Hround : forall sx m, Zpos m < 2 ^ 1023 ->
            binary_round PyFloat.prec PyFloat.emax sx m 0 <> S754_infinity s).
  { intros sx m Hm. unfold binary_round, shl_align.
    pose proof (Zdigits2_le (Zpos m) 1023 ltac:(lia) ltac:(lia)) as Hd.
    pose proof (Zdigits2_gt (Zpos m) ltac:(lia)) as Hgt.
    cbn [Zdigits2] in Hd, Hgt.
    set (d := Zpos (digits2_pos m)) in *.
    assert (Hfexp : fexp PyFloat.prec PyFloat.emax (d + 0) = d - 53).
    { unfold fexp, emin, PyFloat.prec, PyFloat.emax. lia. }
    rewrite Hfexp.
    destruct (d - 53 - 0) as [|k|k] eqn:Hk.
    - apply binary_round_aux_finite; [lia| cbn [Zdigits2]; fold d; lia | lia].
    - apply binary_round_aux_finite; [lia| cbn [Zdigits2]; fold d; lia | lia].
    - apply binary_round_aux_finite; [lia| | lia].
      assert (Hmz : Zdigits2 (Zpos (Pos.iter xO m k)) <= d + Zpos k).
      { apply Zdigits2_le; [lia|]. rewrite iter_xO. split; [lia|].
        rewrite Z.pow_add_r by lia. apply Z.mul_lt_mono_pos_r; lia. }
      lia. }
  destruct z as [|m|m]; [discriminate| |]; apply Hround; lia.
Qed.

Lemma float_of_int_returns z :
  Z.abs z < 2 ^ 1023 -> exists x, float_of_int z = Ok x.
Proof.
  intros Hz. unfold float_of_int. pose proof (nearest_finite z Hz) as H.
  destruct (PyFloat.nearest z) as [s|s| |s m e]; try (eexists; reflexivity).
  exfalso. apply (H s). reflexivity.
Qed.

(** X11. A construction returns a record for every entry whose share count
    is below [2^1023] in magnitude: the record copies the price and the share
    count and puts [N/A], [Unknown] and the empty text for a ticker, a name
    and a date that the entry lacks, and [N/A] for an exchange that it lacks.
    The one way a construction fails is the [OverflowError] of the product,
    for a price that is not zero and a share count of [2^1023] or more in
    magnitude; nothing else is raised for any entry. *)
Theorem from_finnhub_fails_only_beyond_floats (data : RawIPO) :
  ((forall s, raw_numberOfShares data = Some s -> Z.abs s < 2 ^ 1023) ->
   exists offer,
     from_finnhub data
     = Ok {| symbol := default "N/A" (raw_symbol data);
             name := default "Unknown" (raw_name data);
             ipo_date := default EmptyString (raw_date data);
             price := raw_price data;
             shares := raw_numberOfShares data;
             offer_amount := offer;
             exchange := default (Some "N/A") (raw_exchange data) |})
  /\ (forall e, from_finnhub data = Error e ->
        e = Exn OverflowError "int too large to convert to float"
        /\ exists p s,
             raw_price data = Some p /\ PyFloat.truthy p = true
             /\ raw_numberOfShares data = Some s /\ 2 ^ 1023 <= Z.abs s).
Proof.
  assert (Hfail : forall e, from_finnhub data = Error e ->
            e = Exn OverflowError "int too large to convert to float"
            /\ exists p s,
                 raw_price data = Some p /\ PyFloat.truthy p = true
                 /\ raw_numberOfShares data = Some s /\ 2 ^ 1023 <= Z.abs s).
  { intros e He. destruct (from_finnhub_raises data e He)
      as (-> & p & s & Hp & Hs & Tp & _ & Hconv).
    split; [reflexivity|]. exists p, s. repeat split; try assumption.
    destruct (Z_lt_le_dec (Z.abs s) (2 ^ 1023)) as [Hlt|Hge]; [|exact Hge].
    destruct (float_of_int_returns s Hlt) as (x & Hx). congruence. }
  split; [|exact Hfail].
  intros Hsmall. destruct (from_finnhub data) as [r|e] eqn:Hr.
  - exists (offer_amount r). f_equal. revert Hr. unfold from_finnhub.
    destruct (match raw_price data with
              | Some p => _
              | None => _
              end) as [offer|e]; cbn [result_bind]; [|discriminate].
    intros [= <-]. reflexivity.
  - destruct (Hfail e eq_refl) as (_ & p & s & _ & _ & Hs & Hge).
    specialize (Hsmall s Hs). lia.
Qed.

(** ** The day of a run *)

Lemma in_range lo n z : lo <= z < lo + Z.of_nat n -> In z (range lo n).
Proof.
  intros H. unfold range. apply in_map_iff. exists (Z.to_nat (z - lo)).
  split; [lia|]. apply in_seq. lia.
Qed.

(** [month_day] finds every day of a year from its number, by evaluation
    on the 365 and the 366 days. *)
Lemma month_day_inverts_all :
  month_day_inverts false = true /\ month_day_inverts true = true.
Proof. split; vm_compute; reflexivity. Qed.

Lemma month_day_of_date leap m d :
  1 <= m <= 12 ->
  1 <= d <= (if (m =? 2) && leap then 29 else PyDate.DAYS_IN_MONTH m) ->
  PyDate.month_day leap
    (PyDate.DAYS_BEFORE_MONTH m + (if (2 <? m) && leap then 1 else 0) + d - 1)
  = (m, d).
Proof.
  intros Hm Hd.
  assert (H : month_day_inverts leap = true)
    by (destruct leap; apply month_day_inverts_all).
  unfold month_day_inverts in H. rewrite forallb_forall in H.
  specialize (H m (in_range 1 12 m ltac:(lia))).
  rewrite forallb_forall in H.
  specialize (H d (in_range 1
                     (Z.to_nat (if (m =? 2) && leap then 29 else PyDate.DAYS_IN_MONTH m))
                     d ltac:(lia))).
  destruct (PyDate.month_day leap _) as [m' d'].
  apply andb_true_iff in H. destruct H as (H1 & H2).
  f_equal; lia.
Qed.

(** A year is 400 times [a], 100 times [b], 4 times [c] and [e] years after
    the year 1. *)
Lemma year_parts y :
  1 <= y ->
  exists a b c e,
    0 <= a /\ 0 <= b < 4 /\ 0 <= c < 25 /\ 0 <= e < 4
    /\ y = 400 * a + 100 * b + 4 * c + e + 1.
Proof.
  intros Hy.
  exists ((y - 1) / 400), ((y - 1) mod 400 / 100), ((y - 1) mod 100 / 4),
    ((y - 1) mod 4).
  Z.div_mod_to_equations. lia.
Qed.

Lemma days_before_year_parts a b c e :
  0 <= b < 4 -> 0 <= c < 25 -> 0 <= e < 4 ->
  PyDate.days_before_year (400 * a + 100 * b + 4 * c + e + 1)
  = 146097 * a + 36524 * b + 1461 * c + 365 * e.
Proof.
  intros Hb Hc He. unfold PyDate.days_before_year. cbv zeta.
  replace (400 * a + 100 * b + 4 * c + e + 1 - 1)
    with (400 * a + 100 * b + 4 * c + e) by lia.
  Z.div_mod_to_equations. lia.
Qed.

Lemma is_leap_parts a b c e :
  0 <= b < 4 -> 0 <= c < 25 -> 0 <= e < 4 ->
  PyDate.is_leap (400 * a + 100 * b + 4 * c + e + 1)
  = (e =? 3) && (negb (c =? 24) || (b =? 3)).
Proof.
  intros Hb Hc He. unfold PyDate.is_leap.
  set (y := 400 * a + 100 * b + 4 * c + e + 1).
  assert (H4 : y mod 4 = (e + 1) mod 4).
  { unfold y. replace (400 * a + 100 * b + 4 * c + e + 1)
      with (e + 1 + (100 * a + 25 * b + c) * 4) by lia.
    apply Z.mod_add. lia. }
  assert (H100 : y mod 100 = (4 * c + e + 1) mod 100).
  { unfold y. replace (400 * a + 100 * b + 4 * c + e + 1)
      with (4 * c + e + 1 + (4 * a + b) * 100) by lia.
    apply Z.mod_add. lia. }
  assert (H400 : y mod 400 = (100 * b + 4 * c + e + 1) mod 400).
  { unfold y. replace (400 * a + 100 * b + 4 * c + e + 1)
      with (100 * b + 4 * c + e + 1 + a * 400) by lia.
    apply Z.mod_add. lia. }
  rewrite H4, H100, H400.
  destruct (e =? 3) eqn:E3; destruct (c =? 24) eqn:C24; destruct (b =? 3) eqn:B3;
    cbn [andb orb negb];
    rewrite ?Z.eqb_eq, ?Z.eqb_neq in *;
    repeat match goal with
           | |- context [?x mod ?d =? 0] =>
               let H := fresh "Hmod" in
               destruct (x mod d =? 0) eqn:H;
               rewrite ?Z.eqb_eq, ?Z.eqb_neq in H
           end;
    cbn [andb orb negb]; try reflexivity; exfalso;
    Z.div_mod_to_equations; lia.
Qed.

Lemma div_mod_parts d q r :
  0 <= r < d -> (d * q + r) / d = q /\ (d * q + r) mod d = r.
Proof.
  intros Hr. split.
  - symmetry. apply (Z.div_unique _ d q r); lia.
  - symmetry. apply (Z.mod_unique _ d q r); lia.
Qed.

(** The conversion back, on the day [k] of such a year. *)
Lemma ord2ymd_parts a b c e k :
  0 <= b < 4 -> 0 <= c < 25 -> 0 <= e < 4 ->
  0 <= k < 365 + (if (e =? 3) && (negb (c =? 24) || (b =? 3)) then 1 else 0) ->
  PyDate.ord2ymd (146097 * a + 36524 * b + 1461 * c + 365 * e + k + 1)
  = if k =? 365
    then (400 * a + 100 * b + 4 * c + e + 1, 12, 31)
    else match PyDate.month_day ((e =? 3) && (negb (c =? 24) || (b =? 3))) k with
         | (m, d) => (400 * a + 100 * b + 4 * c + e + 1, m, d)
         end.
Proof.
  intros Hb Hc He Hk. unfold PyDate.ord2ymd. cbv zeta.
  replace (146097 * a + 36524 * b + 1461 * c + 365 * e + k + 1 - 1)
    with (146097 * a + (36524 * b + 1461 * c + 365 * e + k)) by lia.
  assert (Hk365 : k <= 365 /\ (k = 365 -> e = 3 /\ (c <> 24 \/ b = 3))).
  { destruct (e =? 3) eqn:E3; destruct (c =? 24) eqn:C24; destruct (b =? 3) eqn:B3;
      cbn [andb orb negb] in Hk; rewrite ?Z.eqb_eq, ?Z.eqb_neq in *; lia. }
  destruct Hk365 as (Hle & Hlast).
  destruct (div_mod_parts 146097 a (36524 * b + 1461 * c + 365 * e + k) ltac:(lia))
    as (-> & ->).
  destruct (Z.eq_dec k 365) as [->|Hne].
  - destruct (Hlast eq_refl) as (-> & Hcb). cbn [Z.eqb Pos.eqb].
    destruct (Z.eq_dec c 24) as [->|Hc24].
    + assert (b = 3) by lia. subst b.
      change (36524 * 3 + 1461 * 24 + 365 * 3 + 365) with 146096.
      change (146096 / 36524) with 4. change (146096 mod 36524) with 0.
      cbn [Z.eqb Pos.eqb]. rewrite orb_true_r.
      change (0 / 1461) with 0. change (0 mod 1461) with 0. change (0 / 365) with 0.
      f_equal. f_equal. lia.
    + replace (36524 * b + 1461 * c + 365 * 3 + 365)
        with (36524 * b + (1461 * c + 1460)) by lia.
      destruct (div_mod_parts 36524 b (1461 * c + 1460) ltac:(lia)) as (-> & ->).
      destruct (div_mod_parts 1461 c 1460 ltac:(lia)) as (-> & ->).
      change (1460 / 365) with 4. cbn [Z.eqb Pos.eqb orb].
      f_equal. f_equal. lia.
  - assert (Hk' : (k =? 365) = false) by (apply Z.eqb_neq; exact Hne).
    rewrite Hk'.
    replace (36524 * b + 1461 * c + 365 * e + k)
      with (36524 * b + (1461 * c + (365 * e + k))) by lia.
    destruct (div_mod_parts 36524 b (1461 * c + (365 * e + k)) ltac:(lia)) as (-> & ->).
    destruct (div_mod_parts 1461 c (365 * e + k) ltac:(lia)) as (-> & ->).
    destruct (div_mod_parts 365 e k ltac:(lia)) as (-> & ->).
    assert (He4 : (e =? 4) = false) by (apply Z.eqb_neq; lia).
    assert (Hb4 : (b =? 4) = false) by (apply Z.eqb_neq; lia).
    rewrite He4, Hb4. cbn [orb].
    destruct (PyDate.month_day _ k) as [m d]. f_equal. f_equal. lia.
Qed.

(** Looks the months up in the two tables. *)
Ltac calendar :=
  repeat match goal with
         | |- context [Zpos ?a + Zpos ?b] =>
             let r := eval vm_compute in (Zpos a + Zpos b) in
             change (Zpos a + Zpos b) with r
         end;
  cbn [PyDate.DAYS_IN_MONTH PyDate.DAYS_BEFORE_MONTH Z.eqb Z.ltb Z.compare
       Pos.eqb Pos.compare Pos.compare_cont andb] in *;
  lia.

Lemma month_cases m :
  1 <= m <= 12 ->
  m = 1 \/ m = 2 \/ m = 3 \/ m = 4 \/ m = 5 \/ m = 6
  \/ m = 7 \/ m = 8 \/ m = 9 \/ m = 10 \/ m = 11 \/ m = 12.
Proof. lia. Qed.

(** Year, month and day to the number of the day and back. *)
Lemma ord2ymd_ymd2ord y m d :
  valid_date y m d -> PyDate.ord2ymd (PyDate.ymd2ord y m d) = (y, m, d).
Proof.
  intros (Hy & Hm & Hd).
  destruct (year_parts y Hy) as (a & b & c & e & Ha & Hb & Hc & He & ->).
  unfold PyDate.ymd2ord, PyDate.days_before_month, PyDate.days_in_month in *.
  rewrite days_before_year_parts by assumption.
  rewrite is_leap_parts in * by assumption.
  set (leap := (e =? 3) && (negb (c =? 24) || (b =? 3))) in *.
  set (k := PyDate.DAYS_BEFORE_MONTH m + (if (2 <? m) && leap then 1 else 0) + d - 1).
  replace (146097 * a + 36524 * b + 1461 * c + 365 * e
           + (PyDate.DAYS_BEFORE_MONTH m + (if (2 <? m) && leap then 1 else 0)) + d)
    with (146097 * a + 36524 * b + 1461 * c + 365 * e + k + 1) by (unfold k; lia).
  assert (Hk : 0 <= k < 365 + (if leap then 1 else 0)
               /\ (k = 365 -> m = 12 /\ d = 31)).
  { unfold k. clearbody leap.
    destruct leap;
      destruct (month_cases m Hm) as [->|[->|[->|[->|[->|[->|[->|[->|[->|[->|[->| ->]]]]]]]]]]];
      calendar. }
  destruct Hk as (Hk & Hlast).
  rewrite (ord2ymd_parts a b c e k Hb Hc He Hk). fold leap.
  destruct (k =? 365) eqn:E.
  - apply Z.eqb_eq in E. destruct (Hlast E) as (-> & ->). reflexivity.
  - unfold k. rewrite (month_day_of_date leap m d Hm Hd). reflexivity.
Qed.

Lemma days_before_next_year y :
  PyDate.days_before_year (y + 1)
  = PyDate.days_before_year y + 365 + (if PyDate.is_leap y then 1 else 0).
Proof.
  unfold PyDate.days_before_year, PyDate.is_leap. cbv zeta.
  replace (y + 1 - 1) with y by lia.
  destruct (y mod 4 =? 0) eqn:H4; destruct (y mod 100 =? 0) eqn:H100;
    destruct (y mod 400 =? 0) eqn:H400; cbn [andb orb negb];
    rewrite ?Z.eqb_eq, ?Z.eqb_neq in *;
    Z.div_mod_to_equations; lia.
Qed.

Lemma days_before_year_mono y1 y2 :
  y1 <= y2 -> PyDate.days_before_year y1 <= PyDate.days_before_year y2.
Proof.
  intros H. unfold PyDate.days_before_year. cbv zeta.
  Z.div_mod_to_equations. lia.
Qed.

(** The number of a date lies within its year; it is the last of the year
    only on 31 December. *)
Lemma ymd2ord_bounds y m d :
  valid_date y m d ->
  PyDate.days_before_year y < PyDate.ymd2ord y m d <= PyDate.days_before_year (y + 1)
  /\ (PyDate.ymd2ord y m d = PyDate.days_before_year (y + 1) -> m = 12 /\ d = 31).
Proof.
  intros (Hy & Hm & Hd). rewrite days_before_next_year.
  unfold PyDate.ymd2ord, PyDate.days_before_month, PyDate.days_in_month in *.
  destruct (PyDate.is_leap y);
    destruct (month_cases m Hm) as [->|[->|[->|[->|[->|[->|[->|[->|[->|[->|[->| ->]]]]]]]]]]];
    calendar.
Qed.

(** The day after a date is a date, with the next number. *)
Lemma next_day_ord y m d :
  valid_date y m d ->
  match next_day y m d with
  | (y', m', d') =>
      valid_date y' m' d' /\ PyDate.ymd2ord y' m' d' = PyDate.ymd2ord y m d + 1
  end.
Proof.
  intros (Hy & Hm & Hd). unfold next_day.
  destruct (d <? PyDate.days_in_month y m) eqn:Hlast.
  - apply Z.ltb_lt in Hlast. split; [unfold valid_date; lia|].
    unfold PyDate.ymd2ord. lia.
  - apply Z.ltb_ge in Hlast. assert (Hd' : d = PyDate.days_in_month y m) by lia.
    destruct (m <? 12) eqn:Hdec.
    + apply Z.ltb_lt in Hdec. subst d.
      unfold valid_date, PyDate.ymd2ord, PyDate.days_before_month,
        PyDate.days_in_month in *.
      destruct (PyDate.is_leap y);
        destruct (month_cases m Hm) as [->|[->|[->|[->|[->|[->|[->|[->|[->|[->|[->| ->]]]]]]]]]]];
        calendar.
    + apply Z.ltb_ge in Hdec. assert (m = 12) by lia. subst m d.
      unfold valid_date, PyDate.ymd2ord, PyDate.days_before_month,
        PyDate.days_in_month.
      rewrite days_before_next_year.
      destruct (PyDate.is_leap y), (PyDate.is_leap (y + 1)); calendar.
Qed.

(** Four hours more carry into the next day from 20:00 on. *)
Lemma dubai_carry h mi s us :
  0 <= h < 24 -> 0 <= mi < 60 -> 0 <= s < 60 -> 0 <= us < 1000000 ->
  (h * 3600 + mi * 60 + s + 14400 + (us + 0) / 1000000) / 86400
  = if h <? 20 then 0 else 1.
Proof.
  intros Hh Hmi Hs Hus.
  replace ((us + 0) / 1000000) with 0 by (symmetry; apply Z.div_small; lia).
  destruct (h <? 20) eqn:H20.
  - apply Z.ltb_lt in H20. apply Z.div_small. lia.
  - apply Z.ltb_ge in H20. symmetry.
    apply (Z.div_unique _ 86400 1 (h * 3600 + mi * 60 + s + 14400 + 0 - 86400)); lia.
Qed.

(** The dates up to the year 9999 are days of the library. *)
Lemma ymd2ord_in_range y m d :
  valid_date y m d -> y <= 9999 ->
  0 < PyDate.ymd2ord y m d <= PyDate.MAXORDINAL
  /\ (PyDate.ymd2ord y m d = PyDate.MAXORDINAL -> y = 9999 /\ m = 12 /\ d = 31).
Proof.
  intros Hv Hy. destruct (ymd2ord_bounds y m d Hv) as ((Hlo & Hhi) & Hlast).
  destruct Hv as (Hy1 & _).
  pose proof (days_before_year_mono 1 y Hy1) as H1.
  change (PyDate.days_before_year 1) with 0 in H1.
  pose proof (days_before_year_mono (y + 1) 10000 ltac:(lia)) as H2.
  change (PyDate.days_before_year 10000) with 3652059 in H2.
  unfold PyDate.MAXORDINAL. split; [lia|]. intros Heq.
  assert (Hy9 : y = 9999).
  { destruct (Z.eq_dec y 9999) as [E|E]; [exact E|exfalso].
    pose proof (days_before_year_mono (y + 1) 9999 ltac:(lia)) as H3.
    change (PyDate.days_before_year 9999) with 3651694 in H3. lia. }
  split; [exact Hy9|]. apply Hlast. subst y.
  change (PyDate.days_before_year (9999 + 1)) with 3652059. exact Heq.
Qed.

(** X12. The day that [get_today_date] returns is the day at UTC plus four
    hours: for an instant of the years 1 to 9999 read off the clock, it is
    the date of that instant in UTC before 20:00, and from 20:00 on the day
    after, across the ends of months and years and with 29 February in leap
    years only; it is written as the year, the month and the day with
    hyphens between them, month and day in two digits. On 31 December 9999
    from 20:00 on there is no day after, and the sum raises
    [OverflowError]. *)
Theorem get_today_date_is_the_day_in_dubai (utc_now : PyDate.datetime) :
  valid_datetime utc_now ->
  PyDate.year utc_now <= 9999 ->
  let y := PyDate.year utc_now in
  let m := PyDate.month utc_now in
  let d := PyDate.day utc_now in
  get_today_date_at utc_now
  = if PyDate.hour utc_now <? 20
    then Ok (PyDate.iso y m d)
    else if (y =? 9999) && (m =? 12) && (d =? 31)
    then Error (Exn OverflowError "date value out of range")
    else match next_day y m d with
         | (y', m', d') => Ok (PyDate.iso y' m' d')
         end.
Proof.
  intros (Hdate & Hh & Hmi & Hs & Hus) Hy. cbv zeta.
  destruct (ymd2ord_in_range _ _ _ Hdate Hy) as ((Hlo & Hhi) & Hmax).
  unfold get_today_date_at, PyDate.add, PyDate.toordinal.
  change DUBAI_TZ_OFFSET
    with {| PyDate.days := 0; PyDate.seconds := 14400; PyDate.microseconds := 0 |}.
  cbn [PyDate.days PyDate.seconds PyDate.microseconds].
  unfold PyDate.timedelta_of. cbn [PyDate.days PyDate.seconds PyDate.microseconds].
  rewrite (dubai_carry _ _ _ _ Hh Hmi Hs Hus).
  set (ord := PyDate.ymd2ord (PyDate.year utc_now) (PyDate.month utc_now)
                (PyDate.day utc_now)) in *.
  destruct (PyDate.hour utc_now <? 20).
  - replace (ord + 0 + 0) with ord by lia.
    assert (Hin : (0 <? ord) && (ord <=? PyDate.MAXORDINAL) = true).
    { apply andb_true_iff. rewrite Z.ltb_lt, Z.leb_le. lia. }
    rewrite Hin. unfold ord. rewrite (ord2ymd_ymd2ord _ _ _ Hdate). reflexivity.
  - replace (ord + 0 + 1) with (ord + 1) by lia.
    destruct ((PyDate.year utc_now =? 9999) && (PyDate.month utc_now =? 12)
              && (PyDate.day utc_now =? 31)) eqn:Hend.
    + apply andb_true_iff in Hend. destruct Hend as (Hend & Hd31).
      apply andb_true_iff in Hend. destruct Hend as (Hy9 & Hm12).
      apply Z.eqb_eq in Hy9, Hm12, Hd31.
      assert (Hord : ord = PyDate.MAXORDINAL).
      { unfold ord. rewrite Hy9, Hm12, Hd31. reflexivity. }
      assert (Hout : (0 <? ord + 1) && (ord + 1 <=? PyDate.MAXORDINAL) = false).
      { apply andb_false_iff. right. apply Z.leb_gt. lia. }
      rewrite Hout. reflexivity.
    + assert (Hnot : ord <> PyDate.MAXORDINAL).
      { intros Heq. destruct (Hmax Heq) as (Hy9 & Hm12 & Hd31).
        rewrite Hy9, Hm12, Hd31 in Hend. discriminate Hend. }
      assert (Hin : (0 <? ord + 1) && (ord + 1 <=? PyDate.MAXORDINAL) = true).
      { apply andb_true_iff. rewrite Z.ltb_lt, Z.leb_le. lia. }
      rewrite Hin.
      pose proof (next_day_ord _ _ _ Hdate) as Hnext.
      destruct (next_day (PyDate.year utc_now) (PyDate.month utc_now)
                  (PyDate.day utc_now)) as [[y' m'] d'].
      destruct Hnext as (Hvalid & Hord). fold ord in Hord.
      rewrite <- Hord, (ord2ymd_ymd2ord _ _ _ Hvalid). reflexivity.
Qed.

Lemma get_today_date_is_the_day_in_dubai_leap_day :
  get_today_date_at
    {| PyDate.year := 2024; PyDate.month := 2; PyDate.day := 28;
       PyDate.hour := 20; PyDate.minute := 0; PyDate.second := 0;
       PyDate.microsecond := 0 |}
  = Ok "2024-02-29".
Proof.
  apply (get_today_date_is_the_day_in_dubai
           {| PyDate.year := 2024; PyDate.month := 2; PyDate.day := 28;
              PyDate.hour := 20; PyDate.minute := 0; PyDate.second := 0;
              PyDate.microsecond := 0 |}).
  - unfold valid_datetime, valid_date.
    repeat split; vm_compute; first [reflexivity | discriminate].
  - vm_compute. discriminate.
Defined.

(** ** From the entry to the report *)


